(** * NVRHI command recording: resource-state tracking and the Vulkan
      graphics-state cache

    A shallow embedding of
    - the parts of [include/nvrhi/nvrhi.h] that describe resource states,
      resource descriptors and the graphics state bundle, the equality
      operators and hash functions of [BindingSetItem], [BindingSetDesc]
      and [FramebufferInfo], and
    - [CommandList::beginRenderPass], [endRenderPass], [setGraphicsState],
      [updateGraphicsVolatileBuffers], [draw] and [drawIndexed],
      [getDimensionForFramebuffer], [countSpecializationConstants],
      [makeShaderStageCreateInfo] and the shader-stage part of
      [Device::createGraphicsPipeline] of [src/vulkan/vulkan-graphics.cpp],
    together with a model of the resource state tracker, whose implementation
    is declared in [nvrhi.h] but defined elsewhere. *)

From Stdlib Require Import NArith ZArith List Bool Lia SpecFloat.
From stdpp Require Import base option list gmap.

Local Open Scope N_scope.

(** ** Basic types of nvrhi.h *)

(** Objects of the API are passed by pointer; a pointer is its address and
    [nullptr] is address zero. *)
Definition Ptr := N.
Definition nullptr : Ptr := 0.
Definition isNull (p : Ptr) : bool := p =? 0.

(** [enum class ResourceStates : uint32_t], a bit mask. *)
Module ResourceStates.
Definition Unknown : N := 0.
Definition Common : N := 0x00000001.
Definition ConstantBuffer : N := 0x00000002.
Definition VertexBuffer : N := 0x00000004.
Definition IndexBuffer : N := 0x00000008.
Definition IndirectArgument : N := 0x00000010.
Definition ShaderResource : N := 0x00000020.
Definition UnorderedAccess : N := 0x00000040.
Definition RenderTarget : N := 0x00000080.
Definition DepthWrite : N := 0x00000100.
Definition DepthRead : N := 0x00000200.
Definition StreamOut : N := 0x00000400.
Definition CopyDest : N := 0x00000800.
Definition CopySource : N := 0x00001000.
Definition ResolveDest : N := 0x00002000.
Definition ResolveSource : N := 0x00004000.
Definition Present : N := 0x00008000.
Definition AccelStructRead : N := 0x00010000.
Definition AccelStructWrite : N := 0x00020000.
Definition AccelStructBuildInput : N := 0x00040000.
Definition AccelStructBuildBlas : N := 0x00080000.
Definition ShadingRateSurface : N := 0x00100000.
Definition OpacityMicromapWrite : N := 0x00200000.
Definition OpacityMicromapBuildInput : N := 0x00400000.
Definition ConvertCoopVecMatrixInput : N := 0x00800000.
Definition ConvertCoopVecMatrixOutput : N := 0x01000000.
End ResourceStates.

(** The state-tracking fields shared by [TextureDesc] and [BufferDesc]:
    [initialState], [keepInitialState], and the number of subresources
    (arraySize * mipLevels for a texture, one for a buffer). *)
Record ResourceDesc := {
  numSubresources : nat;
  initialState : N;
  keepInitialState : bool
}.

(** [BufferDesc] defaults: [initialState = ResourceStates::Common],
    [keepInitialState = false]. *)
Definition BufferDesc : ResourceDesc :=
  {| numSubresources := 1;
     initialState := ResourceStates.Common;
     keepInitialState := false |}.

Definition setInitialState (value : N) (d : ResourceDesc) : ResourceDesc :=
  {| numSubresources := numSubresources d;
     initialState := value;
     keepInitialState := keepInitialState d |}.

Definition setKeepInitialState (value : bool) (d : ResourceDesc) : ResourceDesc :=
  {| numSubresources := numSubresources d;
     initialState := initialState d;
     keepInitialState := value |}.

(** [enableAutomaticStateTracking]: equivalent to
    [.setInitialState(_initialState).setKeepInitialState(true)]. *)
Definition enableAutomaticStateTracking (_initialState : N) (d : ResourceDesc)
  : ResourceDesc :=
  {| numSubresources := numSubresources d;
     initialState := _initialState;
     keepInitialState := true |}.

(** A resource as the tracker sees it: an opaque handle with its immutable
    descriptor. *)
Record Resource := {
  handle : Ptr;
  desc : ResourceDesc
}.

(** ** The resource state tracker *)

Module StateTracker.

(** A pending barrier: resource identity, subresource selector, state
    before and state after. *)
Record Barrier := {
  resource : Ptr;
  subresource : nat;
  stateBefore : N;
  stateAfter : N
}.

Definition barrierKey (b : Barrier) : Ptr * nat := (resource b, subresource b).

Inductive Diagnostic :=
| UnknownStateUse (r : Ptr) (sub : nat).

Inductive Error :=
| PermanentStateViolation
| InvalidSessionState.

Inductive Result (A : Type) :=
| Ok (a : A)
| Err (e : Error).
Arguments Ok {A} a.
Arguments Err {A} e.

(** Modelled from the spec: the per-session tracker state, which lives in
    the state-tracking sources that accompany [nvrhi.h].  It holds the
    SubresourceState table, the resources touched in the session, the
    Pending Barrier List, the resources this session has promoted to
    permanent (proposed at record time, committed to the registry when the
    command list is executed), and the messages handed to the diagnostic
    callback. *)
Record Tracker := {
  subresourceStates : gmap (Ptr * nat) N;
  trackedResources : list Resource;
  pendingBarriers : list Barrier;
  permanentTransitions : gmap Ptr N;
  diagnostics : list Diagnostic
}.

(** The Permanent State Registry: device-scoped, shared by all sessions. *)
Abbreviation Registry := (gmap Ptr N).

Definition emptyTracker : Tracker :=
  {| subresourceStates := ∅;
     trackedResources := [];
     pendingBarriers := [];
     permanentTransitions := ∅;
     diagnostics := [] |}.

(** Modelled from the spec: the state a lazily created record starts in.
    Per the comment on [TextureDesc::keepInitialState], a command list
    begins tracking from [initialState] when [keepInitialState] is set;
    any other resource is [Unknown] until [beginTracking] seeds it. *)
Definition firstTouchState (d : ResourceDesc) : N :=
  if keepInitialState d then initialState d else ResourceStates.Unknown.

Definition currentState (t : Tracker) (r : Resource) (sub : nat) : N :=
  default (firstTouchState (desc r)) (subresourceStates t !! (handle r, sub)).

(** Modelled from the spec: the pinned state of a resource as one session
    sees it, from the registry or from the session's own promotion. *)
Definition permanentState (reg : Registry) (t : Tracker) (r : Resource)
  : option N :=
  match reg !! handle r with
  | Some p => Some p
  | None => permanentTransitions t !! handle r
  end.

Definition isTracked (t : Tracker) (r : Resource) : bool :=
  bool_decide (handle r ∈ map handle (trackedResources t)).

(** Records are created lazily on first touch. *)
Definition touch (t : Tracker) (r : Resource) : Tracker :=
  if isTracked t r then t
  else {| subresourceStates := subresourceStates t;
          trackedResources := trackedResources t ++ [r];
          pendingBarriers := pendingBarriers t;
          permanentTransitions := permanentTransitions t;
          diagnostics := diagnostics t |}.

(** Modelled from the spec: merge-on-insert of the Pending Barrier List.
    A barrier for a subresource already in the list is merged by updating
    state-after, provided the state-before of the new request matches the
    trailing state of the pending entry; otherwise it is queued. *)
Fixpoint addBarrier (b : Barrier) (l : list Barrier) : list Barrier :=
  match l with
  | [] => [b]
  | p :: l' =>
      if bool_decide (barrierKey p = barrierKey b) && (stateAfter p =? stateBefore b)
      then {| resource := resource p; subresource := subresource p;
              stateBefore := stateBefore p; stateAfter := stateAfter b |} :: l'
      else p :: addBarrier b l'
  end.

(** Modelled from the spec: one subresource of [requireState].  Equal
    states are a no-op; otherwise the transition (current -> desired) is
    added to the pending list and the table is updated at once.  A
    transition whose origin is [Unknown] is reported to the diagnostic
    callback. *)
Definition requireSubresource (r : Resource) (desired : N) (t : Tracker)
    (sub : nat) : Tracker :=
  let cur := currentState t r sub in
  if cur =? desired then t
  else
    {| subresourceStates := <[(handle r, sub) := desired]> (subresourceStates t);
       trackedResources := trackedResources t;
       pendingBarriers :=
         addBarrier {| resource := handle r; subresource := sub;
                       stateBefore := cur; stateAfter := desired |}
                    (pendingBarriers t);
       permanentTransitions := permanentTransitions t;
       diagnostics :=
         if cur =? ResourceStates.Unknown
         then diagnostics t ++ [UnknownStateUse (handle r) sub]
         else diagnostics t |}.

Definition requireSubresources (r : Resource) (subs : list nat) (desired : N)
    (t : Tracker) : Tracker :=
  foldl (requireSubresource r desired) (touch t r) subs.

(** Modelled from the spec: [requireState(resource, subresourceSet,
    desiredState)], the operation behind [setTextureState] and
    [setBufferState].  For a permanent resource the desired state must
    equal the pinned state, and then no action is performed. *)
Definition requireState (reg : Registry) (t : Tracker) (r : Resource)
    (subs : list nat) (desired : N) : Result Tracker :=
  match permanentState reg t r with
  | Some p => if desired =? p then Ok t else Err PermanentStateViolation
  | None => Ok (requireSubresources r subs desired t)
  end.

Definition allSubresources (r : Resource) : list nat :=
  seq 0 (numSubresources (desc r)).

(** Modelled from the spec: [beginTracking] seeds the table without
    emitting a barrier. *)
Definition beginTracking (t : Tracker) (r : Resource) (subs : list nat)
    (known : N) : Tracker :=
  let t' := touch t r in
  {| subresourceStates :=
       foldl (fun m sub => <[(handle r, sub) := known]> m)
             (subresourceStates t') subs;
     trackedResources := trackedResources t';
     pendingBarriers := pendingBarriers t';
     permanentTransitions := permanentTransitions t';
     diagnostics := diagnostics t' |}.

(** Modelled from the spec: [pinPermanent], the operation behind
    [setPermanentTextureState] and [setPermanentBufferState].  The whole
    resource is transitioned to the state and the session marks it
    permanent; the registry itself changes only at execution. *)
Definition pinPermanent (reg : Registry) (t : Tracker) (r : Resource)
    (state : N) : Result Tracker :=
  match permanentState reg t r with
  | Some p => if state =? p then Ok t else Err PermanentStateViolation
  | None =>
      let t' := requireSubresources r (allSubresources r) state t in
      Ok {| subresourceStates := subresourceStates t';
            trackedResources := trackedResources t';
            pendingBarriers := pendingBarriers t';
            permanentTransitions := <[handle r := state]> (permanentTransitions t');
            diagnostics := diagnostics t' |}
  end.

(** Modelled from the spec: [queryState]; a permanent resource is in its
    pinned state for every session. *)
Definition queryState (reg : Registry) (t : Tracker) (r : Resource)
    (sub : nat) : N :=
  match permanentState reg t r with
  | Some p => p
  | None => currentState t r sub
  end.

(** Modelled from the spec: [flush] hands the pending list to the backend
    encoder and clears it. *)
Definition flush (t : Tracker) : list Barrier * Tracker :=
  (pendingBarriers t,
   {| subresourceStates := subresourceStates t;
      trackedResources := trackedResources t;
      pendingBarriers := [];
      permanentTransitions := permanentTransitions t;
      diagnostics := diagnostics t |}).

(** Modelled from the spec: the restore step of [close()], a
    [requireState] back to the initial state for every tracked resource
    flagged [keepInitialState]. *)
Definition keepInitialStates (reg : Registry) (t : Tracker) : Tracker :=
  foldl (fun t r =>
           if keepInitialState (desc r)
           then match requireState reg t r (allSubresources r)
                                   (initialState (desc r)) with
                | Ok t' => t'
                | Err _ => t
                end
           else t)
        t (trackedResources t).

(** Modelled from the spec: what [open()] does to the tracker.  The
    pending list is cleared, and promotions of a command list that was
    never executed are abandoned. *)
Definition reopen (t : Tracker) : Tracker :=
  {| subresourceStates := subresourceStates t;
     trackedResources := trackedResources t;
     pendingBarriers := [];
     permanentTransitions := ∅;
     diagnostics := diagnostics t |}.

(** Modelled from the spec: executing a command list applies its permanent
    transitions to the registry.  A resource that is already pinned is not
    mutated to a new permanent state. *)
Definition commitPermanent (reg : Registry) (t : Tracker) : Registry :=
  reg ∪ permanentTransitions t.

(** Modelled from the spec: entries are removed only when the resource is
    destroyed. *)
Definition destroyResource (reg : Registry) (r : Resource) : Registry :=
  delete (handle r) reg.

End StateTracker.

(** ** Graphics state of nvrhi.h *)

Definition c_MaxRenderTargets : N := 8.
Definition c_MaxViewports : N := 16.
Definition c_MaxVertexAttributes : N := 16.
Definition c_MaxBindingLayouts : N := 8.

(** A C++ [float] is an IEEE 754 binary32 value. *)
Definition float := spec_float.
Definition float_prec : Z := 24.
Definition float_emax : Z := 128.
Definition float_zero : float := S754_zero false.
Definition float_sub (x y : float) : float := SFsub float_prec float_emax x y.
Definition float_neg (x : float) : float := SFopp x.

Module Color.
Record t := { r : float; g : float; b : float; a : float }.
(** [Color()] *)
Definition init : t := {| r := float_zero; g := float_zero; b := float_zero; a := float_zero |}.
(** [operator ==] and [operator !=] *)
Definition eqb (x y : t) : bool :=
  SFeqb (r x) (r y) && SFeqb (g x) (g y) && SFeqb (b x) (b y) && SFeqb (a x) (a y).
Definition neqb (x y : t) : bool := negb (eqb x y).
End Color.

Module Viewport.
Record t := {
  minX : float; maxX : float;
  minY : float; maxY : float;
  minZ : float; maxZ : float
}.
Definition eqb (x y : t) : bool :=
  SFeqb (minX x) (minX y) && SFeqb (minY x) (minY y) && SFeqb (minZ x) (minZ y)
  && SFeqb (maxX x) (maxX y) && SFeqb (maxY x) (maxY y) && SFeqb (maxZ x) (maxZ y).
Definition neqb (x y : t) : bool := negb (eqb x y).
End Viewport.

Module Rect.
Record t := { minX : Z; maxX : Z; minY : Z; maxY : Z }.
Definition eqb (x y : t) : bool :=
  (minX x =? minX y)%Z && (minY x =? minY y)%Z
  && (maxX x =? maxX y)%Z && (maxY x =? maxY y)%Z.
Definition neqb (x y : t) : bool := negb (eqb x y).
End Rect.

Module ViewportState.
Record t := {
  viewports : list Viewport.t;
  scissorRects : list Rect.t
}.
Definition init : t := {| viewports := []; scissorRects := [] |}.
End ViewportState.

(** [enum class VariableShadingRate : uint8_t] *)
Inductive VariableShadingRate := e1x1 | e1x2 | e2x1 | e2x2 | e2x4 | e4x2 | e4x4.

(** [enum class ShadingRateCombiner : uint8_t] *)
Inductive ShadingRateCombiner := Passthrough | Override | Min | Max | ApplyRelative.

Module VariableRateShadingState.
Record t := {
  enabled : bool;
  shadingRate : VariableShadingRate;
  pipelinePrimitiveCombiner : ShadingRateCombiner;
  imageCombiner : ShadingRateCombiner
}.
Definition init : t :=
  {| enabled := false; shadingRate := e1x1;
     pipelinePrimitiveCombiner := Passthrough; imageCombiner := Passthrough |}.
End VariableRateShadingState.

(** [enum class Format : uint8_t], by its underlying value. *)
Module Format.
Definition UNKNOWN : N := 0.
Definition R16_UINT : N := 9.
End Format.

Module VertexBufferBinding.
Record t := { buffer : Ptr; slot : N; offset : N }.
Definition eqb (x y : t) : bool :=
  (buffer x =? buffer y) && (slot x =? slot y) && (offset x =? offset y).
Definition neqb (x y : t) : bool := negb (eqb x y).
End VertexBufferBinding.

Module IndexBufferBinding.
Record t := { buffer : Ptr; format : N; offset : N }.
Definition init : t := {| buffer := nullptr; format := Format.UNKNOWN; offset := 0 |}.
Definition eqb (x y : t) : bool :=
  (buffer x =? buffer y) && (format x =? format y) && (offset x =? offset y).
Definition neqb (x y : t) : bool := negb (eqb x y).
End IndexBufferBinding.

(** [typedef static_vector<IBindingSet*, c_MaxBindingLayouts> BindingSetVector] *)
Definition BindingSetVector := list Ptr.

Module GraphicsState.
Record t := {
  pipeline : Ptr;
  framebuffer : Ptr;
  viewport : ViewportState.t;
  shadingRateState : VariableRateShadingState.t;
  blendConstantColor : Color.t;
  dynamicStencilRefValue : N;
  bindings : BindingSetVector;
  vertexBuffers : list VertexBufferBinding.t;
  indexBuffer : IndexBufferBinding.t;
  indirectParams : Ptr
}.
Definition init : t :=
  {| pipeline := nullptr; framebuffer := nullptr;
     viewport := ViewportState.init;
     shadingRateState := VariableRateShadingState.init;
     blendConstantColor := Color.init;
     dynamicStencilRefValue := 0;
     bindings := []; vertexBuffers := [];
     indexBuffer := IndexBufferBinding.init;
     indirectParams := nullptr |}.
Definition withFramebuffer (value : Ptr) (s : t) : t :=
  {| pipeline := pipeline s; framebuffer := value;
     viewport := viewport s; shadingRateState := shadingRateState s;
     blendConstantColor := blendConstantColor s;
     dynamicStencilRefValue := dynamicStencilRefValue s;
     bindings := bindings s; vertexBuffers := vertexBuffers s;
     indexBuffer := indexBuffer s; indirectParams := indirectParams s |}.
End GraphicsState.

Module ComputeState.
Record t := {
  pipeline : Ptr;
  bindings : BindingSetVector;
  indirectParams : Ptr
}.
Definition init : t := {| pipeline := nullptr; bindings := []; indirectParams := nullptr |}.
End ComputeState.

Module MeshletState.
Record t := {
  pipeline : Ptr;
  framebuffer : Ptr;
  viewport : ViewportState.t;
  blendConstantColor : Color.t;
  dynamicStencilRefValue : N;
  bindings : BindingSetVector;
  indirectParams : Ptr
}.
Definition init : t :=
  {| pipeline := nullptr; framebuffer := nullptr;
     viewport := ViewportState.init;
     blendConstantColor := Color.init;
     dynamicStencilRefValue := 0;
     bindings := []; indirectParams := nullptr |}.
Definition withFramebuffer (value : Ptr) (s : t) : t :=
  {| pipeline := pipeline s; framebuffer := value;
     viewport := viewport s; blendConstantColor := blendConstantColor s;
     dynamicStencilRefValue := dynamicStencilRefValue s;
     bindings := bindings s; indirectParams := indirectParams s |}.
End MeshletState.

(** [rt::State] *)
Module rt_State.
Record t := { shaderTable : Ptr; bindings : BindingSetVector }.
Definition init : t := {| shaderTable := nullptr; bindings := [] |}.
End rt_State.

Module DrawArguments.
Record t := {
  vertexCount : N;
  instanceCount : N;
  startIndexLocation : N;
  startVertexLocation : N;
  startInstanceLocation : N
}.
Definition init : t :=
  {| vertexCount := 0; instanceCount := 1; startIndexLocation := 0;
     startVertexLocation := 0; startInstanceLocation := 0 |}.
End DrawArguments.

(** Modelled from the spec: [arraysAreDifferent] of the library's common
    helpers, which are not part of the sources at hand.  Two arrays differ
    when their sizes differ or some pair of elements at the same index
    compares unequal. *)
Definition arraysAreDifferent {T U : Type} (ne : T -> U -> bool)
    (a : list T) (b : list U) : bool :=
  negb (length a =? length b)%nat
  || existsb (fun p => ne (fst p) (snd p)) (combine a b).

(** ** Vulkan backend objects *)

(** The fields of the backend's [GraphicsPipeline] that [setGraphicsState]
    reads; [dynamicStencilRef] is
    [desc.renderState.depthStencilState.dynamicStencilRef]. *)
Module GraphicsPipeline.
Record t := {
  pipeline : N;
  pipelineLayout : N;
  pushConstantVisibility : N;
  dynamicStencilRef : bool;
  usesBlendConstants : bool;
  descriptorSetIdxToBindingIdx : list N
}.
End GraphicsPipeline.

(** The fields of the backend's [Framebuffer] that [beginRenderPass] reads;
    an attachment is represented by its image view, zero when absent. *)
Module Framebuffer.
Record t := {
  width : N;
  height : N;
  arraySize : N;
  colorAttachments : list N;
  depthAttachment : N;
  stencilAttachment : N
}.
End Framebuffer.

(** [vk::RenderingInfo] as built by [beginRenderPass]. *)
Record RenderingInfo := {
  renderAreaOffset : Z * Z;
  renderAreaExtent : N * N;
  layerCount : N;
  colorAttachmentCount : N;
  pColorAttachments : list N;
  pDepthAttachment : option N;
  pStencilAttachment : option N
}.

Record VkViewport := {
  vk_x : float; vk_y : float;
  vk_width : float; vk_height : float;
  vk_minDepth : float; vk_maxDepth : float
}.

Record VkRect2D := {
  vk_offset : Z * Z;
  vk_extent : N * N
}.

Inductive IndexType := eUint16 | eUint32.

(** The calls recorded into the Vulkan command buffer. *)
Inductive DriverCall :=
| BindPipeline (pipeline : N)
| BeginRendering (info : RenderingInfo)
| EndRendering
| PipelineBarrier (barriers : list StateTracker.Barrier)
| BindDescriptorSets (layout : N) (sets : BindingSetVector) (idx : list N)
| SetViewport (first : N) (count : N) (viewports : list VkViewport)
| SetScissor (first : N) (count : N) (scissors : list VkRect2D)
| SetStencilReference (reference : N)
| SetBlendConstants (constants : Color.t)
| BindIndexBuffer (buffer : Ptr) (offset : N) (indexType : IndexType)
| BindVertexBuffers (first : N) (count : N)
    (buffers : list (option Ptr)) (offsets : list (option N))
| SetFragmentShadingRateKHR (fragmentSize : N * N) (combiner0 combiner1 : N)
| Draw (vertexCount instanceCount firstVertex firstInstance : N)
| DrawIndexed (indexCount instanceCount firstIndex vertexOffset firstInstance : N)
| CopyBuffer (src dst : Ptr) (srcOffset dstOffset size : N).

(** [m_CurrentCmdBuf]: the recorded calls, oldest first, and the resources
    the command buffer keeps alive. *)
Record TrackedCommandBuffer := {
  cmdBuf : list DriverCall;
  referencedResources : list Ptr
}.

(** The members of the Vulkan [CommandList] that the graphics entry points
    use.  The command list is open: every entry point asserts
    [m_CurrentCmdBuf]. *)
Record CommandList := {
  m_CurrentCmdBuf : TrackedCommandBuffer;
  m_CurrentGraphicsState : GraphicsState.t;
  m_CurrentComputeState : ComputeState.t;
  m_CurrentMeshletState : MeshletState.t;
  m_CurrentRayTracingState : rt_State.t;
  m_CurrentPipelineLayout : N;
  m_CurrentPushConstantsVisibility : N;
  m_AnyVolatileBufferWrites : bool;
  m_EnableAutomaticBarriers : bool;
  m_StateTracker : StateTracker.Tracker
}.

(** [m_CurrentCmdBuf->cmdBuf.<call>(...)] *)
Definition record (c : DriverCall) (cl : CommandList) : CommandList :=
  {| m_CurrentCmdBuf :=
       {| cmdBuf := cmdBuf (m_CurrentCmdBuf cl) ++ [c];
          referencedResources := referencedResources (m_CurrentCmdBuf cl) |};
     m_CurrentGraphicsState := m_CurrentGraphicsState cl;
     m_CurrentComputeState := m_CurrentComputeState cl;
     m_CurrentMeshletState := m_CurrentMeshletState cl;
     m_CurrentRayTracingState := m_CurrentRayTracingState cl;
     m_CurrentPipelineLayout := m_CurrentPipelineLayout cl;
     m_CurrentPushConstantsVisibility := m_CurrentPushConstantsVisibility cl;
     m_AnyVolatileBufferWrites := m_AnyVolatileBufferWrites cl;
     m_EnableAutomaticBarriers := m_EnableAutomaticBarriers cl;
     m_StateTracker := m_StateTracker cl |}.

(** [m_CurrentCmdBuf->referencedResources.push_back(p)] *)
Definition reference (p : Ptr) (cl : CommandList) : CommandList :=
  {| m_CurrentCmdBuf :=
       {| cmdBuf := cmdBuf (m_CurrentCmdBuf cl);
          referencedResources := referencedResources (m_CurrentCmdBuf cl) ++ [p] |};
     m_CurrentGraphicsState := m_CurrentGraphicsState cl;
     m_CurrentComputeState := m_CurrentComputeState cl;
     m_CurrentMeshletState := m_CurrentMeshletState cl;
     m_CurrentRayTracingState := m_CurrentRayTracingState cl;
     m_CurrentPipelineLayout := m_CurrentPipelineLayout cl;
     m_CurrentPushConstantsVisibility := m_CurrentPushConstantsVisibility cl;
     m_AnyVolatileBufferWrites := m_AnyVolatileBufferWrites cl;
     m_EnableAutomaticBarriers := m_EnableAutomaticBarriers cl;
     m_StateTracker := m_StateTracker cl |}.

(** [m_CurrentGraphicsState.framebuffer = fb;
     m_CurrentMeshletState.framebuffer = fb;] *)
Definition setFramebuffers (fb : Ptr) (cl : CommandList) : CommandList :=
  {| m_CurrentCmdBuf := m_CurrentCmdBuf cl;
     m_CurrentGraphicsState :=
       GraphicsState.withFramebuffer fb (m_CurrentGraphicsState cl);
     m_CurrentComputeState := m_CurrentComputeState cl;
     m_CurrentMeshletState :=
       MeshletState.withFramebuffer fb (m_CurrentMeshletState cl);
     m_CurrentRayTracingState := m_CurrentRayTracingState cl;
     m_CurrentPipelineLayout := m_CurrentPipelineLayout cl;
     m_CurrentPushConstantsVisibility := m_CurrentPushConstantsVisibility cl;
     m_AnyVolatileBufferWrites := m_AnyVolatileBufferWrites cl;
     m_EnableAutomaticBarriers := m_EnableAutomaticBarriers cl;
     m_StateTracker := m_StateTracker cl |}.

Definition setStateTracker (t : StateTracker.Tracker) (cl : CommandList)
  : CommandList :=
  {| m_CurrentCmdBuf := m_CurrentCmdBuf cl;
     m_CurrentGraphicsState := m_CurrentGraphicsState cl;
     m_CurrentComputeState := m_CurrentComputeState cl;
     m_CurrentMeshletState := m_CurrentMeshletState cl;
     m_CurrentRayTracingState := m_CurrentRayTracingState cl;
     m_CurrentPipelineLayout := m_CurrentPipelineLayout cl;
     m_CurrentPushConstantsVisibility := m_CurrentPushConstantsVisibility cl;
     m_AnyVolatileBufferWrites := m_AnyVolatileBufferWrites cl;
     m_EnableAutomaticBarriers := m_EnableAutomaticBarriers cl;
     m_StateTracker := t |}.

(** [m_CurrentPipelineLayout = layout;
     m_CurrentPushConstantsVisibility = visibility;] *)
Definition setPipelineLayout (layout visibility : N) (cl : CommandList)
  : CommandList :=
  {| m_CurrentCmdBuf := m_CurrentCmdBuf cl;
     m_CurrentGraphicsState := m_CurrentGraphicsState cl;
     m_CurrentComputeState := m_CurrentComputeState cl;
     m_CurrentMeshletState := m_CurrentMeshletState cl;
     m_CurrentRayTracingState := m_CurrentRayTracingState cl;
     m_CurrentPipelineLayout := layout;
     m_CurrentPushConstantsVisibility := visibility;
     m_AnyVolatileBufferWrites := m_AnyVolatileBufferWrites cl;
     m_EnableAutomaticBarriers := m_EnableAutomaticBarriers cl;
     m_StateTracker := m_StateTracker cl |}.

(** [m_AnyVolatileBufferWrites = value;] *)
Definition setAnyVolatileBufferWrites (value : bool) (cl : CommandList)
  : CommandList :=
  {| m_CurrentCmdBuf := m_CurrentCmdBuf cl;
     m_CurrentGraphicsState := m_CurrentGraphicsState cl;
     m_CurrentComputeState := m_CurrentComputeState cl;
     m_CurrentMeshletState := m_CurrentMeshletState cl;
     m_CurrentRayTracingState := m_CurrentRayTracingState cl;
     m_CurrentPipelineLayout := m_CurrentPipelineLayout cl;
     m_CurrentPushConstantsVisibility := m_CurrentPushConstantsVisibility cl;
     m_AnyVolatileBufferWrites := value;
     m_EnableAutomaticBarriers := m_EnableAutomaticBarriers cl;
     m_StateTracker := m_StateTracker cl |}.

(** The last five statements of [setGraphicsState]:
    [m_CurrentGraphicsState = state; m_CurrentComputeState = ComputeState();
     m_CurrentMeshletState = MeshletState();
     m_CurrentRayTracingState = rt::State();
     m_AnyVolatileBufferWrites = false;] *)
Definition storeGraphicsState (state : GraphicsState.t) (cl : CommandList)
  : CommandList :=
  {| m_CurrentCmdBuf := m_CurrentCmdBuf cl;
     m_CurrentGraphicsState := state;
     m_CurrentComputeState := ComputeState.init;
     m_CurrentMeshletState := MeshletState.init;
     m_CurrentRayTracingState := rt_State.init;
     m_CurrentPipelineLayout := m_CurrentPipelineLayout cl;
     m_CurrentPushConstantsVisibility := m_CurrentPushConstantsVisibility cl;
     m_AnyVolatileBufferWrites := false;
     m_EnableAutomaticBarriers := m_EnableAutomaticBarriers cl;
     m_StateTracker := m_StateTracker cl |}.

(** Modelled from the spec: [CommandList::anyBarriers], defined with the
    barrier code of the backend; it tells whether the pending list holds a
    barrier. *)
Definition anyBarriers (cl : CommandList) : bool :=
  match StateTracker.pendingBarriers (m_StateTracker cl) with
  | [] => false
  | _ :: _ => true
  end.

(** Modelled from the spec: [CommandList::commitBarriers], defined with the
    barrier code of the backend.  Per the comment on
    [ICommandList::commitBarriers], the barriers of the pending list are
    flushed into the graphics API command list; an empty list records
    nothing. *)
Definition commitBarriers (cl : CommandList) : CommandList :=
  match StateTracker.flush (m_StateTracker cl) with
  | ([], _) => cl
  | (b :: bs, t') => record (PipelineBarrier (b :: bs)) (setStateTracker t' cl)
  end.

(** Modelled from the spec: [CommandList::bindBindingSets], defined with the
    binding code of the backend; it is recorded as one descriptor-set bind
    of the given binding sets. *)
Definition bindBindingSets (layout : N) (bindings : BindingSetVector)
    (descriptorSetIdxToBindingIdx : list N) (cl : CommandList) : CommandList :=
  record (BindDescriptorSets layout bindings descriptorSetIdxToBindingIdx) cl.

(** ** The recording session *)

Import StateTracker.

(** Modelled from the spec: the state entry points of [ICommandList], which
    [nvrhi.h] declares and the backend defines elsewhere.  Each routes to
    the tracker and passes its error on. *)
Definition onTracker (f : Tracker -> Result Tracker) (cl : CommandList)
  : Result CommandList :=
  match f (m_StateTracker cl) with
  | Ok t => Ok (setStateTracker t cl)
  | Err e => Err e
  end.

(** Modelled from the spec: [ICommandList::setTextureState] is
    [requireState] on the given subresources. *)
Definition setTextureState (reg : Registry) (texture : Resource)
    (subresources : list nat) (stateBits : N) (cl : CommandList)
  : Result CommandList :=
  onTracker (fun t => requireState reg t texture subresources stateBits) cl.

(** Modelled from the spec: [ICommandList::setBufferState] is
    [requireState] on the single subresource of a buffer. *)
Definition setBufferState (reg : Registry) (buffer : Resource) (stateBits : N)
    (cl : CommandList) : Result CommandList :=
  onTracker (fun t => requireState reg t buffer [0%nat] stateBits) cl.

(** Modelled from the spec: [ICommandList::setPermanentTextureState] is
    [pinPermanent]. *)
Definition setPermanentTextureState (reg : Registry) (texture : Resource)
    (stateBits : N) (cl : CommandList) : Result CommandList :=
  onTracker (fun t => pinPermanent reg t texture stateBits) cl.

(** Modelled from the spec: [ICommandList::setPermanentBufferState] is
    [pinPermanent]. *)
Definition setPermanentBufferState (reg : Registry) (buffer : Resource)
    (stateBits : N) (cl : CommandList) : Result CommandList :=
  onTracker (fun t => pinPermanent reg t buffer stateBits) cl.

(** Modelled from the spec: [ICommandList::getBufferState] is
    [queryState]. *)
Definition getBufferState (reg : Registry) (buffer : Resource) (cl : CommandList)
  : N :=
  queryState reg (m_StateTracker cl) buffer 0.

(** Modelled from the spec: [ICommandList::getTextureSubresourceState] is
    [queryState]. *)
Definition getTextureSubresourceState (reg : Registry) (texture : Resource)
    (sub : nat) (cl : CommandList) : N :=
  queryState reg (m_StateTracker cl) texture sub.

(** Modelled from the spec: the states of a recording session. *)
Inductive Phase := Initial | Open | Closed.

(** Modelled from the spec: a recording session is a command list together
    with the state it is in. *)
Record Session := {
  phase : Phase;
  commandList : CommandList
}.

(** A command list as constructed: default-constructed caches, automatic
    barriers enabled, nothing tracked. *)
Definition initialCommandList : CommandList :=
  {| m_CurrentCmdBuf := {| cmdBuf := []; referencedResources := [] |};
     m_CurrentGraphicsState := GraphicsState.init;
     m_CurrentComputeState := ComputeState.init;
     m_CurrentMeshletState := MeshletState.init;
     m_CurrentRayTracingState := rt_State.init;
     m_CurrentPipelineLayout := 0;
     m_CurrentPushConstantsVisibility := 0;
     m_AnyVolatileBufferWrites := false;
     m_EnableAutomaticBarriers := true;
     m_StateTracker := emptyTracker |}.

Definition newSession : Session :=
  {| phase := Initial; commandList := initialCommandList |}.

(** Modelled from the spec: [open()] goes from Initial or Closed to Open
    with a fresh command buffer, an empty pending list and reset caches. *)
Definition open (s : Session) : Result Session :=
  match phase s with
  | Open => Err InvalidSessionState
  | Initial | Closed =>
      let cl := commandList s in
      Ok {| phase := Open;
            commandList :=
              {| m_CurrentCmdBuf := {| cmdBuf := []; referencedResources := [] |};
                 m_CurrentGraphicsState := GraphicsState.init;
                 m_CurrentComputeState := ComputeState.init;
                 m_CurrentMeshletState := MeshletState.init;
                 m_CurrentRayTracingState := rt_State.init;
                 m_CurrentPipelineLayout := 0;
                 m_CurrentPushConstantsVisibility := 0;
                 m_AnyVolatileBufferWrites := false;
                 m_EnableAutomaticBarriers := m_EnableAutomaticBarriers cl;
                 m_StateTracker := reopen (m_StateTracker cl) |} |}
  end.

(** Modelled from the spec: a command is valid only while the session is
    Open. *)
Definition whileOpen (f : CommandList -> Result CommandList) (s : Session)
  : Result Session :=
  match phase s with
  | Open =>
      match f (commandList s) with
      | Ok cl => Ok {| phase := Open; commandList := cl |}
      | Err e => Err e
      end
  | Initial | Closed => Err InvalidSessionState
  end.

(** Modelled from the spec: a copy names its two resources, requires the
    role-appropriate state of each, flushes, and is then encoded. *)
Definition copyBuffer (reg : Registry) (dest : Resource) (destOffsetBytes : N)
    (src : Resource) (srcOffsetBytes : N) (dataSizeBytes : N)
    (cl : CommandList) : Result CommandList :=
  match setBufferState reg dest ResourceStates.CopyDest cl with
  | Err e => Err e
  | Ok cl =>
      match setBufferState reg src ResourceStates.CopySource cl with
      | Err e => Err e
      | Ok cl =>
          Ok (record (CopyBuffer (handle src) (handle dest)
                        srcOffsetBytes destOffsetBytes dataSizeBytes)
                (commitBarriers cl))
      end
  end.

(** Modelled from the spec: [close()] goes from Open to Closed.  It performs
    the final flush, requires every resource flagged [keepInitialState] back
    to its initial state, and the barriers this adds are emitted with the
    close, so that nothing stays pending in a closed session. *)
Definition close (reg : Registry) (s : Session) : Result Session :=
  match phase s with
  | Open =>
      let cl := commitBarriers (commandList s) in
      let cl := setStateTracker (keepInitialStates reg (m_StateTracker cl)) cl in
      Ok {| phase := Closed; commandList := commitBarriers cl |}
  | Initial | Closed => Err InvalidSessionState
  end.

(** Modelled from the spec: executing a closed command list applies its
    permanent transitions to the registry. *)
Definition executeCommandList (reg : Registry) (s : Session) : Registry :=
  match phase s with
  | Closed => commitPermanent reg (m_StateTracker (commandList s))
  | Initial | Open => reg
  end.

(** ** Vocabulary for the tracker *)

(** The pending barriers of one subresource. *)
Definition pendingFor (t : Tracker) (r : Resource) (sub : nat) : list Barrier :=
  List.filter (fun b => bool_decide (barrierKey b = (handle r, sub)))
    (pendingBarriers t).

(** The invariants of the pending list: it is deduplicated, and the
    state-after of a pending barrier is the tracker's current belief. *)
Definition wellFormed (t : Tracker) : Prop :=
  NoDup (map barrierKey (pendingBarriers t))
  /\ Forall (fun b => subresourceStates t !! barrierKey b = Some (stateAfter b))
       (pendingBarriers t).

(** The tracker operations of one session; an operation that signals an
    error leaves the tracker as it was. *)
Inductive TrackerOp :=
| TRequireState (r : Resource) (subs : list nat) (desired : N)
| TBeginTracking (r : Resource) (subs : list nat) (known : N)
| TPinPermanent (r : Resource) (state : N)
| TFlush
| TKeepInitialStates.

Definition runTrackerOp (reg : Registry) (t : Tracker) (op : TrackerOp) : Tracker :=
  match op with
  | TRequireState r subs desired =>
      match requireState reg t r subs desired with Ok t' => t' | Err _ => t end
  | TBeginTracking r subs known => beginTracking t r subs known
  | TPinPermanent r state =>
      match pinPermanent reg t r state with Ok t' => t' | Err _ => t end
  | TFlush => (flush t).2
  | TKeepInitialStates => keepInitialStates reg t
  end.

(** What can happen to the registry: a command list is executed, or a
    resource is destroyed. *)
Inductive DeviceOp :=
| DExecute (s : Session)
| DDestroy (r : Resource).

Definition runDeviceOp (reg : Registry) (op : DeviceOp) : Registry :=
  match op with
  | DExecute s => executeCommandList reg s
  | DDestroy r => destroyResource reg r
  end.

Definition destroys (h : Ptr) (op : DeviceOp) : bool :=
  match op with
  | DExecute _ => false
  | DDestroy r => handle r =? h
  end.

(** A session holding a given tracker. *)
Definition sessionWith (p : Phase) (t : Tracker) : Session :=
  {| phase := p; commandList := setStateTracker t initialCommandList |}.

(** ** Concrete objects used to exercise the definitions *)

Module Demo.

(** A pipeline object store: every pipeline uses a dynamic stencil reference
    and blend constants. *)
Definition graphicsPipelineAt (p : Ptr) : GraphicsPipeline.t :=
  {| GraphicsPipeline.pipeline := p + 100;
     GraphicsPipeline.pipelineLayout := p + 200;
     GraphicsPipeline.pushConstantVisibility := 1;
     GraphicsPipeline.dynamicStencilRef := true;
     GraphicsPipeline.usesBlendConstants := true;
     GraphicsPipeline.descriptorSetIdxToBindingIdx := [0] |}.

Definition framebufferAt (p : Ptr) : Framebuffer.t :=
  {| Framebuffer.width := 640; Framebuffer.height := 480;
     Framebuffer.arraySize := 1;
     Framebuffer.colorAttachments := [p + 300];
     Framebuffer.depthAttachment := 0;
     Framebuffer.stencilAttachment := 0 |}.

Definition convertShadingRateCombiner (c : ShadingRateCombiner) : N :=
  match c with
  | Passthrough => 0 | Override => 1 | Min => 2 | Max => 3 | ApplyRelative => 4
  end.

Definition convertFragmentShadingRate (r : VariableShadingRate) : N * N :=
  match r with
  | e1x1 => (1, 1) | e1x2 => (1, 2) | e2x1 => (2, 1) | e2x2 => (2, 2)
  | e2x4 => (2, 4) | e4x2 => (4, 2) | e4x4 => (4, 4)
  end.

(** A vertex buffer that is tracked automatically from [Common]. *)
Definition vertexBuffer : Resource :=
  {| handle := 20;
     desc := enableAutomaticStateTracking ResourceStates.Common BufferDesc |}.

(** Tracking that requires the vertex buffer in the [VertexBuffer] state. *)
Definition trackResourcesAndBarriers (cl : CommandList) (state : GraphicsState.t)
  : Tracker :=
  match requireState ∅ (m_StateTracker cl) vertexBuffer [0%nat]
          ResourceStates.VertexBuffer with
  | Ok t => t
  | Err _ => m_StateTracker cl
  end.

(** Tracking that finds every resource in the state it needs. *)
Definition trackNothing (cl : CommandList) (state : GraphicsState.t) : Tracker :=
  m_StateTracker cl.

Definition stateA : GraphicsState.t :=
  {| GraphicsState.pipeline := 1;
     GraphicsState.framebuffer := 5;
     GraphicsState.viewport := ViewportState.init;
     GraphicsState.shadingRateState := VariableRateShadingState.init;
     GraphicsState.blendConstantColor := Color.init;
     GraphicsState.dynamicStencilRefValue := 0;
     GraphicsState.bindings := [10];
     GraphicsState.vertexBuffers :=
       [{| VertexBufferBinding.buffer := 20;
           VertexBufferBinding.slot := 0;
           VertexBufferBinding.offset := 0 |}];
     GraphicsState.indexBuffer :=
       {| IndexBufferBinding.buffer := 30;
          IndexBufferBinding.format := Format.R16_UINT;
          IndexBufferBinding.offset := 0 |};
     GraphicsState.indirectParams := nullptr |}.

(** The same bundle with another pipeline. *)
Definition stateB : GraphicsState.t :=
  {| GraphicsState.pipeline := 2;
     GraphicsState.framebuffer := GraphicsState.framebuffer stateA;
     GraphicsState.viewport := GraphicsState.viewport stateA;
     GraphicsState.shadingRateState := GraphicsState.shadingRateState stateA;
     GraphicsState.blendConstantColor := GraphicsState.blendConstantColor stateA;
     GraphicsState.dynamicStencilRefValue :=
       GraphicsState.dynamicStencilRefValue stateA;
     GraphicsState.bindings := GraphicsState.bindings stateA;
     GraphicsState.vertexBuffers := GraphicsState.vertexBuffers stateA;
     GraphicsState.indexBuffer := GraphicsState.indexBuffer stateA;
     GraphicsState.indirectParams := GraphicsState.indirectParams stateA |}.

End Demo.

(** ** Framebuffer views *)

(** [enum class TextureDimension : uint8_t] *)
Module TextureDimension.
Inductive t :=
| Unknown
| Texture1D
| Texture1DArray
| Texture2D
| Texture2DArray
| TextureCube
| TextureCubeArray
| Texture2DMS
| Texture2DMSArray
| Texture3D.
End TextureDimension.

(** [getDimensionForFramebuffer] of vulkan-graphics.cpp: cubes and 3D
    textures become 2D arrays, and an array becomes a single texture when
    only one layer is needed. *)
Definition getDimensionForFramebuffer (dimension : TextureDimension.t)
    (isArray : bool) : TextureDimension.t :=
  let dimension :=
    match dimension with
    | TextureDimension.TextureCube
    | TextureDimension.TextureCubeArray
    | TextureDimension.Texture3D => TextureDimension.Texture2DArray
    | _ => dimension
    end in
  if negb isArray
  then match dimension with
       | TextureDimension.Texture1DArray => TextureDimension.Texture1D
       | TextureDimension.Texture2DArray => TextureDimension.Texture2D
       | TextureDimension.Texture2DMSArray => TextureDimension.Texture2DMS
       | _ => dimension
       end
  else dimension.

(** ** Shader stages of a graphics pipeline *)

(** [std::vector]: the elements, the capacity and the allocation [data()]
    points to, zero when there is none.  [reserve] allocates when the
    requested capacity exceeds the current one, [push_back] when the vector
    is full; an allocation is one that was not in use before. *)
Module vector.
Record t (T : Type) := { elems : list T; capacity : nat; data : N }.
Arguments elems {T} _.
Arguments capacity {T} _.
Arguments data {T} _.
Definition empty {T : Type} : t T := {| elems := []; capacity := 0; data := 0 |}.
Definition size {T : Type} (v : t T) : nat := length (elems v).
Definition reserve {T : Type} (n : nat) (v : t T) : t T :=
  if (capacity v <? n)%nat
  then {| elems := elems v; capacity := n; data := data v + 1 |}
  else v.
Definition push_back {T : Type} (x : T) (v : t T) : t T :=
  if (size v <? capacity v)%nat
  then {| elems := elems v ++ [x]; capacity := capacity v; data := data v |}
  else {| elems := elems v ++ [x];
          capacity := Nat.max 1 (2 * capacity v);
          data := data v + 1 |}.
End vector.

(** A pointer to an element of a vector: [v.data() + i]. *)
Record ElementPtr := { allocation : N; index : nat }.

(** [struct ShaderSpecialization]; [value] is the [uint32_t] member of the
    union. *)
Module ShaderSpecialization.
Record t := { constantID : N; value : N }.
End ShaderSpecialization.

(** The members of the backend's [Shader] that the pipeline code reads;
    [entryName] stands for [desc.entryName.c_str()]. *)
Module Shader.
Record t := {
  stageFlagBits : N;
  shaderModule : N;
  entryName : N;
  specializationConstants : list ShaderSpecialization.t
}.
End Shader.

(** [enum class ShaderType : uint16_t], the graphics stages. *)
Module ShaderType.
Definition None : N := 0x0000.
Definition Vertex : N := 0x0001.
Definition Hull : N := 0x0002.
Definition Domain : N := 0x0004.
Definition Geometry : N := 0x0008.
Definition Pixel : N := 0x0010.
(** [operator |] of [NVRHI_ENUM_CLASS_FLAG_OPERATORS(ShaderType)] *)
Definition or (a b : N) : N := N.lor a b mod 2 ^ 16.
End ShaderType.

Record SpecializationMapEntry := {
  sme_constantID : N;
  sme_offset : N;
  sme_size : N
}.

Record SpecializationInfo := {
  mapEntryCount : N;
  pMapEntries : ElementPtr;
  dataSize : N;
  pData : ElementPtr
}.

Record PipelineShaderStageCreateInfo := {
  stage : N;
  stageModule : N;
  pName : N;
  pSpecializationInfo : option ElementPtr
}.

Record SpecializationCounts := {
  numShaders : nat;
  numShadersWithSpecializations : nat;
  numSpecializationConstants : nat
}.

Definition countSpecializationConstants (shader : option Shader.t)
    (c : SpecializationCounts) : SpecializationCounts :=
  match shader with
  | None => c
  | Some shader =>
      match Shader.specializationConstants shader with
      | [] =>
          {| numShaders := numShaders c + 1;
             numShadersWithSpecializations := numShadersWithSpecializations c;
             numSpecializationConstants := numSpecializationConstants c |}
      | constants =>
          {| numShaders := numShaders c + 1;
             numShadersWithSpecializations := numShadersWithSpecializations c + 1;
             numSpecializationConstants :=
               numSpecializationConstants c + length constants |}
      end
  end.

(** The loop of [makeShaderStageCreateInfo] over the constants; [dataOffset]
    is a [size_t]. *)
Fixpoint pushSpecializationConstants (constants : list ShaderSpecialization.t)
    (dataOffset : N) (specMapEntries : vector.t SpecializationMapEntry)
    (specData : vector.t N)
  : vector.t SpecializationMapEntry * vector.t N :=
  match constants with
  | [] => (specMapEntries, specData)
  | constant :: rest =>
      let specMapEntry :=
        {| sme_constantID := ShaderSpecialization.constantID constant;
           sme_offset := dataOffset mod 2 ^ 32;
           sme_size := 4 |} in
      pushSpecializationConstants rest
        ((dataOffset + sme_size specMapEntry) mod 2 ^ 64)
        (vector.push_back specMapEntry specMapEntries)
        (vector.push_back (ShaderSpecialization.value constant) specData)
  end.

(** The three vectors [makeShaderStageCreateInfo] writes to. *)
Record SpecializationVectors := {
  specInfos : vector.t SpecializationInfo;
  specMapEntries : vector.t SpecializationMapEntry;
  specData : vector.t N
}.

(** [makeShaderStageCreateInfo]; a failed [assert] has no result. *)
Definition makeShaderStageCreateInfo (shader : Shader.t)
    (v : SpecializationVectors)
  : option (PipelineShaderStageCreateInfo * SpecializationVectors) :=
  match Shader.specializationConstants shader with
  | [] =>
      Some ({| stage := Shader.stageFlagBits shader;
               stageModule := Shader.shaderModule shader;
               pName := Shader.entryName shader;
               pSpecializationInfo := None |}, v)
  | constants =>
      if (vector.data (specInfos v) =? 0)
         || (vector.data (specMapEntries v) =? 0)
         || (vector.data (specData v) =? 0)
      then None
      else
        let specInfo :=
          {| pMapEntries :=
               {| allocation := vector.data (specMapEntries v);
                  index := vector.size (specMapEntries v) |};
             mapEntryCount := N.of_nat (length constants) mod 2 ^ 32;
             pData :=
               {| allocation := vector.data (specData v);
                  index := vector.size (specData v) |};
             dataSize := (N.of_nat (length constants) * 4) mod 2 ^ 64 |} in
        let pushed :=
          pushSpecializationConstants constants 0 (specMapEntries v) (specData v) in
        Some ({| stage := Shader.stageFlagBits shader;
                 stageModule := Shader.shaderModule shader;
                 pName := Shader.entryName shader;
                 pSpecializationInfo :=
                   Some {| allocation := vector.data (specInfos v);
                           index := vector.size (specInfos v) |} |},
              {| specInfos := vector.push_back specInfo (specInfos v);
                 specMapEntries := pushed.1;
                 specData := pushed.2 |})
  end.

(** What [createGraphicsPipeline] has built once the shader stages are set
    up. *)
Record ShaderStages := {
  shaderStages : vector.t PipelineShaderStageCreateInfo;
  specVectors : SpecializationVectors;
  shaderMask : N
}.

(** [if (desc.XS) { shaderStages.push_back(makeShaderStageCreateInfo(XS, ...));
      pso->shaderMask = pso->shaderMask | ShaderType::X; }] *)
Definition addShaderStage (shader : option Shader.t) (type : N)
    (s : ShaderStages) : option ShaderStages :=
  match shader with
  | None => Some s
  | Some sh =>
      match makeShaderStageCreateInfo sh (specVectors s) with
      | None => None
      | Some (info, v) =>
          Some {| shaderStages := vector.push_back info (shaderStages s);
                  specVectors := v;
                  shaderMask := ShaderType.or (shaderMask s) type |}
      end
  end.

Definition noSpecializationCounts : SpecializationCounts :=
  {| numShaders := 0;
     numShadersWithSpecializations := 0;
     numSpecializationConstants := 0 |}.

(** The counts [createGraphicsPipeline] reserves the vectors with. *)
Definition countStages (VS HS DS GS PS : option Shader.t) : SpecializationCounts :=
  countSpecializationConstants PS
    (countSpecializationConstants GS
       (countSpecializationConstants DS
          (countSpecializationConstants HS
             (countSpecializationConstants VS noSpecializationCounts)))).

(** The vectors of [createGraphicsPipeline] after the four [reserve] calls;
    [mask] is the shader mask of the new pipeline object. *)
Definition reservedStages (c : SpecializationCounts) (mask : N) : ShaderStages :=
  {| shaderStages := vector.reserve (numShaders c) vector.empty;
     specVectors :=
       {| specInfos :=
            vector.reserve (numShadersWithSpecializations c) vector.empty;
          specMapEntries :=
            vector.reserve (numSpecializationConstants c) vector.empty;
          specData :=
            vector.reserve (numSpecializationConstants c) vector.empty |};
     shaderMask := mask |}.

(** The shader-stage part of [Device::createGraphicsPipeline]: count the
    specialization constants of the five stages, reserve the vectors, and
    set up the stages that are present. *)
Definition setUpShaderStages (mask : N) (VS HS DS GS PS : option Shader.t)
  : option ShaderStages :=
  s ← addShaderStage VS ShaderType.Vertex
        (reservedStages (countStages VS HS DS GS PS) mask);
  s ← addShaderStage HS ShaderType.Hull s;
  s ← addShaderStage DS ShaderType.Domain s;
  s ← addShaderStage GS ShaderType.Geometry s;
  addShaderStage PS ShaderType.Pixel s.

(** The stages of a pipeline in the order of the source, one after the
    other. *)
Fixpoint addShaderStages (l : list (option Shader.t * N)) (s : ShaderStages)
  : option ShaderStages :=
  match l with
  | [] => Some s
  | (shader, type) :: rest =>
      match addShaderStage shader type s with
      | Some s => addShaderStages rest s
      | None => None
      end
  end.

(** [p] points to [n] consecutive elements of [v]. *)
Definition pointsInto {T : Type} (p : ElementPtr) (n : nat) (v : vector.t T)
  : Prop :=
  allocation p = vector.data v /\ (index p + n <= vector.size v)%nat.

(** The pointers of a stage and of a specialization info refer to the
    vectors of [r]. *)
Definition validStage (r : ShaderStages) (st : PipelineShaderStageCreateInfo)
  : Prop :=
  match pSpecializationInfo st with
  | Some p => pointsInto p 1 (specInfos (specVectors r))
  | None => True
  end.

Definition validInfo (r : ShaderStages) (info : SpecializationInfo) : Prop :=
  pointsInto (pMapEntries info) (N.to_nat (mapEntryCount info))
    (specMapEntries (specVectors r))
  /\ pointsInto (pData info) (N.to_nat (dataSize info / 4))
       (specData (specVectors r)).

(** The stage [st] describes [shader]: following its pointers through the
    vectors of [r] leads back to the shader's specialization constants. *)
Definition stageDescribes (r : ShaderStages) (shader : Shader.t)
    (st : PipelineShaderStageCreateInfo) : Prop :=
  stage st = Shader.stageFlagBits shader
  /\ stageModule st = Shader.shaderModule shader
  /\ pName st = Shader.entryName shader
  /\ match Shader.specializationConstants shader with
     | [] => pSpecializationInfo st = None
     | constants =>
         exists p info,
           pSpecializationInfo st = Some p
           /\ vector.elems (specInfos (specVectors r)) !! index p = Some info
           /\ mapEntryCount info = N.of_nat (length constants)
           /\ dataSize info = 4 * N.of_nat (length constants)
           /\ forall k c, constants !! k = Some c ->
                exists e,
                  vector.elems (specMapEntries (specVectors r))
                    !! (index (pMapEntries info) + k)%nat = Some e
                  /\ sme_constantID e = ShaderSpecialization.constantID c
                  /\ sme_size e = 4
                  /\ vector.elems (specData (specVectors r))
                       !! (index (pData info) + N.to_nat (sme_offset e / 4))%nat
                     = Some (ShaderSpecialization.value c)
     end.

(** The shaders that are present, and the size of their constants in
    bytes. *)
Definition presentShaders (l : list (option Shader.t)) : list Shader.t :=
  omap id l.

Definition constantBytes (shader : Shader.t) : N :=
  4 * N.of_nat (length (Shader.specializationConstants shader)).

(** The specialization vectors of [r] are those of [s] with elements added
    at the end, in the same allocations. *)
Definition stagesExtend (s r : ShaderStages) : Prop :=
  vector.data (specInfos (specVectors r)) = vector.data (specInfos (specVectors s))
  /\ vector.elems (specInfos (specVectors s))
       `prefix_of` vector.elems (specInfos (specVectors r))
  /\ vector.data (specMapEntries (specVectors r))
     = vector.data (specMapEntries (specVectors s))
  /\ vector.elems (specMapEntries (specVectors s))
       `prefix_of` vector.elems (specMapEntries (specVectors r))
  /\ vector.data (specData (specVectors r)) = vector.data (specData (specVectors s))
  /\ vector.elems (specData (specVectors s))
       `prefix_of` vector.elems (specData (specVectors r)).

(** Five shader stages used to exercise the definitions: a vertex shader
    with two specialization constants and a pixel shader with one. *)
Module DemoShaders.
Definition VS : Shader.t :=
  {| Shader.stageFlagBits := 1; Shader.shaderModule := 101; Shader.entryName := 201;
     Shader.specializationConstants :=
       [{| ShaderSpecialization.constantID := 7; ShaderSpecialization.value := 70 |};
        {| ShaderSpecialization.constantID := 3; ShaderSpecialization.value := 30 |}] |}.
Definition GS : Shader.t :=
  {| Shader.stageFlagBits := 8; Shader.shaderModule := 102; Shader.entryName := 202;
     Shader.specializationConstants := [] |}.
Definition PS : Shader.t :=
  {| Shader.stageFlagBits := 16; Shader.shaderModule := 103; Shader.entryName := 203;
     Shader.specializationConstants :=
       [{| ShaderSpecialization.constantID := 5; ShaderSpecialization.value := 50 |}] |}.
End DemoShaders.

(** ** Equality and hashing of nvrhi.h *)

#[global] Instance TextureDimension_eq_dec : EqDecision TextureDimension.t.
Proof. solve_decision. Defined.

(** [std::hash<T>] for the member types that are hashed; each result is a
    [size_t]. *)
Record StdHash := {
  hash_pointer : Ptr -> N;
  hash_uint32 : N -> N;
  hash_uint64 : N -> N;
  hash_ResourceType : N -> N;
  hash_TextureDimension : TextureDimension.t -> N;
  hash_Format : N -> N
}.

(** [hash_combine]:
    [seed ^= hasher(v) + 0x9e3779b9 + (seed << 6) + (seed >> 2)], on a
    [size_t] of 64 bits. *)
Definition hash_combine {T : Type} (hasher : T -> N) (seed : N) (v : T) : N :=
  N.lxor seed
    ((hasher v + 0x9e3779b9 + N.shiftl seed 6 + N.shiftr seed 2) mod 2 ^ 64).

(** [struct BindingSetItem]; [type] and [format] by their underlying
    values, [rawData] the two words of the union. *)
Module BindingSetItem.
Record t := {
  resourceHandle : Ptr;
  slot : N;
  arrayElement : N;
  type : N;
  dimension : TextureDimension.t;
  format : N;
  unused : N;
  unused2 : N;
  rawData : N * N
}.
Definition eqb (a b : t) : bool :=
  (resourceHandle a =? resourceHandle b)
  && (slot a =? slot b)
  && (type a =? type b)
  && bool_decide (dimension a = dimension b)
  && (format a =? format b)
  && ((rawData a).1 =? (rawData b).1)
  && ((rawData a).2 =? (rawData b).2).
Definition neqb (a b : t) : bool := negb (eqb a b).
Definition setArrayElement (value : N) (s : t) : t :=
  {| resourceHandle := resourceHandle s; slot := slot s;
     arrayElement := value;
     type := type s; dimension := dimension s; format := format s;
     unused := unused s; unused2 := unused2 s; rawData := rawData s |}.
(** [std::hash<nvrhi::BindingSetItem>] *)
Definition hash (H : StdHash) (s : t) : N :=
  let value := 0 in
  let value := hash_combine (hash_pointer H) value (resourceHandle s) in
  let value := hash_combine (hash_uint32 H) value (slot s) in
  let value := hash_combine (hash_ResourceType H) value (type s) in
  let value := hash_combine (hash_TextureDimension H) value (dimension s) in
  let value := hash_combine (hash_Format H) value (format s) in
  let value := hash_combine (hash_uint64 H) value (rawData s).1 in
  let value := hash_combine (hash_uint64 H) value (rawData s).2 in
  value.
End BindingSetItem.

Module BindingSetDesc.
Record t := {
  bindings : list BindingSetItem.t;
  trackLiveness : bool
}.
(** The loop of [operator ==] over two vectors of the same size. *)
Fixpoint bindingsEqual (a b : list BindingSetItem.t) : bool :=
  match a, b with
  | x :: a, y :: b =>
      if BindingSetItem.neqb x y then false else bindingsEqual a b
  | _, _ => true
  end.
Definition eqb (a b : t) : bool :=
  if negb (length (bindings a) =? length (bindings b))%nat then false
  else bindingsEqual (bindings a) (bindings b).
Definition neqb (a b : t) : bool := negb (eqb a b).
Definition setTrackLiveness (value : bool) (s : t) : t :=
  {| bindings := bindings s; trackLiveness := value |}.
(** [std::hash<nvrhi::BindingSetDesc>] *)
Definition hash (H : StdHash) (s : t) : N :=
  foldl (hash_combine (BindingSetItem.hash H)) 0 (bindings s).
End BindingSetDesc.

(** [struct FramebufferInfo]; formats by their underlying values. *)
Module FramebufferInfo.
Record t := {
  colorFormats : list N;
  depthFormat : N;
  sampleCount : N;
  sampleQuality : N
}.
(** The loop of [formatsEqual] over two vectors of the same size. *)
Fixpoint formatsEqualFrom (a b : list N) : bool :=
  match a, b with
  | x :: a, y :: b => if negb (x =? y) then false else formatsEqualFrom a b
  | _, _ => true
  end.
Definition formatsEqual (a b : list N) : bool :=
  if negb (length a =? length b)%nat then false else formatsEqualFrom a b.
Definition eqb (a b : t) : bool :=
  formatsEqual (colorFormats a) (colorFormats b)
  && (depthFormat a =? depthFormat b)
  && (sampleCount a =? sampleCount b)
  && (sampleQuality a =? sampleQuality b).
Definition neqb (a b : t) : bool := negb (eqb a b).
(** [std::hash<nvrhi::FramebufferInfo>] *)
Definition hash (H : StdHash) (s : t) : N :=
  let hash := foldl (hash_combine (hash_Format H)) 0 (colorFormats s) in
  let hash := hash_combine (hash_Format H) hash (depthFormat s) in
  let hash := hash_combine (hash_uint32 H) hash (sampleCount s) in
  let hash := hash_combine (hash_uint32 H) hash (sampleQuality s) in
  hash.
End FramebufferInfo.

Module DemoBindings.
Definition stdHash : StdHash :=
  {| hash_pointer := fun p => p; hash_uint32 := fun x => x;
     hash_uint64 := fun x => x; hash_ResourceType := fun x => x;
     hash_TextureDimension := fun _ => 0; hash_Format := fun x => x |}.
Definition item : BindingSetItem.t :=
  {| BindingSetItem.resourceHandle := 40; BindingSetItem.slot := 2;
     BindingSetItem.arrayElement := 0; BindingSetItem.type := 1;
     BindingSetItem.dimension := TextureDimension.Texture2D;
     BindingSetItem.format := 0; BindingSetItem.unused := 0;
     BindingSetItem.unused2 := 0; BindingSetItem.rawData := (0, 1) |}.
Definition desc : BindingSetDesc.t :=
  {| BindingSetDesc.bindings := [item; BindingSetItem.setArrayElement 1 item];
     BindingSetDesc.trackLiveness := true |}.
End DemoBindings.

(** More states to exercise the definitions. *)
Module DemoStates.

(** [Demo.stateA] with other vertex buffers, a viewport, blend constants and
    a shading rate. *)
Definition withDynamicState (vertexBuffers : list VertexBufferBinding.t)
    (viewports : list Viewport.t) (blendConstantColor : Color.t)
    (shadingRateEnabled : bool) : GraphicsState.t :=
  {| GraphicsState.pipeline := GraphicsState.pipeline Demo.stateA;
     GraphicsState.framebuffer := GraphicsState.framebuffer Demo.stateA;
     GraphicsState.viewport :=
       {| ViewportState.viewports := viewports;
          ViewportState.scissorRects := [] |};
     GraphicsState.shadingRateState :=
       {| VariableRateShadingState.enabled := shadingRateEnabled;
          VariableRateShadingState.shadingRate := e2x2;
          VariableRateShadingState.pipelinePrimitiveCombiner := Passthrough;
          VariableRateShadingState.imageCombiner := Override |};
     GraphicsState.blendConstantColor := blendConstantColor;
     GraphicsState.dynamicStencilRefValue :=
       GraphicsState.dynamicStencilRefValue Demo.stateA;
     GraphicsState.bindings := GraphicsState.bindings Demo.stateA;
     GraphicsState.vertexBuffers := vertexBuffers;
     GraphicsState.indexBuffer := GraphicsState.indexBuffer Demo.stateA;
     GraphicsState.indirectParams := 50 |}.

(** Bindings that name slot two twice, leave slot one out and name a slot
    beyond the sixteenth. *)
Definition scatteredVertexBuffers : list VertexBufferBinding.t :=
  [{| VertexBufferBinding.buffer := 20; VertexBufferBinding.slot := 0;
      VertexBufferBinding.offset := 0 |};
   {| VertexBufferBinding.buffer := 21; VertexBufferBinding.slot := 2;
      VertexBufferBinding.offset := 64 |};
   {| VertexBufferBinding.buffer := 22; VertexBufferBinding.slot := 40;
      VertexBufferBinding.offset := 0 |};
   {| VertexBufferBinding.buffer := 23; VertexBufferBinding.slot := 2;
      VertexBufferBinding.offset := 128 |}].

Definition nanViewport : Viewport.t :=
  {| Viewport.minX := S754_nan; Viewport.maxX := float_zero;
     Viewport.minY := float_zero; Viewport.maxY := float_zero;
     Viewport.minZ := float_zero; Viewport.maxZ := float_zero |}.

Definition nanColor : Color.t :=
  {| Color.r := float_zero; Color.g := S754_nan;
     Color.b := float_zero; Color.a := float_zero |}.

Definition stateScattered : GraphicsState.t :=
  withDynamicState scatteredVertexBuffers [] Color.init false.

Definition stateNaN : GraphicsState.t :=
  withDynamicState (GraphicsState.vertexBuffers Demo.stateA)
    [nanViewport] nanColor false.

Definition stateShadingRate : GraphicsState.t :=
  withDynamicState (GraphicsState.vertexBuffers Demo.stateA) [] Color.init true.

(** [Demo.stateA] with one viewport and one scissor rectangle. *)
Definition stateViewport : GraphicsState.t :=
  {| GraphicsState.pipeline := GraphicsState.pipeline Demo.stateA;
     GraphicsState.framebuffer := GraphicsState.framebuffer Demo.stateA;
     GraphicsState.viewport :=
       {| ViewportState.viewports :=
            [{| Viewport.minX := float_zero; Viewport.maxX := float_zero;
                Viewport.minY := float_zero; Viewport.maxY := float_zero;
                Viewport.minZ := float_zero; Viewport.maxZ := float_zero |}];
          ViewportState.scissorRects :=
            [{| Rect.minX := 640; Rect.maxX := 0;
                Rect.minY := 0; Rect.maxY := 480 |}] |};
     GraphicsState.shadingRateState := VariableRateShadingState.init;
     GraphicsState.blendConstantColor := Color.init;
     GraphicsState.dynamicStencilRefValue := 3;
     GraphicsState.bindings := GraphicsState.bindings Demo.stateA;
     GraphicsState.vertexBuffers := GraphicsState.vertexBuffers Demo.stateA;
     GraphicsState.indexBuffer := GraphicsState.indexBuffer Demo.stateA;
     GraphicsState.indirectParams := nullptr |}.

(** A command list in the middle of other work: the compute, meshlet and
    ray-tracing caches hold a pipeline or shader table and binding sets, a
    render pass on the meshlet framebuffer is active and a volatile buffer
    has been written. *)
Definition afterOtherPipelines : CommandList :=
  {| m_CurrentCmdBuf :=
       {| cmdBuf :=
            [BeginRendering
               {| renderAreaOffset := (0%Z, 0%Z);
                  renderAreaExtent := (640, 480);
                  layerCount := 1;
                  colorAttachmentCount := 1;
                  pColorAttachments := [306];
                  pDepthAttachment := None;
                  pStencilAttachment := None |}];
          referencedResources := [6] |};
     m_CurrentGraphicsState := GraphicsState.init;
     m_CurrentComputeState :=
       {| ComputeState.pipeline := 7; ComputeState.bindings := [10];
          ComputeState.indirectParams := nullptr |};
     m_CurrentMeshletState :=
       {| MeshletState.pipeline := 1; MeshletState.framebuffer := 6;
          MeshletState.viewport := ViewportState.init;
          MeshletState.blendConstantColor := Color.init;
          MeshletState.dynamicStencilRefValue := 0;
          MeshletState.bindings := [10];
          MeshletState.indirectParams := nullptr |};
     m_CurrentRayTracingState :=
       {| rt_State.shaderTable := 9; rt_State.bindings := [10] |};
     m_CurrentPipelineLayout := 207;
     m_CurrentPushConstantsVisibility := 1;
     m_AnyVolatileBufferWrites := true;
     m_EnableAutomaticBarriers := true;
     m_StateTracker := emptyTracker |}.

End DemoStates.

(** ** Vocabulary for recorded calls *)

Definition calls (cl : CommandList) : list DriverCall :=
  cmdBuf (m_CurrentCmdBuf cl).

(** The calls recorded between two points of one recording. *)
Definition newCalls (before after : CommandList) : list DriverCall :=
  drop (length (calls before)) (calls after).

Definition isBindPipeline (c : DriverCall) : bool :=
  match c with BindPipeline _ => true | _ => false end.
Definition isBindDescriptorSets (c : DriverCall) : bool :=
  match c with BindDescriptorSets _ _ _ => true | _ => false end.
Definition isBindIndexBuffer (c : DriverCall) : bool :=
  match c with BindIndexBuffer _ _ _ => true | _ => false end.
Definition isBindVertexBuffers (c : DriverCall) : bool :=
  match c with BindVertexBuffers _ _ _ _ => true | _ => false end.
Definition isSetStencilReference (c : DriverCall) : bool :=
  match c with SetStencilReference _ => true | _ => false end.
Definition isSetBlendConstants (c : DriverCall) : bool :=
  match c with SetBlendConstants _ => true | _ => false end.
Definition isBeginRendering (c : DriverCall) : bool :=
  match c with BeginRendering _ => true | _ => false end.
Definition isEndRendering (c : DriverCall) : bool :=
  match c with EndRendering => true | _ => false end.
Definition isPipelineBarrier (c : DriverCall) : bool :=
  match c with PipelineBarrier _ => true | _ => false end.

(** A call that re-binds binding sets, vertex buffers or the index buffer. *)
Definition isRebind (c : DriverCall) : bool :=
  isBindDescriptorSets c || isBindVertexBuffers c || isBindIndexBuffer c.

(** Replays a command buffer and follows the render pass it is in.  [None]
    when a render pass is begun inside another one or ended while none is
    active; otherwise whether a render pass is active at the end. *)
Fixpoint renderPassNesting (active : bool) (trace : list DriverCall)
  : option bool :=
  match trace with
  | [] => Some active
  | BeginRendering _ :: rest =>
      if active then None else renderPassNesting true rest
  | EndRendering :: rest =>
      if active then renderPassNesting false rest else None
  | _ :: rest => renderPassNesting active rest
  end.

Definition isSetViewport (c : DriverCall) : bool :=
  match c with SetViewport _ _ _ => true | _ => false end.
Definition isSetScissor (c : DriverCall) : bool :=
  match c with SetScissor _ _ _ => true | _ => false end.
Definition isSetFragmentShadingRate (c : DriverCall) : bool :=
  match c with SetFragmentShadingRateKHR _ _ _ => true | _ => false end.

(** A call that ends or begins a render pass, commits barriers or sets the
    shading rate. *)
Definition isRenderPassOrShadingRate (c : DriverCall) : bool :=
  isEndRendering c || isPipelineBarrier c || isBeginRendering c
  || isSetFragmentShadingRate c.

(** Not-a-number values, which compare unequal to themselves. *)
Definition isNaN (x : float) : bool :=
  match x with S754_nan => true | _ => false end.

Definition colorHasNaN (c : Color.t) : bool :=
  isNaN (Color.r c) || isNaN (Color.g c) || isNaN (Color.b c) || isNaN (Color.a c).

Definition viewportHasNaN (v : Viewport.t) : bool :=
  isNaN (Viewport.minX v) || isNaN (Viewport.maxX v)
  || isNaN (Viewport.minY v) || isNaN (Viewport.maxY v)
  || isNaN (Viewport.minZ v) || isNaN (Viewport.maxZ v).

(** The vertex-buffer bindings whose slot [setGraphicsState] does not skip. *)
Definition inRange (binding : VertexBufferBinding.t) : bool :=
  negb (c_MaxVertexAttributes <=? VertexBufferBinding.slot binding).

(** The last binding of a list that names the slot [s]. *)
Definition lastBindingOf (s : N) (bs : list VertexBufferBinding.t)
  : option VertexBufferBinding.t :=
  last (List.filter (fun b => VertexBufferBinding.slot b =? s) bs).

(** The resources the command buffer keeps alive. *)
Definition keptResources (cl : CommandList) : list Ptr :=
  referencedResources (m_CurrentCmdBuf cl).

(** Every object the graphics-state cache holds as bound is kept alive by
    the command buffer. *)
Definition keptAlive (cl : CommandList) : Prop :=
  let gs := m_CurrentGraphicsState cl in
  (GraphicsState.pipeline gs = nullptr
   \/ GraphicsState.pipeline gs ∈ keptResources cl)
  /\ (GraphicsState.framebuffer gs = nullptr
      \/ GraphicsState.framebuffer gs ∈ keptResources cl)
  /\ (MeshletState.framebuffer (m_CurrentMeshletState cl) = nullptr
      \/ MeshletState.framebuffer (m_CurrentMeshletState cl) ∈ keptResources cl)
  /\ (IndexBufferBinding.buffer (GraphicsState.indexBuffer gs) = nullptr
      \/ IndexBufferBinding.buffer (GraphicsState.indexBuffer gs) ∈ keptResources cl)
  /\ (GraphicsState.indirectParams gs = nullptr
      \/ GraphicsState.indirectParams gs ∈ keptResources cl)
  /\ (forall b, b ∈ GraphicsState.vertexBuffers gs ->
        inRange b = true ->
        VertexBufferBinding.buffer b ∈ keptResources cl).

(** ** Dynamic states of a graphics pipeline *)

(** [vk::DynamicState], the values [createGraphicsPipeline] uses. *)
Inductive DynamicState :=
| eViewport
| eScissor
| eBlendConstants
| eStencilReference
| eFragmentShadingRateKHR.

#[global] Instance DynamicState_eq_dec : EqDecision DynamicState.
Proof. solve_decision. Defined.

(** [static_vector<T, capacity>::push_back]; pushing into a full vector has
    no result. *)
Definition static_push_back {T : Type} (capacity : nat) (x : T) (v : list T)
  : option (list T) :=
  if (length v <? capacity)%nat then Some (v ++ [x]) else None.

(** The dynamic states [Device::createGraphicsPipeline] declares, from
    [pso->usesBlendConstants],
    [pso->desc.renderState.depthStencilState.dynamicStencilRef] and
    [pso->desc.shadingRateState.enabled]. *)
Definition pipelineDynamicStates
    (usesBlendConstants dynamicStencilRef shadingRateEnabled : bool)
  : option (list DynamicState) :=
  let dynamicStates := [eViewport; eScissor] in
  dynamicStates ←
    (if usesBlendConstants
     then static_push_back 5 eBlendConstants dynamicStates
     else Some dynamicStates);
  dynamicStates ←
    (if dynamicStencilRef
     then static_push_back 5 eStencilReference dynamicStates
     else Some dynamicStates);
  if shadingRateEnabled
  then static_push_back 5 eFragmentShadingRateKHR dynamicStates
  else Some dynamicStates.

(** ** vulkan-graphics.cpp *)

Section VulkanGraphics.

(** The object store: [checked_cast<GraphicsPipeline*>(p)] and
    [checked_cast<Framebuffer*>(p)] followed by a member access. *)
Variable graphicsPipelineAt : Ptr -> GraphicsPipeline.t.
Variable framebufferAt : Ptr -> Framebuffer.t.

(** [trackResourcesAndBarriers(state)] is defined with the state-tracking
    code of the backend; it reads the command list and leaves a new tracker
    state. *)
Variable trackResourcesAndBarriers :
  CommandList -> GraphicsState.t -> StateTracker.Tracker.

(** The enum conversions of the backend's constant tables. *)
Variable convertShadingRateCombiner : ShadingRateCombiner -> N.
Variable convertFragmentShadingRate : VariableShadingRate -> N * N.

Definition renderPassActive (cl : CommandList) : bool :=
  negb (isNull (GraphicsState.framebuffer (m_CurrentGraphicsState cl)))
  || negb (isNull (MeshletState.framebuffer (m_CurrentMeshletState cl))).

Definition endRenderPass (cl : CommandList) : CommandList :=
  if renderPassActive cl
  then setFramebuffers nullptr (record EndRendering cl)
  else cl.

Definition renderingInfoOf (framebuffer : Framebuffer.t) : RenderingInfo :=
  {| renderAreaOffset := (0%Z, 0%Z);
     renderAreaExtent := (Framebuffer.width framebuffer, Framebuffer.height framebuffer);
     layerCount := Framebuffer.arraySize framebuffer;
     colorAttachmentCount :=
       N.of_nat (length (Framebuffer.colorAttachments framebuffer)) mod 2 ^ 32;
     pColorAttachments := Framebuffer.colorAttachments framebuffer;
     pDepthAttachment :=
       if Framebuffer.depthAttachment framebuffer =? 0 then None
       else Some (Framebuffer.depthAttachment framebuffer);
     pStencilAttachment :=
       if Framebuffer.stencilAttachment framebuffer =? 0 then None
       else Some (Framebuffer.stencilAttachment framebuffer) |}.

Definition beginRenderPass (_framebuffer : Ptr) (cl : CommandList) : CommandList :=
  let cl := endRenderPass cl in
  if isNull _framebuffer then cl
  else
    let cl := setFramebuffers _framebuffer cl in
    let cl := record (BeginRendering (renderingInfoOf (framebufferAt _framebuffer))) cl in
    reference _framebuffer cl.

Definition VKViewportWithDXCoords (v : Viewport.t) : VkViewport :=
  {| vk_x := Viewport.minX v;
     vk_y := Viewport.maxY v;
     vk_width := float_sub (Viewport.maxX v) (Viewport.minX v);
     vk_height := float_neg (float_sub (Viewport.maxY v) (Viewport.minY v));
     vk_minDepth := Viewport.minZ v;
     vk_maxDepth := Viewport.maxZ v |}.

(** Arithmetic on [int], which is 32 bits wide.  A subtraction whose result
    does not fit, and [std::abs] of the least value, overflow; signed
    overflow has no defined result. *)
Definition int_min : Z := - 2 ^ 31.
Definition int_max : Z := 2 ^ 31 - 1.

Definition int_sub (a b : Z) : option Z :=
  let d := (a - b)%Z in
  if (int_min <=? d)%Z && (d <=? int_max)%Z then Some d else None.

Definition int_abs (a : Z) : option Z :=
  if (a =? int_min)%Z then None else Some (Z.abs a).

(** [vk::Rect2D(vk::Offset2D(sc.minX, sc.minY),
      vk::Extent2D(std::abs(sc.maxX - sc.minX), std::abs(sc.maxY - sc.minY)))];
    the [int] results, which are not negative, are converted to
    [uint32_t]. *)
Definition scissorOf (sc : Rect.t) : option VkRect2D :=
  width ← int_sub (Rect.maxX sc) (Rect.minX sc) ≫= int_abs;
  height ← int_sub (Rect.maxY sc) (Rect.minY sc) ≫= int_abs;
  Some {| vk_offset := (Rect.minX sc, Rect.minY sc);
          vk_extent := (Z.to_N width, Z.to_N height) |}.

(** The loop over [state.viewport.scissorRects]. *)
Fixpoint scissorsOf (scissorRects : list Rect.t) : option (list VkRect2D) :=
  match scissorRects with
  | [] => Some []
  | sc :: rest =>
      scissor ← scissorOf sc;
      scissors ← scissorsOf rest;
      Some (scissor :: scissors)
  end.

(** The local arrays and counter of the vertex-buffer loop; a slot that was
    never written holds no defined value. *)
Record VertexBufferArrays := {
  vertexBuffers : list (option Ptr);
  vertexBufferOffsets : list (option N);
  maxVbIndex : N
}.

Definition emptyVertexBufferArrays : VertexBufferArrays :=
  {| vertexBuffers := replicate (N.to_nat c_MaxVertexAttributes) None;
     vertexBufferOffsets := replicate (N.to_nat c_MaxVertexAttributes) None;
     maxVbIndex := 0 |}.

(** The loop over [state.vertexBuffers].  Slots beyond
    [c_MaxVertexAttributes] are skipped; the buffer of any other binding is
    dereferenced, so it must not be null. *)
Fixpoint fillVertexBuffers (bs : list VertexBufferBinding.t)
    (arrays : VertexBufferArrays) (cl : CommandList)
  : option (VertexBufferArrays * CommandList) :=
  match bs with
  | [] => Some (arrays, cl)
  | binding :: rest =>
      if c_MaxVertexAttributes <=? VertexBufferBinding.slot binding
      then fillVertexBuffers rest arrays cl
      else if isNull (VertexBufferBinding.buffer binding) then None
      else
        let i := N.to_nat (VertexBufferBinding.slot binding) in
        fillVertexBuffers rest
          {| vertexBuffers :=
               <[i := Some (VertexBufferBinding.buffer binding)]> (vertexBuffers arrays);
             vertexBufferOffsets :=
               <[i := Some (VertexBufferBinding.offset binding)]> (vertexBufferOffsets arrays);
             maxVbIndex := N.max (maxVbIndex arrays) (VertexBufferBinding.slot binding) |}
          (reference (VertexBufferBinding.buffer binding) cl)
  end.

Definition bindVertexBuffers (bs : list VertexBufferBinding.t) (cl : CommandList)
  : option CommandList :=
  match fillVertexBuffers bs emptyVertexBufferArrays cl with
  | None => None
  | Some (arrays, cl) =>
      let count := maxVbIndex arrays + 1 in
      Some (record (BindVertexBuffers 0 count
                      (take (N.to_nat count) (vertexBuffers arrays))
                      (take (N.to_nat count) (vertexBufferOffsets arrays))) cl)
  end.

(** [ptr != ptr] and the element comparisons handed to [arraysAreDifferent]. *)
Definition ptr_neqb (x y : Ptr) : bool := negb (x =? y).

Definition isEmpty {A : Type} (l : list A) : bool :=
  match l with [] => true | _ :: _ => false end.

(** The conditions of [setGraphicsState], in the order of the source. *)
Definition pipelineChanged (cl : CommandList) (state : GraphicsState.t) : bool :=
  ptr_neqb (GraphicsState.pipeline (m_CurrentGraphicsState cl))
           (GraphicsState.pipeline state).

Definition framebufferChanged (cl : CommandList) (state : GraphicsState.t) : bool :=
  ptr_neqb (GraphicsState.framebuffer (m_CurrentGraphicsState cl))
           (GraphicsState.framebuffer state).

Definition bindingsChanged (cl : CommandList) (state : GraphicsState.t) : bool :=
  arraysAreDifferent ptr_neqb
    (GraphicsState.bindings (m_CurrentGraphicsState cl))
    (GraphicsState.bindings state)
  || m_AnyVolatileBufferWrites cl.

Definition viewportsChanged (cl : CommandList) (state : GraphicsState.t) : bool :=
  negb (isEmpty (ViewportState.viewports (GraphicsState.viewport state)))
  && arraysAreDifferent Viewport.neqb
       (ViewportState.viewports (GraphicsState.viewport state))
       (ViewportState.viewports (GraphicsState.viewport (m_CurrentGraphicsState cl))).

Definition scissorsChanged (cl : CommandList) (state : GraphicsState.t) : bool :=
  negb (isEmpty (ViewportState.scissorRects (GraphicsState.viewport state)))
  && arraysAreDifferent Rect.neqb
       (ViewportState.scissorRects (GraphicsState.viewport state))
       (ViewportState.scissorRects (GraphicsState.viewport (m_CurrentGraphicsState cl))).

Definition stencilRefChanged (pso : GraphicsPipeline.t) (updatePipeline : bool)
    (cl : CommandList) (state : GraphicsState.t) : bool :=
  GraphicsPipeline.dynamicStencilRef pso
  && (updatePipeline
      || negb (GraphicsState.dynamicStencilRefValue (m_CurrentGraphicsState cl)
               =? GraphicsState.dynamicStencilRefValue state)).

Definition blendConstantsChanged (pso : GraphicsPipeline.t) (updatePipeline : bool)
    (cl : CommandList) (state : GraphicsState.t) : bool :=
  GraphicsPipeline.usesBlendConstants pso
  && (updatePipeline
      || Color.neqb (GraphicsState.blendConstantColor (m_CurrentGraphicsState cl))
           (GraphicsState.blendConstantColor state)).

Definition indexBufferChanged (cl : CommandList) (state : GraphicsState.t) : bool :=
  negb (isNull (IndexBufferBinding.buffer (GraphicsState.indexBuffer state)))
  && IndexBufferBinding.neqb (GraphicsState.indexBuffer (m_CurrentGraphicsState cl))
       (GraphicsState.indexBuffer state).

Definition vertexBuffersChanged (cl : CommandList) (state : GraphicsState.t) : bool :=
  negb (isEmpty (GraphicsState.vertexBuffers state))
  && arraysAreDifferent VertexBufferBinding.neqb
       (GraphicsState.vertexBuffers state)
       (GraphicsState.vertexBuffers (m_CurrentGraphicsState cl)).

(** [if (m_EnableAutomaticBarriers) trackResourcesAndBarriers(state);] *)
Definition trackBarriers (state : GraphicsState.t) (cl : CommandList) : CommandList :=
  if m_EnableAutomaticBarriers cl
  then setStateTracker (trackResourcesAndBarriers cl state) cl
  else cl.

(** [if (m_CurrentGraphicsState.pipeline != state.pipeline)]: bind the
    pipeline and keep it alive. *)
Definition bindGraphicsPipeline (pso : GraphicsPipeline.t) (updatePipeline : bool)
    (state : GraphicsState.t) (cl : CommandList) : CommandList :=
  if updatePipeline
  then reference (GraphicsState.pipeline state)
         (record (BindPipeline (GraphicsPipeline.pipeline pso)) cl)
  else cl.

(** End the render pass when the framebuffer changes or barriers are pending
    (barriers cannot be set inside a render pass), commit the barriers, and
    begin the render pass when none is current. *)
Definition prepareRenderPass (state : GraphicsState.t) (anyBarriers : bool)
    (cl : CommandList) : CommandList :=
  let cl := if framebufferChanged cl state || anyBarriers
            then endRenderPass cl else cl in
  let cl := commitBarriers cl in
  if isNull (GraphicsState.framebuffer (m_CurrentGraphicsState cl))
  then beginRenderPass (GraphicsState.framebuffer state) cl
  else cl.

Definition applyBindings (pso : GraphicsPipeline.t) (state : GraphicsState.t)
    (cl : CommandList) : CommandList :=
  if bindingsChanged cl state
  then bindBindingSets (GraphicsPipeline.pipelineLayout pso)
         (GraphicsState.bindings state)
         (GraphicsPipeline.descriptorSetIdxToBindingIdx pso) cl
  else cl.

Definition applyViewports (state : GraphicsState.t) (cl : CommandList)
  : CommandList :=
  if viewportsChanged cl state
  then
    let viewports :=
      map VKViewportWithDXCoords
          (ViewportState.viewports (GraphicsState.viewport state)) in
    record (SetViewport 0 (N.of_nat (length viewports) mod 2 ^ 32) viewports) cl
  else cl.

Definition applyScissors (state : GraphicsState.t) (cl : CommandList)
  : option CommandList :=
  if scissorsChanged cl state
  then
    scissors ←
      scissorsOf (ViewportState.scissorRects (GraphicsState.viewport state));
    Some (record (SetScissor 0 (N.of_nat (length scissors) mod 2 ^ 32) scissors) cl)
  else Some cl.

Definition applyStencilReference (pso : GraphicsPipeline.t) (updatePipeline : bool)
    (state : GraphicsState.t) (cl : CommandList) : CommandList :=
  if stencilRefChanged pso updatePipeline cl state
  then record (SetStencilReference (GraphicsState.dynamicStencilRefValue state)) cl
  else cl.

Definition applyBlendConstants (pso : GraphicsPipeline.t) (updatePipeline : bool)
    (state : GraphicsState.t) (cl : CommandList) : CommandList :=
  if blendConstantsChanged pso updatePipeline cl state
  then record (SetBlendConstants (GraphicsState.blendConstantColor state)) cl
  else cl.

Definition applyIndexBuffer (state : GraphicsState.t) (cl : CommandList)
  : CommandList :=
  if indexBufferChanged cl state
  then
    let ib := GraphicsState.indexBuffer state in
    reference (IndexBufferBinding.buffer ib)
      (record (BindIndexBuffer (IndexBufferBinding.buffer ib)
                 (IndexBufferBinding.offset ib)
                 (if IndexBufferBinding.format ib =? Format.R16_UINT
                  then eUint16 else eUint32)) cl)
  else cl.

Definition applyVertexBuffers (state : GraphicsState.t) (cl : CommandList)
  : option CommandList :=
  if vertexBuffersChanged cl state
  then bindVertexBuffers (GraphicsState.vertexBuffers state) cl
  else Some cl.

Definition applyIndirectParams (state : GraphicsState.t) (cl : CommandList)
  : CommandList :=
  if negb (isNull (GraphicsState.indirectParams state))
  then reference (GraphicsState.indirectParams state) cl
  else cl.

Definition applyShadingRate (state : GraphicsState.t) (cl : CommandList)
  : CommandList :=
  let srs := GraphicsState.shadingRateState state in
  if VariableRateShadingState.enabled srs
  then
    record (SetFragmentShadingRateKHR
              (convertFragmentShadingRate (VariableRateShadingState.shadingRate srs))
              (convertShadingRateCombiner
                 (VariableRateShadingState.pipelinePrimitiveCombiner srs))
              (convertShadingRateCombiner
                 (VariableRateShadingState.imageCombiner srs))) cl
  else cl.

(** [CommandList::setGraphicsState].  The pipeline object is dereferenced on
    every path, so a null [state.pipeline] has no defined result; neither
    has a scissor rectangle whose extent overflows, nor a null vertex buffer
    in a valid slot. *)
Definition setGraphicsState (cl : CommandList) (state : GraphicsState.t)
  : option CommandList :=
  if isNull (GraphicsState.pipeline state) then None
  else
    let pso := graphicsPipelineAt (GraphicsState.pipeline state) in
    let cl := trackBarriers state cl in
    let anyBarriers := anyBarriers cl in
    let updatePipeline := pipelineChanged cl state in
    let cl := bindGraphicsPipeline pso updatePipeline state cl in
    let cl := prepareRenderPass state anyBarriers cl in
    let cl :=
      setPipelineLayout (GraphicsPipeline.pipelineLayout pso)
        (GraphicsPipeline.pushConstantVisibility pso) cl in
    let cl := applyBindings pso state cl in
    let cl := applyViewports state cl in
    cl ← applyScissors state cl;
    let cl := applyStencilReference pso updatePipeline state cl in
    let cl := applyBlendConstants pso updatePipeline state cl in
    let cl := applyIndexBuffer state cl in
    cl ← applyVertexBuffers state cl;
    let cl := applyIndirectParams state cl in
    let cl := applyShadingRate state cl in
    Some (storeGraphicsState state cl).

Definition updateGraphicsVolatileBuffers (cl : CommandList) : CommandList :=
  if m_AnyVolatileBufferWrites cl
     && negb (isNull (GraphicsState.pipeline (m_CurrentGraphicsState cl)))
  then
    let pso := graphicsPipelineAt (GraphicsState.pipeline (m_CurrentGraphicsState cl)) in
    let cl :=
      bindBindingSets (GraphicsPipeline.pipelineLayout pso)
        (GraphicsState.bindings (m_CurrentGraphicsState cl))
        (GraphicsPipeline.descriptorSetIdxToBindingIdx pso) cl in
    setAnyVolatileBufferWrites false cl
  else cl.

Definition draw (args : DrawArguments.t) (cl : CommandList) : CommandList :=
  let cl := updateGraphicsVolatileBuffers cl in
  record (Draw (DrawArguments.vertexCount args)
            (DrawArguments.instanceCount args)
            (DrawArguments.startVertexLocation args)
            (DrawArguments.startInstanceLocation args)) cl.

Definition drawIndexed (args : DrawArguments.t) (cl : CommandList) : CommandList :=
  let cl := updateGraphicsVolatileBuffers cl in
  record (DrawIndexed (DrawArguments.vertexCount args)
            (DrawArguments.instanceCount args)
            (DrawArguments.startIndexLocation args)
            (DrawArguments.startVertexLocation args)
            (DrawArguments.startInstanceLocation args)) cl.


(** The operations of a recording that reach the code above. *)
Inductive GraphicsOp :=
| OpBeginRenderPass (framebuffer : Ptr)
| OpEndRenderPass
| OpSetGraphicsState (state : GraphicsState.t)
| OpDraw (args : DrawArguments.t)
| OpDrawIndexed (args : DrawArguments.t)
| OpSetTextureState (reg : Registry) (texture : Resource)
    (subresources : list nat) (stateBits : N)
| OpCommitBarriers.

Definition runGraphicsOp (op : GraphicsOp) (cl : CommandList)
  : option CommandList :=
  match op with
  | OpBeginRenderPass fb => Some (beginRenderPass fb cl)
  | OpEndRenderPass => Some (endRenderPass cl)
  | OpSetGraphicsState state => setGraphicsState cl state
  | OpDraw args => Some (draw args cl)
  | OpDrawIndexed args => Some (drawIndexed args cl)
  | OpSetTextureState reg texture subresources stateBits =>
      match setTextureState reg texture subresources stateBits cl with
      | Ok cl' => Some cl'
      | Err _ => Some cl
      end
  | OpCommitBarriers => Some (commitBarriers cl)
  end.

Fixpoint runGraphicsOps (ops : list GraphicsOp) (cl : CommandList)
  : option CommandList :=
  match ops with
  | [] => Some cl
  | op :: rest =>
      match runGraphicsOp op cl with
      | Some cl' => runGraphicsOps rest cl'
      | None => None
      end
  end.

(** The cached framebuffers agree with the render pass the command buffer is
    in. *)
Definition renderPassConsistent (cl : CommandList) : Prop :=
  renderPassNesting false (calls cl) = Some (renderPassActive cl).

(** Normal form of a step that only records calls and keeps resources
    alive. *)
Definition appendCalls (cs : list DriverCall) (refs : list Ptr)
    (cl : CommandList) : CommandList :=
  {| m_CurrentCmdBuf :=
       {| cmdBuf := cmdBuf (m_CurrentCmdBuf cl) ++ cs;
          referencedResources := referencedResources (m_CurrentCmdBuf cl) ++ refs |};
     m_CurrentGraphicsState := m_CurrentGraphicsState cl;
     m_CurrentComputeState := m_CurrentComputeState cl;
     m_CurrentMeshletState := m_CurrentMeshletState cl;
     m_CurrentRayTracingState := m_CurrentRayTracingState cl;
     m_CurrentPipelineLayout := m_CurrentPipelineLayout cl;
     m_CurrentPushConstantsVisibility := m_CurrentPushConstantsVisibility cl;
     m_AnyVolatileBufferWrites := m_AnyVolatileBufferWrites cl;
     m_EnableAutomaticBarriers := m_EnableAutomaticBarriers cl;
     m_StateTracker := m_StateTracker cl |}.

(** The calls each block of [setGraphicsState] records, as a function of
    the command list it runs on. *)
Definition pipelineCalls (pso : GraphicsPipeline.t) (updatePipeline : bool)
  : list DriverCall :=
  if updatePipeline then [BindPipeline (GraphicsPipeline.pipeline pso)] else [].

Definition endRenderPassCalls (cl : CommandList) : list DriverCall :=
  if renderPassActive cl then [EndRendering] else [].

Definition barrierCalls (t : Tracker) : list DriverCall :=
  match pendingBarriers t with
  | [] => []
  | b :: bs => [PipelineBarrier (b :: bs)]
  end.

Definition beginRenderingCalls (fb : Ptr) : list DriverCall :=
  if isNull fb then []
  else [BeginRendering (renderingInfoOf (framebufferAt fb))].

Definition renderPassCalls (state : GraphicsState.t) (anyBarriers : bool)
    (cl : CommandList) : list DriverCall :=
  if framebufferChanged cl state || anyBarriers
  then endRenderPassCalls cl ++ barrierCalls (m_StateTracker cl)
       ++ beginRenderingCalls (GraphicsState.framebuffer state)
  else barrierCalls (m_StateTracker cl)
       ++ (if isNull (GraphicsState.framebuffer (m_CurrentGraphicsState cl))
           then endRenderPassCalls cl
                ++ beginRenderingCalls (GraphicsState.framebuffer state)
           else []).

Definition bindingCalls (pso : GraphicsPipeline.t) (state : GraphicsState.t)
    (cl : CommandList) : list DriverCall :=
  if bindingsChanged cl state
  then [BindDescriptorSets (GraphicsPipeline.pipelineLayout pso)
          (GraphicsState.bindings state)
          (GraphicsPipeline.descriptorSetIdxToBindingIdx pso)]
  else [].

Definition viewportCalls (state : GraphicsState.t) (cl : CommandList)
  : list DriverCall :=
  if viewportsChanged cl state
  then [SetViewport 0
          (N.of_nat (length (map VKViewportWithDXCoords
             (ViewportState.viewports (GraphicsState.viewport state)))) mod 2 ^ 32)
          (map VKViewportWithDXCoords
             (ViewportState.viewports (GraphicsState.viewport state)))]
  else [].

(** Whether the scissor block, if it runs, computes every extent without
    overflow. *)
Definition scissorsDefined (cl : CommandList) (state : GraphicsState.t) : bool :=
  if scissorsChanged cl state
  then match scissorsOf (ViewportState.scissorRects (GraphicsState.viewport state)) with
       | Some _ => true
       | None => false
       end
  else true.

Definition scissorCalls (state : GraphicsState.t) (cl : CommandList)
  : list DriverCall :=
  if scissorsChanged cl state
  then match scissorsOf (ViewportState.scissorRects (GraphicsState.viewport state)) with
       | Some scissors =>
           [SetScissor 0 (N.of_nat (length scissors) mod 2 ^ 32) scissors]
       | None => []
       end
  else [].

Definition stencilCalls (pso : GraphicsPipeline.t) (updatePipeline : bool)
    (state : GraphicsState.t) (cl : CommandList) : list DriverCall :=
  if stencilRefChanged pso updatePipeline cl state
  then [SetStencilReference (GraphicsState.dynamicStencilRefValue state)]
  else [].

Definition blendCalls (pso : GraphicsPipeline.t) (updatePipeline : bool)
    (state : GraphicsState.t) (cl : CommandList) : list DriverCall :=
  if blendConstantsChanged pso updatePipeline cl state
  then [SetBlendConstants (GraphicsState.blendConstantColor state)]
  else [].

Definition indexBufferCalls (state : GraphicsState.t) (cl : CommandList)
  : list DriverCall :=
  if indexBufferChanged cl state
  then [BindIndexBuffer (IndexBufferBinding.buffer (GraphicsState.indexBuffer state))
          (IndexBufferBinding.offset (GraphicsState.indexBuffer state))
          (if IndexBufferBinding.format (GraphicsState.indexBuffer state)
              =? Format.R16_UINT
           then eUint16 else eUint32)]
  else [].

(** The vertex-buffer call is determined by the bindings alone. *)
Definition vertexBufferCalls (state : GraphicsState.t) (cl : CommandList)
  : list DriverCall :=
  if vertexBuffersChanged cl state
  then match bindVertexBuffers (GraphicsState.vertexBuffers state) cl with
       | Some cl' => newCalls cl cl'
       | None => []
       end
  else [].

Definition shadingRateCalls (state : GraphicsState.t) : list DriverCall :=
  let srs := GraphicsState.shadingRateState state in
  if VariableRateShadingState.enabled srs
  then [SetFragmentShadingRateKHR
          (convertFragmentShadingRate (VariableRateShadingState.shadingRate srs))
          (convertShadingRateCombiner
             (VariableRateShadingState.pipelinePrimitiveCombiner srs))
          (convertShadingRateCombiner
             (VariableRateShadingState.imageCombiner srs))]
  else [].

(** Everything one call of [setGraphicsState] records, in order. *)
Definition graphicsStateCalls (cl : CommandList) (state : GraphicsState.t)
  : list DriverCall :=
  let pso := graphicsPipelineAt (GraphicsState.pipeline state) in
  let cl1 := trackBarriers state cl in
  let updatePipeline := pipelineChanged cl state in
  pipelineCalls pso updatePipeline
  ++ renderPassCalls state (anyBarriers cl1) cl1
  ++ bindingCalls pso state cl
  ++ viewportCalls state cl
  ++ scissorCalls state cl
  ++ stencilCalls pso updatePipeline state cl
  ++ blendCalls pso updatePipeline state cl
  ++ indexBufferCalls state cl
  ++ vertexBufferCalls state cl
  ++ shadingRateCalls state.

(** The state between the render pass block and the cache-dependent blocks. *)
Definition afterRenderPass (cl : CommandList) (state : GraphicsState.t)
  : CommandList :=
  let pso := graphicsPipelineAt (GraphicsState.pipeline state) in
  let cl1 := trackBarriers state cl in
  prepareRenderPass state (anyBarriers cl1)
    (bindGraphicsPipeline pso (pipelineChanged cl1 state) state cl1).

(** *** Recorded calls of the blocks *)

Lemma calls_record c cl : calls (record c cl) = calls cl ++ [c].
Proof. reflexivity. Qed.

Lemma calls_reference p cl : calls (reference p cl) = calls cl.
Proof. reflexivity. Qed.

Lemma newCalls_app cl cl' l : calls cl' = calls cl ++ l -> newCalls cl cl' = l.
Proof. intros E. unfold newCalls. rewrite E. apply drop_app_length. Qed.

Lemma endRenderPass_calls cl :
  calls (endRenderPass cl)
  = calls cl ++ (if renderPassActive cl then [EndRendering] else []).
Proof.
  unfold endRenderPass. destruct (renderPassActive cl); simpl.
  - reflexivity.
  - symmetry. apply app_nil_r.
Qed.

Lemma endRenderPass_inactive cl : renderPassActive (endRenderPass cl) = false.
Proof.
  unfold endRenderPass. destruct (renderPassActive cl) eqn:E; [reflexivity | exact E].
Qed.

Lemma endRenderPass_framebuffers cl :
  GraphicsState.framebuffer (m_CurrentGraphicsState (endRenderPass cl)) = nullptr
  /\ MeshletState.framebuffer (m_CurrentMeshletState (endRenderPass cl)) = nullptr.
Proof.
  unfold endRenderPass. destruct (renderPassActive cl) eqn:E; simpl; [done|].
  unfold renderPassActive in E. apply orb_false_elim in E as [E1 E2].
  apply negb_false_iff in E1, E2. unfold isNull in *.
  apply N.eqb_eq in E1, E2. done.
Qed.

Lemma record_appendCalls c cl : record c cl = appendCalls [c] [] cl.
Proof. unfold record, appendCalls. by rewrite app_nil_r. Qed.

Lemma reference_appendCalls p cl : reference p cl = appendCalls [] [p] cl.
Proof. unfold reference, appendCalls. by rewrite app_nil_r. Qed.

Lemma appendCalls_nil cl : appendCalls [] [] cl = cl.
Proof.
  destruct cl as [[cb rr] ? ? ? ? ? ? ? ? ?]. unfold appendCalls. simpl.
  by rewrite !app_nil_r.
Qed.

Lemma appendCalls_appendCalls cs1 r1 cs2 r2 cl :
  appendCalls cs2 r2 (appendCalls cs1 r1 cl) = appendCalls (cs1 ++ cs2) (r1 ++ r2) cl.
Proof. unfold appendCalls. simpl. by rewrite !app_assoc. Qed.

Lemma calls_appendCalls cs refs cl : calls (appendCalls cs refs cl) = calls cl ++ cs.
Proof. reflexivity. Qed.

Lemma storeGraphicsState_appendCalls state cs refs cl :
  storeGraphicsState state (appendCalls cs refs cl)
  = appendCalls cs refs (storeGraphicsState state cl).
Proof. reflexivity. Qed.

Lemma setPipelineLayout_appendCalls l v cs refs cl :
  setPipelineLayout l v (appendCalls cs refs cl)
  = appendCalls cs refs (setPipelineLayout l v cl).
Proof. reflexivity. Qed.

Lemma setFramebuffers_appendCalls fb cs refs cl :
  setFramebuffers fb (appendCalls cs refs cl)
  = appendCalls cs refs (setFramebuffers fb cl).
Proof. reflexivity. Qed.

Lemma setStateTracker_appendCalls t cs refs cl :
  setStateTracker t (appendCalls cs refs cl)
  = appendCalls cs refs (setStateTracker t cl).
Proof. reflexivity. Qed.

(** Each block after the render pass is in the normal form. *)
Lemma bindGraphicsPipeline_appendCalls pso up state cl :
  bindGraphicsPipeline pso up state cl
  = appendCalls (pipelineCalls pso up)
      (if up then [GraphicsState.pipeline state] else []) cl.
Proof.
  unfold bindGraphicsPipeline, pipelineCalls. destruct up.
  - by rewrite record_appendCalls, reference_appendCalls, appendCalls_appendCalls.
  - by rewrite appendCalls_nil.
Qed.

Lemma applyBindings_appendCalls pso state cl :
  applyBindings pso state cl = appendCalls (bindingCalls pso state cl) [] cl.
Proof.
  unfold applyBindings, bindingCalls, bindBindingSets.
  destruct (bindingsChanged cl state).
  - apply record_appendCalls.
  - by rewrite appendCalls_nil.
Qed.

Lemma applyViewports_appendCalls state cl :
  applyViewports state cl = appendCalls (viewportCalls state cl) [] cl.
Proof.
  unfold applyViewports, viewportCalls. destruct (viewportsChanged cl state).
  - apply record_appendCalls.
  - by rewrite appendCalls_nil.
Qed.

Lemma applyScissors_appendCalls state cl :
  applyScissors state cl
  = if scissorsDefined cl state
    then Some (appendCalls (scissorCalls state cl) [] cl)
    else None.
Proof.
  unfold applyScissors, scissorCalls, scissorsDefined.
  destruct (scissorsChanged cl state).
  - destruct (scissorsOf _); simpl; [|done]. by rewrite record_appendCalls.
  - by rewrite appendCalls_nil.
Qed.

Lemma applyStencilReference_appendCalls pso up state cl :
  applyStencilReference pso up state cl
  = appendCalls (stencilCalls pso up state cl) [] cl.
Proof.
  unfold applyStencilReference, stencilCalls.
  destruct (stencilRefChanged pso up cl state).
  - apply record_appendCalls.
  - by rewrite appendCalls_nil.
Qed.

Lemma applyBlendConstants_appendCalls pso up state cl :
  applyBlendConstants pso up state cl
  = appendCalls (blendCalls pso up state cl) [] cl.
Proof.
  unfold applyBlendConstants, blendCalls.
  destruct (blendConstantsChanged pso up cl state).
  - apply record_appendCalls.
  - by rewrite appendCalls_nil.
Qed.

Lemma applyIndexBuffer_appendCalls state cl :
  applyIndexBuffer state cl
  = appendCalls (indexBufferCalls state cl)
      (if indexBufferChanged cl state
       then [IndexBufferBinding.buffer (GraphicsState.indexBuffer state)]
       else []) cl.
Proof.
  unfold applyIndexBuffer, indexBufferCalls. destruct (indexBufferChanged cl state).
  - by rewrite record_appendCalls, reference_appendCalls, appendCalls_appendCalls.
  - by rewrite appendCalls_nil.
Qed.

Lemma applyIndirectParams_appendCalls state cl :
  applyIndirectParams state cl
  = appendCalls []
      (if negb (isNull (GraphicsState.indirectParams state))
       then [GraphicsState.indirectParams state] else []) cl.
Proof.
  unfold applyIndirectParams.
  destruct (negb (isNull (GraphicsState.indirectParams state))).
  - apply reference_appendCalls.
  - by rewrite appendCalls_nil.
Qed.

Lemma applyShadingRate_appendCalls state cl :
  applyShadingRate state cl = appendCalls (shadingRateCalls state) [] cl.
Proof.
  unfold applyShadingRate, shadingRateCalls.
  destruct (VariableRateShadingState.enabled (GraphicsState.shadingRateState state)).
  - apply record_appendCalls.
  - by rewrite appendCalls_nil.
Qed.

(** The vertex-buffer loop only keeps buffers alive; its arrays do not
    depend on the command list. *)
Lemma fillVertexBuffers_appendCalls bs : forall arrays cl arrays' cl',
  fillVertexBuffers bs arrays cl = Some (arrays', cl') ->
  exists refs, cl' = appendCalls [] refs cl
    /\ forall cl0, fillVertexBuffers bs arrays cl0
                   = Some (arrays', appendCalls [] refs cl0).
Proof.
  induction bs as [|binding rest IH]; intros arrays cl arrays' cl' H; simpl in H.
  - injection H as <- <-. exists []. split; [by rewrite appendCalls_nil|].
    intros cl0. simpl. by rewrite appendCalls_nil.
  - destruct (c_MaxVertexAttributes <=? VertexBufferBinding.slot binding) eqn:Eslot.
    + destruct (IH _ _ _ _ H) as (refs & -> & Hall). exists refs. split; [done|].
      intros cl0. simpl. rewrite Eslot. apply Hall.
    + destruct (isNull (VertexBufferBinding.buffer binding)) eqn:Enull; [done|].
      destruct (IH _ _ _ _ H) as (refs & -> & Hall).
      exists (VertexBufferBinding.buffer binding :: refs). split.
      * by rewrite reference_appendCalls, appendCalls_appendCalls.
      * intros cl0. simpl. rewrite Eslot, Enull, Hall.
        by rewrite reference_appendCalls, appendCalls_appendCalls.
Qed.

Lemma bindVertexBuffers_appendCalls bs cl cl' :
  bindVertexBuffers bs cl = Some cl' ->
  exists c refs, isBindVertexBuffers c = true
    /\ cl' = appendCalls [c] refs cl
    /\ forall cl0, bindVertexBuffers bs cl0 = Some (appendCalls [c] refs cl0).
Proof.
  unfold bindVertexBuffers. intros H.
  destruct (fillVertexBuffers bs emptyVertexBufferArrays cl) as [[arrays cl1]|] eqn:E;
    [|done].
  injection H as <-.
  destruct (fillVertexBuffers_appendCalls _ _ _ _ _ E) as (refs & -> & Hall).
  eexists _, refs. split; [|split].
  2:{ rewrite record_appendCalls, appendCalls_appendCalls.
      rewrite app_nil_r. reflexivity. }
  - reflexivity.
  - intros cl0. rewrite Hall.
    by rewrite record_appendCalls, appendCalls_appendCalls, app_nil_r.
Qed.

Lemma applyVertexBuffers_appendCalls state cl cl' :
  applyVertexBuffers state cl = Some cl' ->
  (exists refs, cl' = appendCalls (vertexBufferCalls state cl) refs cl)
  /\ (vertexBuffersChanged cl state = true ->
      exists c, vertexBufferCalls state cl = [c] /\ isBindVertexBuffers c = true).
Proof.
  unfold applyVertexBuffers, vertexBufferCalls. intros H.
  destruct (vertexBuffersChanged cl state).
  - rewrite H.
    destruct (bindVertexBuffers_appendCalls _ _ _ H) as (c & refs & Hc & -> & _).
    rewrite (newCalls_app _ _ [c]) by done. split; [by exists refs|].
    intros _. by exists c.
  - injection H as <-. split; [|done]. exists []. by rewrite appendCalls_nil.
Qed.

Lemma applyVertexBuffers_is_Some state cl :
  is_Some (applyVertexBuffers state cl)
  <-> (vertexBuffersChanged cl state = true ->
       is_Some (bindVertexBuffers (GraphicsState.vertexBuffers state) cl)).
Proof.
  unfold applyVertexBuffers. destruct (vertexBuffersChanged cl state).
  - split; [by intros H _ | by intros H; apply H].
  - split; [done | by intros _; eexists].
Qed.

Lemma bindVertexBuffers_is_Some_frame bs cl1 cl2 :
  is_Some (bindVertexBuffers bs cl1) -> is_Some (bindVertexBuffers bs cl2).
Proof.
  intros [cl' H].
  destruct (bindVertexBuffers_appendCalls _ _ _ H) as (c & refs & _ & _ & Hall).
  rewrite (Hall cl2). by eexists.
Qed.

Lemma vertexBufferCalls_kind state cl :
  vertexBufferCalls state cl = []
  \/ exists c, vertexBufferCalls state cl = [c] /\ isBindVertexBuffers c = true.
Proof.
  unfold vertexBufferCalls. destruct (vertexBuffersChanged cl state); [|by left].
  destruct (bindVertexBuffers _ cl) as [cl'|] eqn:E; [|by left].
  destruct (bindVertexBuffers_appendCalls _ _ _ E) as (c & refs & Hc & -> & _).
  right. exists c. split; [|done]. by apply newCalls_app.
Qed.

(** Recording calls does not change what the later blocks record. *)
Lemma bindingCalls_appendCalls pso state cs r cl :
  bindingCalls pso state (appendCalls cs r cl) = bindingCalls pso state cl.
Proof. reflexivity. Qed.

Lemma viewportCalls_appendCalls state cs r cl :
  viewportCalls state (appendCalls cs r cl) = viewportCalls state cl.
Proof. reflexivity. Qed.

Lemma scissorCalls_appendCalls state cs r cl :
  scissorCalls state (appendCalls cs r cl) = scissorCalls state cl.
Proof. reflexivity. Qed.

Lemma scissorsDefined_appendCalls state cs r cl :
  scissorsDefined (appendCalls cs r cl) state = scissorsDefined cl state.
Proof. reflexivity. Qed.

Lemma stencilCalls_appendCalls pso up state cs r cl :
  stencilCalls pso up state (appendCalls cs r cl) = stencilCalls pso up state cl.
Proof. reflexivity. Qed.

Lemma blendCalls_appendCalls pso up state cs r cl :
  blendCalls pso up state (appendCalls cs r cl) = blendCalls pso up state cl.
Proof. reflexivity. Qed.

Lemma indexBufferCalls_appendCalls state cs r cl :
  indexBufferCalls state (appendCalls cs r cl) = indexBufferCalls state cl.
Proof. reflexivity. Qed.

Lemma vertexBufferCalls_frame state cl1 cl2 :
  GraphicsState.vertexBuffers (m_CurrentGraphicsState cl1)
  = GraphicsState.vertexBuffers (m_CurrentGraphicsState cl2) ->
  vertexBufferCalls state cl1 = vertexBufferCalls state cl2.
Proof.
  intros E. unfold vertexBufferCalls, vertexBuffersChanged. rewrite E.
  destruct (_ && _); [|done].
  destruct (bindVertexBuffers _ cl1) as [cl1'|] eqn:E1.
  - destruct (bindVertexBuffers_appendCalls _ _ _ E1) as (c & refs & _ & -> & Hall).
    rewrite (Hall cl2). by rewrite !(newCalls_app _ _ [c]).
  - destruct (bindVertexBuffers _ cl2) as [cl2'|] eqn:E2; [|done].
    destruct (bindVertexBuffers_appendCalls _ _ _ E2) as (c & refs & _ & _ & Hall).
    by rewrite (Hall cl1) in E1.
Qed.

Lemma vertexBufferCalls_appendCalls state cs r cl :
  vertexBufferCalls state (appendCalls cs r cl) = vertexBufferCalls state cl.
Proof. by apply vertexBufferCalls_frame. Qed.

(** The blocks after the render pass, composed. *)
Lemma stateBlocks_appendCalls pso up state cl :
  applyIndexBuffer state
    (applyBlendConstants pso up state
       (applyStencilReference pso up state
          (appendCalls
             (scissorCalls state (applyViewports state (applyBindings pso state cl)))
             [] (applyViewports state (applyBindings pso state cl)))))
  = appendCalls
      (bindingCalls pso state cl ++ viewportCalls state cl
       ++ scissorCalls state cl ++ stencilCalls pso up state cl
       ++ blendCalls pso up state cl ++ indexBufferCalls state cl)
      (if indexBufferChanged cl state
       then [IndexBufferBinding.buffer (GraphicsState.indexBuffer state)]
       else [])
      cl.
Proof.
  rewrite applyBindings_appendCalls.
  rewrite applyViewports_appendCalls, viewportCalls_appendCalls,
    appendCalls_appendCalls.
  rewrite scissorCalls_appendCalls, appendCalls_appendCalls.
  rewrite applyStencilReference_appendCalls, stencilCalls_appendCalls,
    appendCalls_appendCalls.
  rewrite applyBlendConstants_appendCalls, blendCalls_appendCalls,
    appendCalls_appendCalls.
  rewrite applyIndexBuffer_appendCalls, indexBufferCalls_appendCalls,
    appendCalls_appendCalls.
  f_equal. by rewrite <- !app_assoc.
Qed.

(** *** The render pass block *)

Lemma commitBarriers_calls cl :
  calls (commitBarriers cl) = calls cl ++ barrierCalls (m_StateTracker cl).
Proof.
  unfold commitBarriers, barrierCalls, flush.
  destruct (pendingBarriers (m_StateTracker cl)); simpl.
  - symmetry. apply app_nil_r.
  - reflexivity.
Qed.

Lemma commitBarriers_tracker cl :
  m_StateTracker (commitBarriers cl) = (flush (m_StateTracker cl)).2.
Proof.
  unfold commitBarriers, flush.
  destruct (pendingBarriers (m_StateTracker cl)) eqn:E; simpl; [|done].
  destruct (m_StateTracker cl); simpl in *. by subst.
Qed.

Lemma commitBarriers_pending cl :
  pendingBarriers (m_StateTracker (commitBarriers cl)) = [].
Proof. by rewrite commitBarriers_tracker. Qed.

Lemma commitBarriers_cache cl :
  m_CurrentGraphicsState (commitBarriers cl) = m_CurrentGraphicsState cl
  /\ m_CurrentMeshletState (commitBarriers cl) = m_CurrentMeshletState cl
  /\ m_AnyVolatileBufferWrites (commitBarriers cl) = m_AnyVolatileBufferWrites cl.
Proof.
  unfold commitBarriers, flush.
  by destruct (pendingBarriers (m_StateTracker cl)).
Qed.

Lemma beginRenderPass_calls fb cl :
  calls (beginRenderPass fb cl)
  = calls cl ++ endRenderPassCalls cl ++ beginRenderingCalls fb.
Proof.
  unfold beginRenderPass, beginRenderingCalls, endRenderPassCalls.
  destruct (isNull fb); simpl.
  - by rewrite endRenderPass_calls, app_nil_r.
  - rewrite calls_reference, calls_record.
    change (calls (setFramebuffers fb (endRenderPass cl)))
      with (calls (endRenderPass cl)).
    by rewrite endRenderPass_calls, <- app_assoc.
Qed.

Lemma endRenderPass_cache cl :
  GraphicsState.withFramebuffer nullptr (m_CurrentGraphicsState (endRenderPass cl))
  = GraphicsState.withFramebuffer nullptr (m_CurrentGraphicsState cl)
  /\ m_AnyVolatileBufferWrites (endRenderPass cl) = m_AnyVolatileBufferWrites cl
  /\ m_StateTracker (endRenderPass cl) = m_StateTracker cl.
Proof. unfold endRenderPass. by destruct (renderPassActive cl). Qed.

Lemma beginRenderPass_cache fb cl :
  GraphicsState.withFramebuffer nullptr (m_CurrentGraphicsState (beginRenderPass fb cl))
  = GraphicsState.withFramebuffer nullptr (m_CurrentGraphicsState cl)
  /\ m_AnyVolatileBufferWrites (beginRenderPass fb cl) = m_AnyVolatileBufferWrites cl
  /\ m_StateTracker (beginRenderPass fb cl) = m_StateTracker cl.
Proof.
  unfold beginRenderPass.
  destruct (endRenderPass_cache cl) as (E1 & E2 & E3).
  destruct (isNull fb); simpl; [done|]. by rewrite <- E1, E2, E3.
Qed.

Lemma prepareRenderPass_calls state anyB cl :
  calls (prepareRenderPass state anyB cl) = calls cl ++ renderPassCalls state anyB cl.
Proof.
  unfold prepareRenderPass, renderPassCalls.
  destruct (framebufferChanged cl state || anyB) eqn:E.
  - destruct (commitBarriers_cache (endRenderPass cl)) as (Eg & _ & _).
    destruct (endRenderPass_framebuffers cl) as (Hg & Hm).
    rewrite Eg, Hg. simpl.
    rewrite beginRenderPass_calls, commitBarriers_calls, endRenderPass_calls.
    destruct (endRenderPass_cache cl) as (_ & _ & ->).
    unfold endRenderPassCalls at 1.
    assert (Hin : renderPassActive (commitBarriers (endRenderPass cl)) = false).
    { unfold renderPassActive.
      destruct (commitBarriers_cache (endRenderPass cl)) as (-> & -> & _).
      apply endRenderPass_inactive. }
    rewrite Hin. simpl. unfold endRenderPassCalls. by rewrite <- !app_assoc.
  - destruct (commitBarriers_cache cl) as (Eg & Em & _). rewrite Eg.
    destruct (isNull (GraphicsState.framebuffer (m_CurrentGraphicsState cl))).
    + rewrite beginRenderPass_calls, commitBarriers_calls.
      unfold endRenderPassCalls, renderPassActive. rewrite Eg, Em.
      by rewrite <- !app_assoc.
    + by rewrite commitBarriers_calls, app_nil_r.
Qed.

Lemma prepareRenderPass_cache state anyB cl :
  GraphicsState.withFramebuffer nullptr
    (m_CurrentGraphicsState (prepareRenderPass state anyB cl))
  = GraphicsState.withFramebuffer nullptr (m_CurrentGraphicsState cl)
  /\ m_AnyVolatileBufferWrites (prepareRenderPass state anyB cl)
     = m_AnyVolatileBufferWrites cl
  /\ m_StateTracker (prepareRenderPass state anyB cl) = (flush (m_StateTracker cl)).2.
Proof.
  unfold prepareRenderPass.
  set (cl1 := if framebufferChanged cl state || anyB then endRenderPass cl else cl).
  assert (H1 : GraphicsState.withFramebuffer nullptr (m_CurrentGraphicsState cl1)
               = GraphicsState.withFramebuffer nullptr (m_CurrentGraphicsState cl)
               /\ m_AnyVolatileBufferWrites cl1 = m_AnyVolatileBufferWrites cl
               /\ m_StateTracker cl1 = m_StateTracker cl).
  { unfold cl1. destruct (_ || _); [apply endRenderPass_cache | done]. }
  destruct H1 as (A1 & A2 & A3).
  destruct (commitBarriers_cache cl1) as (B1 & _ & B2).
  pose proof (commitBarriers_tracker cl1) as B3.
  destruct (isNull _).
  - destruct (beginRenderPass_cache (GraphicsState.framebuffer state)
                (commitBarriers cl1)) as (C1 & C2 & C3).
    by rewrite C1, C2, C3, B1, B2, B3, A1, A2, A3.
  - by rewrite B1, B2, B3, A1, A2, A3.
Qed.

(** *** What the conditions depend on *)

Lemma withFramebuffer_fields a b :
  GraphicsState.withFramebuffer nullptr a = GraphicsState.withFramebuffer nullptr b ->
  GraphicsState.pipeline a = GraphicsState.pipeline b
  /\ GraphicsState.viewport a = GraphicsState.viewport b
  /\ GraphicsState.blendConstantColor a = GraphicsState.blendConstantColor b
  /\ GraphicsState.dynamicStencilRefValue a = GraphicsState.dynamicStencilRefValue b
  /\ GraphicsState.bindings a = GraphicsState.bindings b
  /\ GraphicsState.vertexBuffers a = GraphicsState.vertexBuffers b
  /\ GraphicsState.indexBuffer a = GraphicsState.indexBuffer b.
Proof. intros H. injection H. intros. done. Qed.

Lemma stateCalls_frame pso up state cl1 cl2 :
  GraphicsState.withFramebuffer nullptr (m_CurrentGraphicsState cl1)
  = GraphicsState.withFramebuffer nullptr (m_CurrentGraphicsState cl2) ->
  m_AnyVolatileBufferWrites cl1 = m_AnyVolatileBufferWrites cl2 ->
  bindingCalls pso state cl1 = bindingCalls pso state cl2
  /\ viewportCalls state cl1 = viewportCalls state cl2
  /\ scissorCalls state cl1 = scissorCalls state cl2
  /\ stencilCalls pso up state cl1 = stencilCalls pso up state cl2
  /\ blendCalls pso up state cl1 = blendCalls pso up state cl2
  /\ indexBufferCalls state cl1 = indexBufferCalls state cl2
  /\ vertexBufferCalls state cl1 = vertexBufferCalls state cl2.
Proof.
  intros H Hv.
  apply withFramebuffer_fields in H as (Hp & Hvp & Hb & Hs & Hbs & Hvb & Hib).
  repeat split.
  - unfold bindingCalls, bindingsChanged. by rewrite Hbs, Hv.
  - unfold viewportCalls, viewportsChanged. by rewrite Hvp.
  - unfold scissorCalls, scissorsChanged. by rewrite Hvp.
  - unfold stencilCalls, stencilRefChanged. by rewrite Hs.
  - unfold blendCalls, blendConstantsChanged. by rewrite Hb.
  - unfold indexBufferCalls, indexBufferChanged. by rewrite Hib.
  - by apply vertexBufferCalls_frame.
Qed.

Lemma scissorsDefined_frame state cl1 cl2 :
  GraphicsState.withFramebuffer nullptr (m_CurrentGraphicsState cl1)
  = GraphicsState.withFramebuffer nullptr (m_CurrentGraphicsState cl2) ->
  scissorsDefined cl1 state = scissorsDefined cl2 state.
Proof.
  intros H.
  apply withFramebuffer_fields in H as (_ & Hvp & _).
  unfold scissorsDefined, scissorsChanged. by rewrite Hvp.
Qed.

Lemma trackBarriers_cache state cl :
  m_CurrentGraphicsState (trackBarriers state cl) = m_CurrentGraphicsState cl
  /\ m_CurrentMeshletState (trackBarriers state cl) = m_CurrentMeshletState cl
  /\ m_AnyVolatileBufferWrites (trackBarriers state cl) = m_AnyVolatileBufferWrites cl
  /\ calls (trackBarriers state cl) = calls cl.
Proof. unfold trackBarriers. by destruct (m_EnableAutomaticBarriers cl). Qed.

(** *** [setGraphicsState] as a whole *)

Lemma afterRenderPass_cache cl state :
  GraphicsState.withFramebuffer nullptr
    (m_CurrentGraphicsState (afterRenderPass cl state))
  = GraphicsState.withFramebuffer nullptr (m_CurrentGraphicsState cl)
  /\ m_AnyVolatileBufferWrites (afterRenderPass cl state)
     = m_AnyVolatileBufferWrites cl.
Proof.
  unfold afterRenderPass. cbv zeta.
  destruct (trackBarriers_cache state cl) as (T1 & T2 & T3 & T4).
  match goal with
  | |- context [prepareRenderPass ?s ?b ?c] =>
      destruct (prepareRenderPass_cache s b c) as (P1 & P2 & _)
  end.
  rewrite P1, P2, bindGraphicsPipeline_appendCalls. simpl. by rewrite T1, T3.
Qed.

Lemma vertexBuffersChanged_frame state cl1 cl2 :
  GraphicsState.withFramebuffer nullptr (m_CurrentGraphicsState cl1)
  = GraphicsState.withFramebuffer nullptr (m_CurrentGraphicsState cl2) ->
  vertexBuffersChanged cl1 state = vertexBuffersChanged cl2 state.
Proof.
  intros H. apply withFramebuffer_fields in H as (_ & _ & _ & _ & _ & Hvb & _).
  unfold vertexBuffersChanged. by rewrite Hvb.
Qed.

(** The state the vertex-buffer block runs on. *)
Lemma setGraphicsState_eq cl state :
  setGraphicsState cl state
  = if isNull (GraphicsState.pipeline state) then None
    else if negb (scissorsDefined cl state) then None
    else
      let pso := graphicsPipelineAt (GraphicsState.pipeline state) in
      let up := pipelineChanged cl state in
      cl2 ← applyVertexBuffers state
               (appendCalls
                  (bindingCalls pso state cl ++ viewportCalls state cl
                   ++ scissorCalls state cl ++ stencilCalls pso up state cl
                   ++ blendCalls pso up state cl ++ indexBufferCalls state cl)
                  (if indexBufferChanged cl state
                   then [IndexBufferBinding.buffer (GraphicsState.indexBuffer state)]
                   else [])
                  (setPipelineLayout (GraphicsPipeline.pipelineLayout pso)
                     (GraphicsPipeline.pushConstantVisibility pso)
                     (afterRenderPass cl state)));
      Some (storeGraphicsState state
              (appendCalls (shadingRateCalls state)
                 (if negb (isNull (GraphicsState.indirectParams state))
                  then [GraphicsState.indirectParams state] else [])
                 cl2)).
Proof.
  unfold setGraphicsState.
  destruct (isNull (GraphicsState.pipeline state)); [done|].
  cbv zeta. rewrite applyScissors_appendCalls.
  destruct (afterRenderPass_cache cl state) as (HS1 & _).
  assert (Hsd : forall pso X,
            m_CurrentGraphicsState X = m_CurrentGraphicsState (afterRenderPass cl state) ->
            scissorsDefined (applyViewports state (applyBindings pso state X)) state
            = scissorsDefined cl state).
  { intros pso X HX.
    rewrite applyBindings_appendCalls, applyViewports_appendCalls,
      !scissorsDefined_appendCalls.
    apply scissorsDefined_frame. by rewrite HX. }
  rewrite Hsd by reflexivity. clear Hsd HS1.
  destruct (scissorsDefined cl state); [|done]. simpl negb. cbv iota.
  cbn [mbind option_bind]. rewrite stateBlocks_appendCalls.
  change (setPipelineLayout ?l ?v
            (prepareRenderPass state (anyBarriers (trackBarriers state cl))
               (bindGraphicsPipeline ?p
                  (pipelineChanged (trackBarriers state cl) state) state
                  (trackBarriers state cl))))
    with (setPipelineLayout l v (afterRenderPass cl state)).
  destruct (trackBarriers_cache state cl) as (T1 & T2 & T3 & T4).
  assert (Hup : pipelineChanged (trackBarriers state cl) state
                = pipelineChanged cl state).
  { unfold pipelineChanged. by rewrite T1. }
  rewrite Hup.
  destruct (afterRenderPass_cache cl state) as (HA1 & HA2).
  destruct (stateCalls_frame (graphicsPipelineAt (GraphicsState.pipeline state))
              (pipelineChanged cl state) state
              (setPipelineLayout
                 (GraphicsPipeline.pipelineLayout
                    (graphicsPipelineAt (GraphicsState.pipeline state)))
                 (GraphicsPipeline.pushConstantVisibility
                    (graphicsPipelineAt (GraphicsState.pipeline state)))
                 (afterRenderPass cl state)) cl)
    as (-> & -> & -> & -> & -> & E6 & _); [exact HA1 | exact HA2 |].
  rewrite E6.
  assert (Eib : indexBufferChanged
                  (setPipelineLayout
                     (GraphicsPipeline.pipelineLayout
                        (graphicsPipelineAt (GraphicsState.pipeline state)))
                     (GraphicsPipeline.pushConstantVisibility
                        (graphicsPipelineAt (GraphicsState.pipeline state)))
                     (afterRenderPass cl state)) state
                = indexBufferChanged cl state).
  { apply withFramebuffer_fields in HA1 as (_ & _ & _ & _ & _ & _ & Hib).
    unfold indexBufferChanged. simpl. by rewrite Hib. }
  rewrite Eib.
  destruct (applyVertexBuffers state _) as [cl2|]; simpl; [|done].
  rewrite applyIndirectParams_appendCalls, applyShadingRate_appendCalls,
    appendCalls_appendCalls.
  by rewrite app_nil_r.
Qed.

Lemma setGraphicsState_unfold cl state cl' :
  setGraphicsState cl state = Some cl' ->
  isNull (GraphicsState.pipeline state) = false
  /\ (vertexBuffersChanged cl state = true ->
      exists c, vertexBufferCalls state cl = [c] /\ isBindVertexBuffers c = true)
  /\ exists refs,
      cl' = storeGraphicsState state
              (setPipelineLayout
                 (GraphicsPipeline.pipelineLayout
                    (graphicsPipelineAt (GraphicsState.pipeline state)))
                 (GraphicsPipeline.pushConstantVisibility
                    (graphicsPipelineAt (GraphicsState.pipeline state)))
                 (appendCalls
                    (let pso := graphicsPipelineAt (GraphicsState.pipeline state) in
                     let up := pipelineChanged cl state in
                     bindingCalls pso state cl ++ viewportCalls state cl
                     ++ scissorCalls state cl ++ stencilCalls pso up state cl
                     ++ blendCalls pso up state cl ++ indexBufferCalls state cl
                     ++ vertexBufferCalls state cl ++ shadingRateCalls state)
                    refs (afterRenderPass cl state))).
Proof.
  rewrite setGraphicsState_eq.
  destruct (isNull (GraphicsState.pipeline state)); [done|].
  destruct (scissorsDefined cl state); [|done]. simpl negb. cbv iota.
  cbv zeta. intros H. split; [done|].
  apply bind_Some in H as (clv & Hv & H). injection H as <-.
  destruct (afterRenderPass_cache cl state) as (HA1 & HA2).
  apply applyVertexBuffers_appendCalls in Hv as ((refs & ->) & Hc).
  assert (Evb : forall cs r,
             vertexBufferCalls state
               (appendCalls cs r
                  (setPipelineLayout
                     (GraphicsPipeline.pipelineLayout
                        (graphicsPipelineAt (GraphicsState.pipeline state)))
                     (GraphicsPipeline.pushConstantVisibility
                        (graphicsPipelineAt (GraphicsState.pipeline state)))
                     (afterRenderPass cl state)))
             = vertexBufferCalls state cl).
  { intros cs r. apply vertexBufferCalls_frame. simpl.
    by apply withFramebuffer_fields in HA1 as (_ & _ & _ & _ & _ & ? & _). }
  rewrite Evb in *.
  split.
  - intros Hch. apply Hc.
    rewrite <- Hch. by apply vertexBuffersChanged_frame.
  - rewrite !appendCalls_appendCalls. eexists.
    rewrite setPipelineLayout_appendCalls.
    do 2 f_equal. by rewrite <- !app_assoc.
Qed.

(** [setGraphicsState] has a result in the model exactly when the pipeline
    is not null, the scissor block, if it runs, does not overflow, and the
    vertex-buffer loop, if it runs, meets no null buffer. *)
Lemma setGraphicsState_is_Some cl state :
  is_Some (setGraphicsState cl state)
  <-> isNull (GraphicsState.pipeline state) = false
      /\ scissorsDefined cl state = true
      /\ (vertexBuffersChanged cl state = true ->
          is_Some (bindVertexBuffers (GraphicsState.vertexBuffers state) cl)).
Proof.
  rewrite setGraphicsState_eq.
  destruct (isNull (GraphicsState.pipeline state)).
  { split; [by intros [? ?] | by intros [? _]]. }
  destruct (scissorsDefined cl state).
  2:{ split; [by intros [? ?] | by intros (_ & ? & _)]. }
  simpl negb. cbv iota. cbv zeta.
  destruct (afterRenderPass_cache cl state) as (HA1 & HA2).
  match goal with
  | |- is_Some (mbind _ (applyVertexBuffers state ?c)) <-> _ =>
      pose proof (applyVertexBuffers_is_Some state c) as Hv;
      assert (Hch : vertexBuffersChanged c state = vertexBuffersChanged cl state)
        by (by apply vertexBuffersChanged_frame);
      rewrite Hch in Hv;
      destruct (applyVertexBuffers state c) as [cl2|]
  end; simpl.
  - split; [|by eexists]. intros _. split; [done|]. split; [done|]. intros Hc.
    destruct Hv as [Hv _]. eapply bindVertexBuffers_is_Some_frame, Hv; [by eexists|done].
  - split; [by intros [? ?]|]. intros (_ & _ & H). exfalso.
    destruct Hv as [_ Hv]. destruct Hv as [? ?]; [|done].
    intros Hc. eapply bindVertexBuffers_is_Some_frame, H, Hc.
Qed.

Lemma afterRenderPass_calls cl state :
  calls (afterRenderPass cl state)
  = calls cl
    ++ pipelineCalls (graphicsPipelineAt (GraphicsState.pipeline state))
         (pipelineChanged cl state)
    ++ renderPassCalls state (anyBarriers (trackBarriers state cl))
         (trackBarriers state cl).
Proof.
  unfold afterRenderPass. cbv zeta.
  destruct (trackBarriers_cache state cl) as (T1 & T2 & T3 & T4).
  assert (Hup : pipelineChanged (trackBarriers state cl) state
                = pipelineChanged cl state).
  { unfold pipelineChanged. by rewrite T1. }
  rewrite Hup, prepareRenderPass_calls, bindGraphicsPipeline_appendCalls.
  rewrite calls_appendCalls, T4, <- app_assoc. do 2 f_equal.
Qed.

Lemma afterRenderPass_tracker cl state :
  m_StateTracker (afterRenderPass cl state)
  = (flush (m_StateTracker (trackBarriers state cl))).2.
Proof.
  unfold afterRenderPass. cbv zeta.
  destruct (prepareRenderPass_cache state (anyBarriers (trackBarriers state cl))
    (bindGraphicsPipeline (graphicsPipelineAt (GraphicsState.pipeline state))
       (pipelineChanged (trackBarriers state cl) state) state
       (trackBarriers state cl))) as (_ & _ & ->).
  by rewrite bindGraphicsPipeline_appendCalls.
Qed.

(** Every call [setGraphicsState] records, in order. *)
Lemma setGraphicsState_calls cl state cl' :
  setGraphicsState cl state = Some cl' ->
  calls cl' = calls cl ++ graphicsStateCalls cl state.
Proof.
  intros H. apply setGraphicsState_unfold in H as (_ & _ & refs & ->).
  change (calls (storeGraphicsState state
                   (setPipelineLayout ?l ?v (appendCalls ?cs ?r ?c))))
    with (calls c ++ cs).
  rewrite afterRenderPass_calls. unfold graphicsStateCalls. cbv zeta.
  by rewrite <- !app_assoc.
Qed.

Lemma setGraphicsState_tracker cl state cl' :
  setGraphicsState cl state = Some cl' ->
  m_StateTracker cl' = (flush (m_StateTracker (trackBarriers state cl))).2.
Proof.
  intros H. apply setGraphicsState_unfold in H as (_ & _ & refs & ->).
  simpl. apply afterRenderPass_tracker.
Qed.

Lemma setGraphicsState_cache cl state cl' :
  setGraphicsState cl state = Some cl' ->
  m_CurrentGraphicsState cl' = state
  /\ m_CurrentComputeState cl' = ComputeState.init
  /\ m_CurrentMeshletState cl' = MeshletState.init
  /\ m_CurrentRayTracingState cl' = rt_State.init
  /\ m_AnyVolatileBufferWrites cl' = false.
Proof. intros H. by apply setGraphicsState_unfold in H as (_ & _ & refs & ->). Qed.

(** *** The comparisons *)

Lemma arraysAreDifferent_spec {T : Type} (ne : T -> T -> bool) :
  (forall x y, ne x y = false <-> x = y) ->
  forall a b, arraysAreDifferent ne a b = false <-> a = b.
Proof.
  intros Hne a. unfold arraysAreDifferent.
  induction a as [|x a IH]; intros [|y b]; simpl; try done.
  specialize (IH b). simpl in IH.
  rewrite orb_false_iff, negb_false_iff in *.
  rewrite orb_false_iff, Hne. split.
  - intros (Hl & -> & He). f_equal. apply IH. split; [exact Hl | exact He].
  - intros [= -> ->]. split; [|split; [done|]].
    + by apply Nat.eqb_eq.
    + apply IH. reflexivity.
Qed.

Lemma ptr_neqb_spec x y : ptr_neqb x y = false <-> x = y.
Proof. unfold ptr_neqb. rewrite negb_false_iff. apply N.eqb_eq. Qed.

Lemma VertexBufferBinding_neqb_spec x y :
  VertexBufferBinding.neqb x y = false <-> x = y.
Proof.
  unfold VertexBufferBinding.neqb, VertexBufferBinding.eqb.
  rewrite negb_false_iff, !andb_true_iff, !N.eqb_eq.
  destruct x, y; simpl. split; [by intros [[-> ->] ->] | by intros [= -> -> ->]].
Qed.

Lemma IndexBufferBinding_neqb_spec x y :
  IndexBufferBinding.neqb x y = false <-> x = y.
Proof.
  unfold IndexBufferBinding.neqb, IndexBufferBinding.eqb.
  rewrite negb_false_iff, !andb_true_iff, !N.eqb_eq.
  destruct x, y; simpl. split; [by intros [[-> ->] ->] | by intros [= -> -> ->]].
Qed.

Lemma bindingsChanged_spec cl state :
  bindingsChanged cl state = true
  <-> GraphicsState.bindings (m_CurrentGraphicsState cl) <> GraphicsState.bindings state
      \/ m_AnyVolatileBufferWrites cl = true.
Proof.
  unfold bindingsChanged. rewrite orb_true_iff.
  pose proof (arraysAreDifferent_spec ptr_neqb ptr_neqb_spec
                (GraphicsState.bindings (m_CurrentGraphicsState cl))
                (GraphicsState.bindings state)) as H.
  destruct (arraysAreDifferent _ _ _); split; intros [?|?]; auto.
  - left. intros E. apply H in E. done.
  - exfalso. apply H0. by apply H.
Qed.

Lemma indexBufferChanged_spec cl state :
  indexBufferChanged cl state = true
  <-> IndexBufferBinding.buffer (GraphicsState.indexBuffer state) <> nullptr
      /\ GraphicsState.indexBuffer (m_CurrentGraphicsState cl)
         <> GraphicsState.indexBuffer state.
Proof.
  unfold indexBufferChanged, isNull. rewrite andb_true_iff, negb_true_iff, N.eqb_neq.
  pose proof (IndexBufferBinding_neqb_spec
                (GraphicsState.indexBuffer (m_CurrentGraphicsState cl))
                (GraphicsState.indexBuffer state)) as H.
  destruct (IndexBufferBinding.neqb _ _); split; intros [? ?]; split; auto.
  - intros E. apply H in E. done.
  - exfalso. apply H1. by apply H.
Qed.

Lemma vertexBuffersChanged_spec cl state :
  vertexBuffersChanged cl state = true
  <-> GraphicsState.vertexBuffers state <> []
      /\ GraphicsState.vertexBuffers state
         <> GraphicsState.vertexBuffers (m_CurrentGraphicsState cl).
Proof.
  unfold vertexBuffersChanged. rewrite andb_true_iff, negb_true_iff.
  pose proof (arraysAreDifferent_spec VertexBufferBinding.neqb
                VertexBufferBinding_neqb_spec
                (GraphicsState.vertexBuffers state)
                (GraphicsState.vertexBuffers (m_CurrentGraphicsState cl))) as H.
  assert (He : isEmpty (GraphicsState.vertexBuffers state) = false
               <-> GraphicsState.vertexBuffers state <> []).
  { by destruct (GraphicsState.vertexBuffers state). }
  rewrite He.
  destruct (arraysAreDifferent _ _ _); split; intros [? ?]; split; auto.
  - intros E. apply H in E. done.
  - exfalso. apply H1. by apply H.
Qed.

(** *** Kinds of the recorded calls *)

Lemma existsb_vertexBufferCalls (k : DriverCall -> bool) state cl :
  (forall c, isBindVertexBuffers c = true -> k c = false) ->
  existsb k (vertexBufferCalls state cl) = false.
Proof.
  intros Hk. destruct (vertexBufferCalls_kind state cl) as [-> | (c & -> & Hc)].
  - reflexivity.
  - simpl. by rewrite (Hk c Hc).
Qed.

Ltac unfold_calls :=
  unfold pipelineCalls, renderPassCalls, endRenderPassCalls, barrierCalls,
    beginRenderingCalls, bindingCalls, viewportCalls, scissorCalls,
    stencilCalls, blendCalls, indexBufferCalls, shadingRateCalls.

(** [existsb k] over the calls other than the vertex-buffer call. *)
Ltac existsb_calls :=
  unfold_calls; cbv zeta;
  repeat match goal with
         | |- context [if ?b then _ else _] => destruct b eqn:?
         | |- context [match ?l with [] => _ | _ :: _ => _ end] => destruct l eqn:?
         | |- context [match ?o with Some _ => _ | None => _ end] =>
             destruct o eqn:?
         end;
  simpl; try reflexivity; try congruence.

Lemma existsb_graphicsStateCalls (k : DriverCall -> bool) cl state :
  existsb k (graphicsStateCalls cl state)
  = existsb k (pipelineCalls (graphicsPipelineAt (GraphicsState.pipeline state))
                 (pipelineChanged cl state))
    || existsb k (renderPassCalls state (anyBarriers (trackBarriers state cl))
                    (trackBarriers state cl))
    || existsb k (bindingCalls (graphicsPipelineAt (GraphicsState.pipeline state))
                    state cl)
    || existsb k (viewportCalls state cl)
    || existsb k (scissorCalls state cl)
    || existsb k (stencilCalls (graphicsPipelineAt (GraphicsState.pipeline state))
                    (pipelineChanged cl state) state cl)
    || existsb k (blendCalls (graphicsPipelineAt (GraphicsState.pipeline state))
                    (pipelineChanged cl state) state cl)
    || existsb k (indexBufferCalls state cl)
    || existsb k (vertexBufferCalls state cl)
    || existsb k (shadingRateCalls state).
Proof.
  unfold graphicsStateCalls. cbv zeta. rewrite !existsb_app.
  by rewrite !orb_assoc.
Qed.

Lemma graphicsStateCalls_bindPipeline cl state :
  existsb isBindPipeline (graphicsStateCalls cl state) = pipelineChanged cl state.
Proof.
  rewrite existsb_graphicsStateCalls.
  rewrite (existsb_vertexBufferCalls isBindPipeline) by (by intros []).
  assert (H2 : forall s b c, existsb isBindPipeline (renderPassCalls s b c) = false)
    by (intros; existsb_calls).
  assert (H3 : forall p, existsb isBindPipeline (bindingCalls p state cl) = false)
    by (intros; existsb_calls).
  assert (H4 : existsb isBindPipeline (viewportCalls state cl) = false)
    by existsb_calls.
  assert (H5 : existsb isBindPipeline (scissorCalls state cl) = false)
    by existsb_calls.
  assert (H6 : forall p u, existsb isBindPipeline (stencilCalls p u state cl) = false)
    by (intros; existsb_calls).
  assert (H7 : forall p u, existsb isBindPipeline (blendCalls p u state cl) = false)
    by (intros; existsb_calls).
  assert (H8 : existsb isBindPipeline (indexBufferCalls state cl) = false)
    by existsb_calls.
  assert (H9 : existsb isBindPipeline (shadingRateCalls state) = false)
    by existsb_calls.
  rewrite H2, H3, H4, H5, H6, H7, H8, H9.
  unfold pipelineCalls. by destruct (pipelineChanged cl state).
Qed.

Lemma graphicsStateCalls_bindDescriptorSets cl state :
  existsb isBindDescriptorSets (graphicsStateCalls cl state)
  = bindingsChanged cl state.
Proof.
  rewrite existsb_graphicsStateCalls.
  rewrite (existsb_vertexBufferCalls isBindDescriptorSets) by (by intros []).
  assert (H1 : forall p u, existsb isBindDescriptorSets (pipelineCalls p u) = false)
    by (intros; existsb_calls).
  assert (H2 : forall s b c, existsb isBindDescriptorSets (renderPassCalls s b c) = false)
    by (intros; existsb_calls).
  assert (H4 : existsb isBindDescriptorSets (viewportCalls state cl) = false)
    by existsb_calls.
  assert (H5 : existsb isBindDescriptorSets (scissorCalls state cl) = false)
    by existsb_calls.
  assert (H6 : forall p u, existsb isBindDescriptorSets (stencilCalls p u state cl) = false)
    by (intros; existsb_calls).
  assert (H7 : forall p u, existsb isBindDescriptorSets (blendCalls p u state cl) = false)
    by (intros; existsb_calls).
  assert (H8 : existsb isBindDescriptorSets (indexBufferCalls state cl) = false)
    by existsb_calls.
  assert (H9 : existsb isBindDescriptorSets (shadingRateCalls state) = false)
    by existsb_calls.
  rewrite H1, H2, H4, H5, H6, H7, H8, H9.
  unfold bindingCalls. destruct (bindingsChanged cl state); simpl; reflexivity.
Qed.

Lemma graphicsStateCalls_bindIndexBuffer cl state :
  existsb isBindIndexBuffer (graphicsStateCalls cl state)
  = indexBufferChanged cl state.
Proof.
  rewrite existsb_graphicsStateCalls.
  rewrite (existsb_vertexBufferCalls isBindIndexBuffer) by (by intros []).
  assert (H1 : forall p u, existsb isBindIndexBuffer (pipelineCalls p u) = false)
    by (intros; existsb_calls).
  assert (H2 : forall s b c, existsb isBindIndexBuffer (renderPassCalls s b c) = false)
    by (intros; existsb_calls).
  assert (H3 : forall p, existsb isBindIndexBuffer (bindingCalls p state cl) = false)
    by (intros; existsb_calls).
  assert (H4 : existsb isBindIndexBuffer (viewportCalls state cl) = false)
    by existsb_calls.
  assert (H5 : existsb isBindIndexBuffer (scissorCalls state cl) = false)
    by existsb_calls.
  assert (H6 : forall p u, existsb isBindIndexBuffer (stencilCalls p u state cl) = false)
    by (intros; existsb_calls).
  assert (H7 : forall p u, existsb isBindIndexBuffer (blendCalls p u state cl) = false)
    by (intros; existsb_calls).
  assert (H9 : existsb isBindIndexBuffer (shadingRateCalls state) = false)
    by existsb_calls.
  rewrite H1, H2, H3, H4, H5, H6, H7, H9.
  unfold indexBufferCalls. destruct (indexBufferChanged cl state); simpl; reflexivity.
Qed.

Lemma graphicsStateCalls_bindVertexBuffers cl state cl' :
  setGraphicsState cl state = Some cl' ->
  existsb isBindVertexBuffers (graphicsStateCalls cl state)
  = vertexBuffersChanged cl state.
Proof.
  intros Hs. rewrite existsb_graphicsStateCalls.
  assert (H1 : forall p u, existsb isBindVertexBuffers (pipelineCalls p u) = false)
    by (intros; existsb_calls).
  assert (H2 : forall s b c, existsb isBindVertexBuffers (renderPassCalls s b c) = false)
    by (intros; existsb_calls).
  assert (H3 : forall p, existsb isBindVertexBuffers (bindingCalls p state cl) = false)
    by (intros; existsb_calls).
  assert (H4 : existsb isBindVertexBuffers (viewportCalls state cl) = false)
    by existsb_calls.
  assert (H5 : existsb isBindVertexBuffers (scissorCalls state cl) = false)
    by existsb_calls.
  assert (H6 : forall p u, existsb isBindVertexBuffers (stencilCalls p u state cl) = false)
    by (intros; existsb_calls).
  assert (H7 : forall p u, existsb isBindVertexBuffers (blendCalls p u state cl) = false)
    by (intros; existsb_calls).
  assert (H8 : existsb isBindVertexBuffers (indexBufferCalls state cl) = false)
    by existsb_calls.
  assert (H9 : existsb isBindVertexBuffers (shadingRateCalls state) = false)
    by existsb_calls.
  rewrite H1, H2, H3, H4, H5, H6, H7, H8, H9. simpl. rewrite orb_false_r.
  apply setGraphicsState_unfold in Hs as (_ & Hv & _).
  destruct (vertexBuffersChanged cl state) eqn:E.
  - destruct (Hv eq_refl) as (c & -> & Hc). simpl. by rewrite Hc.
  - unfold vertexBufferCalls. by rewrite E.
Qed.

Lemma setGraphicsState_newCalls cl state cl' :
  setGraphicsState cl state = Some cl' ->
  newCalls cl cl' = graphicsStateCalls cl state.
Proof. intros H. apply newCalls_app. by apply setGraphicsState_calls. Qed.

(** *** Render pass nesting *)

Lemma renderPassNesting_app l1 : forall a l2,
  renderPassNesting a (l1 ++ l2)
  = match renderPassNesting a l1 with
    | Some a' => renderPassNesting a' l2
    | None => None
    end.
Proof.
  induction l1 as [|c l1 IH]; intros a l2; [done|].
  destruct c; simpl; try apply IH; destruct a; try done; apply IH.
Qed.

Lemma renderPassNesting_other l : forall a,
  existsb isBeginRendering l = false ->
  existsb isEndRendering l = false ->
  renderPassNesting a l = Some a.
Proof.
  induction l as [|c l IH]; intros a Hb He; [done|].
  simpl in Hb, He. apply orb_false_elim in Hb as [Hb1 Hb2].
  apply orb_false_elim in He as [He1 He2].
  destruct c; simpl in *; try done; by apply IH.
Qed.

Lemma renderPassCalls_nesting state anyB cl :
  renderPassNesting (renderPassActive cl) (renderPassCalls state anyB cl)
  = Some (negb (isNull (GraphicsState.framebuffer state))).
Proof.
  unfold renderPassCalls.
  assert (Hbar : forall a, renderPassNesting a (barrierCalls (m_StateTracker cl)) = Some a).
  { intros a. unfold barrierCalls. by destruct (pendingBarriers _). }
  assert (Hend : renderPassNesting (renderPassActive cl) (endRenderPassCalls cl)
                 = Some false).
  { unfold endRenderPassCalls. by destruct (renderPassActive cl). }
  assert (Hbeg : renderPassNesting false
                   (beginRenderingCalls (GraphicsState.framebuffer state))
                 = Some (negb (isNull (GraphicsState.framebuffer state)))).
  { unfold beginRenderingCalls. by destruct (isNull _). }
  destruct (framebufferChanged cl state || anyB) eqn:E.
  - by rewrite renderPassNesting_app, Hend, renderPassNesting_app, Hbar, Hbeg.
  - apply orb_false_elim in E as [E _].
    apply ptr_neqb_spec in E.
    rewrite renderPassNesting_app, Hbar.
    destruct (isNull (GraphicsState.framebuffer (m_CurrentGraphicsState cl))) eqn:En.
    + by rewrite renderPassNesting_app, Hend, Hbeg.
    + simpl. unfold renderPassActive. by rewrite En, <- E, En.
Qed.

Lemma setGraphicsState_consistent cl state cl' :
  renderPassConsistent cl ->
  setGraphicsState cl state = Some cl' ->
  renderPassConsistent cl'.
Proof.
  unfold renderPassConsistent. intros Hc Hs.
  rewrite (setGraphicsState_calls _ _ _ Hs).
  destruct (setGraphicsState_cache _ _ _ Hs) as (Eg & _ & Em & _).
  assert (Ha : renderPassActive cl' = negb (isNull (GraphicsState.framebuffer state))).
  { unfold renderPassActive. rewrite Eg, Em. simpl. apply orb_false_r. }
  rewrite Ha. unfold graphicsStateCalls. cbv zeta.
  destruct (trackBarriers_cache state cl) as (T1 & T2 & T3 & T4).
  assert (Hact : renderPassActive (trackBarriers state cl) = renderPassActive cl).
  { unfold renderPassActive. by rewrite T1, T2. }
  rewrite renderPassNesting_app, Hc.
  rewrite renderPassNesting_app.
  rewrite (renderPassNesting_other (pipelineCalls _ _)) by existsb_calls.
  rewrite renderPassNesting_app, <- Hact, renderPassCalls_nesting.
  apply renderPassNesting_other; rewrite !existsb_app;
    rewrite existsb_vertexBufferCalls by (by intros []);
    repeat (apply orb_false_intro); try reflexivity; existsb_calls.
Qed.

Lemma updateGraphicsVolatileBuffers_calls cl :
  exists cs, calls (updateGraphicsVolatileBuffers cl) = calls cl ++ cs
    /\ existsb (fun c => negb (isBindDescriptorSets c)) cs = false
    /\ m_StateTracker (updateGraphicsVolatileBuffers cl) = m_StateTracker cl
    /\ m_CurrentGraphicsState (updateGraphicsVolatileBuffers cl)
       = m_CurrentGraphicsState cl
    /\ m_CurrentMeshletState (updateGraphicsVolatileBuffers cl)
       = m_CurrentMeshletState cl.
Proof.
  unfold updateGraphicsVolatileBuffers. destruct (_ && _).
  - eexists [_]. simpl. split; [reflexivity|]. done.
  - exists []. by rewrite app_nil_r.
Qed.

Lemma draw_calls args cl :
  exists cs, calls (draw args cl)
             = calls cl ++ cs
               ++ [Draw (DrawArguments.vertexCount args)
                     (DrawArguments.instanceCount args)
                     (DrawArguments.startVertexLocation args)
                     (DrawArguments.startInstanceLocation args)]
    /\ existsb (fun c => negb (isBindDescriptorSets c)) cs = false
    /\ m_StateTracker (draw args cl) = m_StateTracker cl
    /\ m_CurrentGraphicsState (draw args cl) = m_CurrentGraphicsState cl
    /\ m_CurrentMeshletState (draw args cl) = m_CurrentMeshletState cl.
Proof.
  unfold draw.
  destruct (updateGraphicsVolatileBuffers_calls cl) as (cs & E & Hk & Ht & Hg & Hm).
  exists cs. rewrite calls_record, E, <- app_assoc. done.
Qed.

Lemma drawIndexed_calls args cl :
  exists cs, calls (drawIndexed args cl)
             = calls cl ++ cs
               ++ [DrawIndexed (DrawArguments.vertexCount args)
                     (DrawArguments.instanceCount args)
                     (DrawArguments.startIndexLocation args)
                     (DrawArguments.startVertexLocation args)
                     (DrawArguments.startInstanceLocation args)]
    /\ existsb (fun c => negb (isBindDescriptorSets c)) cs = false
    /\ m_StateTracker (drawIndexed args cl) = m_StateTracker cl
    /\ m_CurrentGraphicsState (drawIndexed args cl) = m_CurrentGraphicsState cl
    /\ m_CurrentMeshletState (drawIndexed args cl) = m_CurrentMeshletState cl.
Proof.
  unfold drawIndexed.
  destruct (updateGraphicsVolatileBuffers_calls cl) as (cs & E & Hk & Ht & Hg & Hm).
  exists cs. rewrite calls_record, E, <- app_assoc. done.
Qed.

Lemma only_bindDescriptorSets_nesting cs a :
  existsb (fun c => negb (isBindDescriptorSets c)) cs = false ->
  renderPassNesting a cs = Some a.
Proof.
  intros H. apply renderPassNesting_other.
  - induction cs as [|c cs IH]; [done|]. simpl in *.
    apply orb_false_elim in H as [H1 H2]. rewrite (IH H2). by destruct c.
  - induction cs as [|c cs IH]; [done|]. simpl in *.
    apply orb_false_elim in H as [H1 H2]. rewrite (IH H2). by destruct c.
Qed.

Lemma beginRenderPass_consistent fb cl :
  renderPassConsistent cl -> renderPassConsistent (beginRenderPass fb cl).
Proof.
  unfold renderPassConsistent. intros Hc.
  rewrite beginRenderPass_calls, renderPassNesting_app, Hc.
  unfold beginRenderPass, endRenderPassCalls, beginRenderingCalls.
  pose proof (endRenderPass_inactive cl) as Hin.
  destruct (isNull fb) eqn:En.
  - rewrite Hin, app_nil_r. by destruct (renderPassActive cl).
  - assert (Ha : renderPassActive
                   (reference fb
                      (record (BeginRendering (renderingInfoOf (framebufferAt fb)))
                         (setFramebuffers fb (endRenderPass cl)))) = true).
    { unfold renderPassActive. simpl. by rewrite En. }
    rewrite Ha. by destruct (renderPassActive cl).
Qed.

Lemma endRenderPass_consistent cl :
  renderPassConsistent cl -> renderPassConsistent (endRenderPass cl).
Proof.
  unfold renderPassConsistent. intros Hc.
  rewrite endRenderPass_calls, renderPassNesting_app, Hc, endRenderPass_inactive.
  by destruct (renderPassActive cl).
Qed.

Lemma runGraphicsOp_consistent op cl cl' :
  renderPassConsistent cl ->
  runGraphicsOp op cl = Some cl' ->
  renderPassConsistent cl'.
Proof.
  intros Hc H. destruct op; simpl in H.
  - injection H as <-. by apply beginRenderPass_consistent.
  - injection H as <-. by apply endRenderPass_consistent.
  - by eapply setGraphicsState_consistent.
  - injection H as <-. unfold renderPassConsistent in *.
    destruct (draw_calls args cl) as (cs & -> & Hk & _ & Hg & Hm).
    unfold renderPassActive. rewrite Hg, Hm.
    rewrite renderPassNesting_app, Hc, renderPassNesting_app.
    by rewrite (only_bindDescriptorSets_nesting cs).
  - injection H as <-. unfold renderPassConsistent in *.
    destruct (drawIndexed_calls args cl) as (cs & -> & Hk & _ & Hg & Hm).
    unfold renderPassActive. rewrite Hg, Hm.
    rewrite renderPassNesting_app, Hc, renderPassNesting_app.
    by rewrite (only_bindDescriptorSets_nesting cs).
  - unfold setTextureState, onTracker in H.
    destruct (requireState _ _ _ _ _); injection H as <-; exact Hc.
  - injection H as <-. unfold renderPassConsistent in *.
    rewrite commitBarriers_calls, renderPassNesting_app, Hc.
    destruct (commitBarriers_cache cl) as (Eg & Em & _).
    unfold renderPassActive. rewrite Eg, Em.
    unfold barrierCalls. by destruct (pendingBarriers _).
Qed.

(** *** Comparisons of a state with itself *)

Lemma SFeqb_refl x : isNaN x = false -> SFeqb x x = true.
Proof.
  unfold SFeqb, SFcompare. destruct x as [s|s| |s m e]; try done.
  - by destruct s.
  - intros _. destruct s; rewrite Z.compare_refl, Pos.compare_cont_refl; done.
Qed.

Lemma SFeqb_nan x : isNaN x = true -> SFeqb x x = false.
Proof. by destruct x. Qed.

Lemma Color_neqb_refl c : Color.neqb c c = colorHasNaN c.
Proof.
  unfold Color.neqb, Color.eqb, colorHasNaN.
  destruct (isNaN (Color.r c)) eqn:Hr, (isNaN (Color.g c)) eqn:Hg,
    (isNaN (Color.b c)) eqn:Hb, (isNaN (Color.a c)) eqn:Ha;
    rewrite ?(SFeqb_refl _ Hr), ?(SFeqb_refl _ Hg), ?(SFeqb_refl _ Hb),
      ?(SFeqb_refl _ Ha), ?(SFeqb_nan _ Hr), ?(SFeqb_nan _ Hg),
      ?(SFeqb_nan _ Hb), ?(SFeqb_nan _ Ha), ?andb_false_r; done.
Qed.

Lemma Viewport_neqb_refl v : Viewport.neqb v v = viewportHasNaN v.
Proof.
  unfold Viewport.neqb, Viewport.eqb, viewportHasNaN.
  destruct (isNaN (Viewport.minX v)) eqn:H1, (isNaN (Viewport.maxX v)) eqn:H2,
    (isNaN (Viewport.minY v)) eqn:H3, (isNaN (Viewport.maxY v)) eqn:H4,
    (isNaN (Viewport.minZ v)) eqn:H5, (isNaN (Viewport.maxZ v)) eqn:H6;
    rewrite ?(SFeqb_refl _ H1), ?(SFeqb_refl _ H2), ?(SFeqb_refl _ H3),
      ?(SFeqb_refl _ H4), ?(SFeqb_refl _ H5), ?(SFeqb_refl _ H6),
      ?(SFeqb_nan _ H1), ?(SFeqb_nan _ H2), ?(SFeqb_nan _ H3),
      ?(SFeqb_nan _ H4), ?(SFeqb_nan _ H5), ?(SFeqb_nan _ H6),
      ?andb_false_r; done.
Qed.

Lemma Rect_neqb_refl r : Rect.neqb r r = false.
Proof. unfold Rect.neqb, Rect.eqb. by rewrite !Z.eqb_refl. Qed.

Lemma arraysAreDifferent_self {T : Type} (ne : T -> T -> bool) a :
  arraysAreDifferent ne a a = existsb (fun x => ne x x) a.
Proof.
  unfold arraysAreDifferent. rewrite Nat.eqb_refl. simpl.
  induction a as [|x a IH]; simpl; [done|]. by rewrite IH.
Qed.

Lemma existsb_pointwise {T : Type} (f g : T -> bool) a :
  (forall x, f x = g x) -> existsb f a = existsb g a.
Proof. intros H. induction a as [|x a IH]; simpl; [done|]. by rewrite H, IH. Qed.

Lemma existsb_const_false {T : Type} (f : T -> bool) a :
  (forall x, f x = false) -> existsb f a = false.
Proof. intros H. induction a as [|x a IH]; simpl; [done|]. by rewrite H, IH. Qed.

(** The calls of [setGraphicsState] when the cache already holds the
    state. *)
Lemma graphicsStateCalls_at_rest cl state :
  m_CurrentGraphicsState cl = state ->
  m_AnyVolatileBufferWrites cl = false ->
  let pso := graphicsPipelineAt (GraphicsState.pipeline state) in
  graphicsStateCalls cl state
  = renderPassCalls state (anyBarriers (trackBarriers state cl))
      (trackBarriers state cl)
    ++ viewportCalls state cl
    ++ blendCalls pso false state cl
    ++ shadingRateCalls state.
Proof.
  intros Hgs Hvol pso. unfold graphicsStateCalls. cbv zeta. fold pso.
  assert (Hp : pipelineChanged cl state = false).
  { unfold pipelineChanged, ptr_neqb. by rewrite Hgs, N.eqb_refl. }
  rewrite Hp.
  assert (Hb : bindingCalls pso state cl = []).
  { unfold bindingCalls, bindingsChanged. rewrite Hgs, Hvol, arraysAreDifferent_self.
    rewrite existsb_const_false; [done|].
    intros x. unfold ptr_neqb. by rewrite N.eqb_refl. }
  assert (Hs : scissorCalls state cl = []).
  { unfold scissorCalls, scissorsChanged. rewrite Hgs, arraysAreDifferent_self.
    rewrite existsb_const_false; [by rewrite andb_false_r|].
    apply Rect_neqb_refl. }
  assert (Hst : stencilCalls pso false state cl = []).
  { unfold stencilCalls, stencilRefChanged. rewrite Hgs, N.eqb_refl.
    by rewrite andb_false_r. }
  assert (Hi : indexBufferCalls state cl = []).
  { unfold indexBufferCalls, indexBufferChanged. rewrite Hgs.
    rewrite (proj2 (IndexBufferBinding_neqb_spec _ _) eq_refl).
    by rewrite andb_false_r. }
  assert (Hv : vertexBufferCalls state cl = []).
  { unfold vertexBufferCalls, vertexBuffersChanged.
    rewrite Hgs, arraysAreDifferent_self.
    rewrite existsb_const_false; [by rewrite andb_false_r|].
    intros x. by apply VertexBufferBinding_neqb_spec. }
  rewrite Hb, Hs, Hst, Hi, Hv. reflexivity.
Qed.

Lemma scissorsDefined_at_rest cl state :
  m_CurrentGraphicsState cl = state -> scissorsDefined cl state = true.
Proof.
  intros Hgs. unfold scissorsDefined, scissorsChanged.
  rewrite Hgs, arraysAreDifferent_self.
  rewrite existsb_const_false; [by rewrite andb_false_r|].
  apply Rect_neqb_refl.
Qed.

Lemma setGraphicsState_again cl state cl1 :
  setGraphicsState cl state = Some cl1 ->
  exists cl2,
    setGraphicsState cl1 state = Some cl2
    /\ newCalls cl1 cl2
       = renderPassCalls state (anyBarriers (trackBarriers state cl1))
           (trackBarriers state cl1)
         ++ viewportCalls state cl1
         ++ blendCalls (graphicsPipelineAt (GraphicsState.pipeline state))
              false state cl1
         ++ shadingRateCalls state.
Proof.
  intros H.
  destruct (setGraphicsState_cache cl state cl1 H) as (Hgs & _ & _ & _ & Hvol).
  destruct (setGraphicsState_unfold cl state cl1 H) as (Hpipe & _ & _).
  assert (Hsome : is_Some (setGraphicsState cl1 state)).
  { apply setGraphicsState_is_Some. split; [done|].
    split; [by apply scissorsDefined_at_rest|].
    intros [_ Hne]%vertexBuffersChanged_spec. by rewrite Hgs in Hne. }
  destruct Hsome as [cl2 H2]. exists cl2. split; [done|].
  rewrite (setGraphicsState_newCalls _ _ _ H2).
  by apply graphicsStateCalls_at_rest.
Qed.

Lemma renderPassCalls_at_rest cl state :
  m_CurrentGraphicsState cl = state ->
  m_CurrentMeshletState cl = MeshletState.init ->
  pendingBarriers (m_StateTracker (trackBarriers state cl)) = [] ->
  renderPassCalls state (anyBarriers (trackBarriers state cl))
    (trackBarriers state cl) = [].
Proof.
  intros Hgs Hms Hpending.
  destruct (trackBarriers_cache state cl) as (Tgs & Tms & _ & _).
  unfold renderPassCalls, framebufferChanged, anyBarriers, barrierCalls,
    endRenderPassCalls, renderPassActive, beginRenderingCalls, ptr_neqb.
  rewrite Tgs, Tms, Hgs, Hms, Hpending, N.eqb_refl. simpl.
  by destruct (isNull (GraphicsState.framebuffer state)).
Qed.

Lemma existsb_renderPassCalls state anyB cl :
  existsb (fun c => negb (isRenderPassOrShadingRate c))
    (renderPassCalls state anyB cl) = false.
Proof. existsb_calls. Qed.

(** *** The dynamic-state calls *)

(** Rewrites [existsb k] over the calls of [setGraphicsState] into
    [existsb k] over the one block that can hold a call of kind [k]. *)
Ltac one_block k :=
  rewrite existsb_graphicsStateCalls;
  rewrite (existsb_vertexBufferCalls k) by (by intros []);
  repeat match goal with
         | |- context [existsb k ?l] =>
             let H := fresh in
             assert (H : existsb k l = false) by existsb_calls;
             rewrite H; clear H
         end;
  simpl; rewrite ?orb_false_r.

Lemma graphicsStateCalls_viewport cl state :
  existsb isSetViewport (graphicsStateCalls cl state) = viewportsChanged cl state.
Proof.
  one_block isSetViewport. unfold viewportCalls.
  by destruct (viewportsChanged cl state).
Qed.

Lemma graphicsStateCalls_scissor cl state cl' :
  setGraphicsState cl state = Some cl' ->
  existsb isSetScissor (graphicsStateCalls cl state) = scissorsChanged cl state.
Proof.
  intros H.
  assert (Hd : scissorsDefined cl state = true).
  { apply (proj1 (setGraphicsState_is_Some cl state)). by eexists. }
  one_block isSetScissor. revert Hd. unfold scissorCalls, scissorsDefined.
  destruct (scissorsChanged cl state); [|done].
  by destruct (scissorsOf _).
Qed.

Lemma graphicsStateCalls_stencilReference cl state :
  existsb isSetStencilReference (graphicsStateCalls cl state)
  = stencilRefChanged (graphicsPipelineAt (GraphicsState.pipeline state))
      (pipelineChanged cl state) cl state.
Proof.
  one_block isSetStencilReference. unfold stencilCalls.
  by destruct (stencilRefChanged _ _ cl state).
Qed.

Lemma graphicsStateCalls_blendConstants cl state :
  existsb isSetBlendConstants (graphicsStateCalls cl state)
  = blendConstantsChanged (graphicsPipelineAt (GraphicsState.pipeline state))
      (pipelineChanged cl state) cl state.
Proof.
  one_block isSetBlendConstants. unfold blendCalls.
  by destruct (blendConstantsChanged _ _ cl state).
Qed.

Lemma graphicsStateCalls_shadingRate cl state :
  existsb isSetFragmentShadingRate (graphicsStateCalls cl state)
  = VariableRateShadingState.enabled (GraphicsState.shadingRateState state).
Proof.
  one_block isSetFragmentShadingRate. unfold shadingRateCalls.
  by destruct (VariableRateShadingState.enabled _).
Qed.

Lemma Rect_neqb_spec x y : Rect.neqb x y = false <-> x = y.
Proof.
  unfold Rect.neqb, Rect.eqb. rewrite negb_false_iff, !andb_true_iff, !Z.eqb_eq.
  destruct x, y; simpl. split; [by intros (((-> & ->) & ->) & ->)|].
  by intros [= -> -> -> ->].
Qed.

Lemma pipelineChanged_spec cl state :
  pipelineChanged cl state = true
  <-> GraphicsState.pipeline (m_CurrentGraphicsState cl)
      <> GraphicsState.pipeline state.
Proof.
  unfold pipelineChanged. destruct (ptr_neqb _ _) eqn:E.
  - split; [|done]. intros _ Heq. apply ptr_neqb_spec in Heq. congruence.
  - apply ptr_neqb_spec in E. split; [done|]. by intros Hc.
Qed.

Lemma isEmpty_false {A : Type} (l : list A) : negb (isEmpty l) = true <-> l <> [].
Proof. by destruct l. Qed.

Lemma viewportsChanged_spec cl state :
  viewportsChanged cl state = true
  <-> ViewportState.viewports (GraphicsState.viewport state) <> []
      /\ arraysAreDifferent Viewport.neqb
           (ViewportState.viewports (GraphicsState.viewport state))
           (ViewportState.viewports
              (GraphicsState.viewport (m_CurrentGraphicsState cl))) = true.
Proof. unfold viewportsChanged. by rewrite andb_true_iff, isEmpty_false. Qed.

Lemma scissorsChanged_spec cl state :
  scissorsChanged cl state = true
  <-> ViewportState.scissorRects (GraphicsState.viewport state) <> []
      /\ ViewportState.scissorRects (GraphicsState.viewport state)
         <> ViewportState.scissorRects
              (GraphicsState.viewport (m_CurrentGraphicsState cl)).
Proof.
  unfold scissorsChanged. rewrite andb_true_iff, isEmpty_false.
  apply and_iff_compat_l.
  rewrite <- (arraysAreDifferent_spec _ Rect_neqb_spec).
  by destruct (arraysAreDifferent _ _ _).
Qed.

Lemma stencilRefChanged_spec pso cl state :
  stencilRefChanged pso (pipelineChanged cl state) cl state = true
  <-> GraphicsPipeline.dynamicStencilRef pso = true
      /\ (GraphicsState.pipeline (m_CurrentGraphicsState cl)
          <> GraphicsState.pipeline state
          \/ GraphicsState.dynamicStencilRefValue (m_CurrentGraphicsState cl)
             <> GraphicsState.dynamicStencilRefValue state).
Proof.
  unfold stencilRefChanged.
  rewrite andb_true_iff, orb_true_iff, pipelineChanged_spec, negb_true_iff,
    N.eqb_neq. done.
Qed.

Lemma blendConstantsChanged_spec pso cl state :
  blendConstantsChanged pso (pipelineChanged cl state) cl state = true
  <-> GraphicsPipeline.usesBlendConstants pso = true
      /\ (GraphicsState.pipeline (m_CurrentGraphicsState cl)
          <> GraphicsState.pipeline state
          \/ Color.neqb (GraphicsState.blendConstantColor (m_CurrentGraphicsState cl))
               (GraphicsState.blendConstantColor state) = true).
Proof.
  unfold blendConstantsChanged.
  by rewrite andb_true_iff, orb_true_iff, pipelineChanged_spec.
Qed.

(** *** The graphics-state cache: results *)

(** C9: every call to [setGraphicsState] that returns, whatever the caches
    held before, stores the new graphics state, resets the cached compute,
    meshlet and ray-tracing states to their default values and clears the
    volatile-buffer-writes flag.  So afterwards no pipeline or shader table
    and no non-empty list of binding sets compares equal to what the
    compute, meshlet and ray-tracing caches hold, and a render pass counts
    as active exactly when the new state has a framebuffer, whatever
    framebuffer the meshlet cache held. *)
Theorem setGraphicsState_resets_other_states cl state cl' :
  setGraphicsState cl state = Some cl' ->
  (m_CurrentGraphicsState cl' = state
   /\ m_CurrentComputeState cl' = ComputeState.init
   /\ m_CurrentMeshletState cl' = MeshletState.init
   /\ m_CurrentRayTracingState cl' = rt_State.init
   /\ m_AnyVolatileBufferWrites cl' = false)
  /\ (forall p, p <> nullptr ->
        ptr_neqb (ComputeState.pipeline (m_CurrentComputeState cl')) p = true
        /\ ptr_neqb (MeshletState.pipeline (m_CurrentMeshletState cl')) p = true
        /\ ptr_neqb (rt_State.shaderTable (m_CurrentRayTracingState cl')) p = true)
  /\ (forall bindings : BindingSetVector, bindings <> [] ->
        arraysAreDifferent ptr_neqb
          (ComputeState.bindings (m_CurrentComputeState cl')) bindings = true
        /\ arraysAreDifferent ptr_neqb
             (MeshletState.bindings (m_CurrentMeshletState cl')) bindings = true
        /\ arraysAreDifferent ptr_neqb
             (rt_State.bindings (m_CurrentRayTracingState cl')) bindings = true)
  /\ renderPassActive cl' = negb (isNull (GraphicsState.framebuffer state)).
Proof.
  intros H.
  pose proof (setGraphicsState_cache _ _ _ H) as (Eg & Ec & Em & Er & Ev).
  split; [done|]. split; [|split].
  - intros p Hp. rewrite Ec, Em, Er. simpl.
    assert (Hn : ptr_neqb nullptr p = true).
    { destruct (ptr_neqb nullptr p) eqn:E; [done|].
      apply ptr_neqb_spec in E. by subst p. }
    done.
  - intros bindings Hb. rewrite Ec, Em, Er. simpl. by destruct bindings.
  - unfold renderPassActive. rewrite Eg, Em. simpl. by rewrite orb_false_r.
Qed.

(** C1, as amended: when the pipeline differs from the cached one, the
    pipeline is bound and the dynamic state the new pipeline declares is
    re-issued whatever its cached value.  The binding sets are re-issued
    exactly when they differ from the cached ones or a volatile buffer has
    been written, the index buffer exactly when the new one is not null and
    its binding differs from the cached one, and the vertex buffers exactly
    when the new list is not empty and differs from the cached one. *)
Theorem pipeline_change_reissues cl state cl' :
  setGraphicsState cl state = Some cl' ->
  GraphicsState.pipeline (m_CurrentGraphicsState cl) <> GraphicsState.pipeline state ->
  let pso := graphicsPipelineAt (GraphicsState.pipeline state) in
  let issued := newCalls cl cl' in
  BindPipeline (GraphicsPipeline.pipeline pso) ∈ issued
  /\ (GraphicsPipeline.dynamicStencilRef pso = true ->
      SetStencilReference (GraphicsState.dynamicStencilRefValue state) ∈ issued)
  /\ (GraphicsPipeline.usesBlendConstants pso = true ->
      SetBlendConstants (GraphicsState.blendConstantColor state) ∈ issued)
  /\ (existsb isBindDescriptorSets issued = true
      <-> GraphicsState.bindings (m_CurrentGraphicsState cl)
          <> GraphicsState.bindings state
          \/ m_AnyVolatileBufferWrites cl = true)
  /\ (existsb isBindIndexBuffer issued = true
      <-> IndexBufferBinding.buffer (GraphicsState.indexBuffer state) <> nullptr
          /\ GraphicsState.indexBuffer (m_CurrentGraphicsState cl)
             <> GraphicsState.indexBuffer state)
  /\ (existsb isBindVertexBuffers issued = true
      <-> GraphicsState.vertexBuffers state <> []
          /\ GraphicsState.vertexBuffers state
             <> GraphicsState.vertexBuffers (m_CurrentGraphicsState cl)).
Proof.
  intros Hs Hne pso issued. unfold issued.
  rewrite (setGraphicsState_newCalls _ _ _ Hs).
  assert (Hup : pipelineChanged cl state = true).
  { unfold pipelineChanged. destruct (ptr_neqb _ _) eqn:E; [done|].
    by apply ptr_neqb_spec in E. }
  split; [|split; [|split; [|split; [|split]]]].
  - unfold graphicsStateCalls. cbv zeta. rewrite Hup. simpl. apply list_elem_of_here.
  - intros Hd. unfold graphicsStateCalls. cbv zeta. rewrite Hup.
    rewrite !elem_of_app. do 5 right. left.
    unfold stencilCalls, stencilRefChanged. fold pso. rewrite Hd. simpl.
    apply list_elem_of_here.
  - intros Hb. unfold graphicsStateCalls. cbv zeta. rewrite Hup.
    rewrite !elem_of_app. do 6 right. left.
    unfold blendCalls, blendConstantsChanged. fold pso. rewrite Hb. simpl.
    apply list_elem_of_here.
  - rewrite graphicsStateCalls_bindDescriptorSets. apply bindingsChanged_spec.
  - rewrite graphicsStateCalls_bindIndexBuffer. apply indexBufferChanged_spec.
  - rewrite (graphicsStateCalls_bindVertexBuffers _ _ _ Hs).
    apply vertexBuffersChanged_spec.
Qed.

(** C2, as amended: after [setGraphicsState(S)], a second
    [setGraphicsState(S)] returns, binds no pipeline and re-binds neither
    binding sets nor vertex buffers nor the index buffer, so the pipeline is
    bound at most once over the two calls; it sets no scissor and no stencil
    reference, sets the viewports and the blend constants again only when
    they hold a NaN, and sets the shading rate again whenever variable-rate
    shading is enabled.  In general each call other than the shading rate
    is recorded exactly when its guard holds and the field differs from the
    cached one; the shading rate is not compared. *)
Theorem setGraphicsState_twice cl state cl1 :
  setGraphicsState cl state = Some cl1 ->
  exists cl2,
    setGraphicsState cl1 state = Some cl2
    /\ existsb isBindPipeline (newCalls cl1 cl2) = false
    /\ existsb isRebind (newCalls cl1 cl2) = false
    /\ (length (List.filter isBindPipeline (newCalls cl cl1 ++ newCalls cl1 cl2))
        <= 1)%nat
    /\ (existsb isSetScissor (newCalls cl1 cl2) = false
        /\ existsb isSetStencilReference (newCalls cl1 cl2) = false
        /\ existsb isSetViewport (newCalls cl1 cl2)
           = existsb viewportHasNaN
               (ViewportState.viewports (GraphicsState.viewport state))
        /\ existsb isSetBlendConstants (newCalls cl1 cl2)
           = GraphicsPipeline.usesBlendConstants
               (graphicsPipelineAt (GraphicsState.pipeline state))
             && colorHasNaN (GraphicsState.blendConstantColor state)
        /\ existsb isSetFragmentShadingRate (newCalls cl1 cl2)
           = VariableRateShadingState.enabled
               (GraphicsState.shadingRateState state))
    /\ forall state' cl3,
         setGraphicsState cl1 state' = Some cl3 ->
         let pso' := graphicsPipelineAt (GraphicsState.pipeline state') in
         (existsb isBindPipeline (newCalls cl1 cl3) = true
          <-> GraphicsState.pipeline state <> GraphicsState.pipeline state')
         /\ (existsb isBindDescriptorSets (newCalls cl1 cl3) = true
             <-> GraphicsState.bindings state <> GraphicsState.bindings state')
         /\ (existsb isBindIndexBuffer (newCalls cl1 cl3) = true
             <-> IndexBufferBinding.buffer (GraphicsState.indexBuffer state') <> nullptr
                 /\ GraphicsState.indexBuffer state <> GraphicsState.indexBuffer state')
         /\ (existsb isBindVertexBuffers (newCalls cl1 cl3) = true
             <-> GraphicsState.vertexBuffers state' <> []
                 /\ GraphicsState.vertexBuffers state'
                    <> GraphicsState.vertexBuffers state)
         /\ (existsb isSetViewport (newCalls cl1 cl3) = true
             <-> ViewportState.viewports (GraphicsState.viewport state') <> []
                 /\ arraysAreDifferent Viewport.neqb
                      (ViewportState.viewports (GraphicsState.viewport state'))
                      (ViewportState.viewports (GraphicsState.viewport state))
                    = true)
         /\ (existsb isSetScissor (newCalls cl1 cl3) = true
             <-> ViewportState.scissorRects (GraphicsState.viewport state') <> []
                 /\ ViewportState.scissorRects (GraphicsState.viewport state')
                    <> ViewportState.scissorRects (GraphicsState.viewport state))
         /\ (existsb isSetStencilReference (newCalls cl1 cl3) = true
             <-> GraphicsPipeline.dynamicStencilRef pso' = true
                 /\ (GraphicsState.pipeline state <> GraphicsState.pipeline state'
                     \/ GraphicsState.dynamicStencilRefValue state
                        <> GraphicsState.dynamicStencilRefValue state'))
         /\ (existsb isSetBlendConstants (newCalls cl1 cl3) = true
             <-> GraphicsPipeline.usesBlendConstants pso' = true
                 /\ (GraphicsState.pipeline state <> GraphicsState.pipeline state'
                     \/ Color.neqb (GraphicsState.blendConstantColor state)
                          (GraphicsState.blendConstantColor state') = true))
         /\ (existsb isSetFragmentShadingRate (newCalls cl1 cl3) = true
             <-> VariableRateShadingState.enabled
                   (GraphicsState.shadingRateState state') = true).
Proof.
  intros Hs.
  destruct (setGraphicsState_cache _ _ _ Hs) as (Eg & _ & _ & _ & Ev).
  pose proof (setGraphicsState_unfold _ _ _ Hs) as (Hnull & _ & _).
  assert (Hvb : vertexBuffersChanged cl1 state = false).
  { destruct (vertexBuffersChanged cl1 state) eqn:E; [|done].
    apply vertexBuffersChanged_spec in E as [_ E]. by rewrite Eg in E. }
  destruct (proj2 (setGraphicsState_is_Some cl1 state)) as [cl2 Hs2].
  { split; [exact Hnull|]. split; [by apply scissorsDefined_at_rest|].
    by rewrite Hvb. }
  assert (Hp : pipelineChanged cl1 state = false).
  { unfold pipelineChanged. rewrite Eg. by apply ptr_neqb_spec. }
  assert (Hb : bindingsChanged cl1 state = false).
  { destruct (bindingsChanged cl1 state) eqn:E; [|done].
    apply bindingsChanged_spec in E as [E|E]; [by rewrite Eg in E | congruence]. }
  assert (Hib : indexBufferChanged cl1 state = false).
  { destruct (indexBufferChanged cl1 state) eqn:E; [|done].
    apply indexBufferChanged_spec in E as [_ E]. by rewrite Eg in E. }
  exists cl2. split; [exact Hs2|].
  rewrite (setGraphicsState_newCalls _ _ _ Hs2).
  assert (H1 : existsb isBindPipeline (graphicsStateCalls cl1 state) = false)
    by (by rewrite graphicsStateCalls_bindPipeline).
  split; [exact H1|]. split; [|split; [|split]].
  - assert (Hor : forall l, existsb isRebind l
                   = existsb isBindDescriptorSets l || existsb isBindVertexBuffers l
                     || existsb isBindIndexBuffer l).
    { induction l as [|c l IH]; [done|]. simpl. rewrite IH. unfold isRebind.
      destruct (isBindDescriptorSets c), (isBindVertexBuffers c),
        (isBindIndexBuffer c); simpl; rewrite ?orb_true_r; try done;
        by destruct (existsb isBindDescriptorSets l). }
    rewrite Hor, graphicsStateCalls_bindDescriptorSets,
      graphicsStateCalls_bindIndexBuffer,
      (graphicsStateCalls_bindVertexBuffers _ _ _ Hs2).
    by rewrite Hb, Hvb, Hib.
  - rewrite (setGraphicsState_newCalls _ _ _ Hs), List.filter_app, length_app.
    assert (H2 : List.filter isBindPipeline (graphicsStateCalls cl1 state) = []).
    { clear -H1. induction (graphicsStateCalls cl1 state) as [|c l IH]; [done|].
      simpl in *. apply orb_false_elim in H1 as [-> H1]. by apply IH. }
    rewrite H2. simpl. rewrite Nat.add_0_r.
    unfold graphicsStateCalls. cbv zeta. rewrite !List.filter_app, !length_app.
    assert (Hf : forall l, existsb isBindPipeline l = false ->
                           length (List.filter isBindPipeline l) = 0%nat).
    { induction l as [|c l IH]; [done|]. simpl. intros H.
      apply orb_false_elim in H as [-> H]. by apply IH. }
    rewrite (Hf (renderPassCalls _ _ _)) by existsb_calls.
    rewrite (Hf (bindingCalls _ _ _)) by existsb_calls.
    rewrite (Hf (viewportCalls _ _)) by existsb_calls.
    rewrite (Hf (scissorCalls _ _)) by existsb_calls.
    rewrite (Hf (stencilCalls _ _ _ _)) by existsb_calls.
    rewrite (Hf (blendCalls _ _ _ _)) by existsb_calls.
    rewrite (Hf (indexBufferCalls _ _)) by existsb_calls.
    rewrite (Hf (vertexBufferCalls _ _))
      by (apply existsb_vertexBufferCalls; by intros []).
    rewrite (Hf (shadingRateCalls _)) by existsb_calls.
    unfold pipelineCalls. destruct (pipelineChanged cl state); simpl; lia.
  - rewrite (graphicsStateCalls_scissor _ _ _ Hs2), graphicsStateCalls_viewport,
      graphicsStateCalls_stencilReference, graphicsStateCalls_blendConstants,
      graphicsStateCalls_shadingRate, Hp.
    split; [|split; [|split; [|split]]].
    + destruct (scissorsChanged cl1 state) eqn:E; [|done].
      apply scissorsChanged_spec in E as [_ E]. by rewrite Eg in E.
    + unfold stencilRefChanged. rewrite Eg, N.eqb_refl. by rewrite andb_false_r.
    + unfold viewportsChanged. rewrite Eg, arraysAreDifferent_self.
      rewrite (existsb_pointwise _ viewportHasNaN) by apply Viewport_neqb_refl.
      by destruct (ViewportState.viewports (GraphicsState.viewport state)).
    + unfold blendConstantsChanged. by rewrite Eg, Color_neqb_refl.
    + done.
  - intros state' cl3 Hs3 pso'. rewrite (setGraphicsState_newCalls _ _ _ Hs3).
    rewrite graphicsStateCalls_bindPipeline, graphicsStateCalls_bindDescriptorSets,
      graphicsStateCalls_bindIndexBuffer,
      (graphicsStateCalls_bindVertexBuffers _ _ _ Hs3),
      graphicsStateCalls_viewport, (graphicsStateCalls_scissor _ _ _ Hs3),
      graphicsStateCalls_stencilReference, graphicsStateCalls_blendConstants,
      graphicsStateCalls_shadingRate.
    rewrite pipelineChanged_spec, bindingsChanged_spec, indexBufferChanged_spec,
      vertexBuffersChanged_spec, viewportsChanged_spec, scissorsChanged_spec,
      stencilRefChanged_spec, blendConstantsChanged_spec, Eg, Ev.
    split; [done|]. split; [split; [by intros [?|?] | by left]|].
    repeat split; tauto.
Qed.

(** C3: when barriers are pending after the state has been diffed,
    [setGraphicsState] ends the active render pass, then commits all of
    them in one batch outside any render pass, and only afterwards begins
    the render pass; nothing stays pending, and a draw that follows is
    recorded after the barriers. *)
Theorem setGraphicsState_commits_barriers_first cl state cl' :
  setGraphicsState cl state = Some cl' ->
  let pending := pendingBarriers (m_StateTracker (trackBarriers state cl)) in
  pending <> [] ->
  exists pre post,
    newCalls cl cl' = pre ++ PipelineBarrier pending :: post
    /\ existsb isBeginRendering pre = false
    /\ (renderPassActive cl = true -> EndRendering ∈ pre)
    /\ (renderPassConsistent cl ->
        renderPassNesting false (calls cl ++ pre) = Some false)
    /\ existsb isEndRendering post = false
    /\ (GraphicsState.framebuffer state <> nullptr ->
        BeginRendering
          (renderingInfoOf (framebufferAt (GraphicsState.framebuffer state))) ∈ post)
    /\ pendingBarriers (m_StateTracker cl') = []
    /\ forall args,
         calls (draw args cl')
         = calls cl ++ pre ++ PipelineBarrier pending :: post
           ++ [Draw (DrawArguments.vertexCount args)
                 (DrawArguments.instanceCount args)
                 (DrawArguments.startVertexLocation args)
                 (DrawArguments.startInstanceLocation args)]
         /\ pendingBarriers (m_StateTracker (draw args cl')) = [].
Proof.
  intros Hs pending Hp.
  set (pso := graphicsPipelineAt (GraphicsState.pipeline state)).
  set (cl1 := trackBarriers state cl).
  destruct (trackBarriers_cache state cl) as (T1 & T2 & T3 & T4).
  assert (Hact : renderPassActive cl1 = renderPassActive cl).
  { unfold renderPassActive, cl1. by rewrite T1, T2. }
  assert (Hpd : pendingBarriers (m_StateTracker cl1) = pending) by reflexivity.
  clearbody pending.
  assert (Hany : anyBarriers cl1 = true).
  { unfold anyBarriers. rewrite Hpd. by destruct pending. }
  assert (Hbar : barrierCalls (m_StateTracker cl1) = [PipelineBarrier pending]).
  { unfold barrierCalls. rewrite Hpd. by destruct pending. }
  exists (pipelineCalls pso (pipelineChanged cl state) ++ endRenderPassCalls cl1).
  exists (beginRenderingCalls (GraphicsState.framebuffer state)
          ++ bindingCalls pso state cl ++ viewportCalls state cl
          ++ scissorCalls state cl
          ++ stencilCalls pso (pipelineChanged cl state) state cl
          ++ blendCalls pso (pipelineChanged cl state) state cl
          ++ indexBufferCalls state cl ++ vertexBufferCalls state cl
          ++ shadingRateCalls state).
  assert (Hnew : newCalls cl cl'
                 = (pipelineCalls pso (pipelineChanged cl state)
                    ++ endRenderPassCalls cl1)
                   ++ PipelineBarrier pending
                      :: (beginRenderingCalls (GraphicsState.framebuffer state)
                          ++ bindingCalls pso state cl ++ viewportCalls state cl
                          ++ scissorCalls state cl
                          ++ stencilCalls pso (pipelineChanged cl state) state cl
                          ++ blendCalls pso (pipelineChanged cl state) state cl
                          ++ indexBufferCalls state cl ++ vertexBufferCalls state cl
                          ++ shadingRateCalls state)).
  { rewrite (setGraphicsState_newCalls _ _ _ Hs). unfold graphicsStateCalls.
    cbv zeta. fold pso cl1. unfold renderPassCalls. rewrite Hany, orb_true_r, Hbar.
    by rewrite <- !app_assoc. }
  split; [exact Hnew|].
  split; [rewrite existsb_app; apply orb_false_intro; existsb_calls|].
  split.
  { intros Ha. rewrite elem_of_app. right. unfold endRenderPassCalls.
    rewrite Hact, Ha. apply list_elem_of_here. }
  split.
  { unfold renderPassConsistent. intros Hc.
    rewrite renderPassNesting_app, Hc, renderPassNesting_app.
    rewrite (renderPassNesting_other (pipelineCalls _ _)) by existsb_calls.
    unfold endRenderPassCalls. rewrite Hact. by destruct (renderPassActive cl). }
  split.
  { rewrite !existsb_app.
    rewrite existsb_vertexBufferCalls by (by intros []).
    repeat (apply orb_false_intro); try reflexivity; existsb_calls. }
  split.
  { intros Hfb. rewrite elem_of_app. left. unfold beginRenderingCalls, isNull.
    destruct (GraphicsState.framebuffer state =? 0) eqn:E.
    - by apply N.eqb_eq in E.
    - apply list_elem_of_here. }
  assert (Hpend : pendingBarriers (m_StateTracker cl') = []).
  { by rewrite (setGraphicsState_tracker _ _ _ Hs). }
  split; [exact Hpend|].
  intros args. unfold draw, updateGraphicsVolatileBuffers.
  destruct (setGraphicsState_cache _ _ _ Hs) as (_ & _ & _ & _ & ->). simpl.
  split; [|exact Hpend].
  rewrite calls_record, (setGraphicsState_calls _ _ _ Hs).
  rewrite <- (setGraphicsState_newCalls _ _ _ Hs), Hnew.
  rewrite <- !app_assoc, <- !app_comm_cons. by rewrite <- !app_assoc.
Qed.

(** C4, as amended: [draw] and [drawIndexed] never flush, they leave the
    pending barrier list as it is.  The flush belongs to
    [setGraphicsState], which leaves no barrier pending, so a draw that
    directly follows it is recorded with an empty pending list. *)
Theorem draw_leaves_barriers_to_setGraphicsState cl state cl' args :
  setGraphicsState cl state = Some cl' ->
  pendingBarriers (m_StateTracker cl') = []
  /\ pendingBarriers (m_StateTracker (draw args cl')) = []
  /\ pendingBarriers (m_StateTracker (drawIndexed args cl')) = []
  /\ (forall c, m_StateTracker (draw args c) = m_StateTracker c
                /\ existsb isPipelineBarrier (newCalls c (draw args c)) = false)
  /\ (forall c, m_StateTracker (drawIndexed args c) = m_StateTracker c
                /\ existsb isPipelineBarrier (newCalls c (drawIndexed args c)) = false).
Proof.
  intros Hs.
  assert (Hpend : pendingBarriers (m_StateTracker cl') = []).
  { by rewrite (setGraphicsState_tracker _ _ _ Hs). }
  assert (Hk : forall cs, existsb (fun c => negb (isBindDescriptorSets c)) cs = false ->
                          existsb isPipelineBarrier cs = false).
  { induction cs as [|c cs IH]; [done|]. simpl. intros H.
    apply orb_false_elim in H as [H1 H2]. rewrite (IH H2). by destruct c. }
  assert (Hd : forall c, m_StateTracker (draw args c) = m_StateTracker c
                /\ existsb isPipelineBarrier (newCalls c (draw args c)) = false).
  { intros c. destruct (draw_calls args c) as (cs & E & Hcs & Ht & _).
    split; [exact Ht|]. rewrite (newCalls_app _ _ _ E), existsb_app, (Hk _ Hcs). done. }
  assert (Hdi : forall c, m_StateTracker (drawIndexed args c) = m_StateTracker c
                /\ existsb isPipelineBarrier (newCalls c (drawIndexed args c)) = false).
  { intros c. destruct (drawIndexed_calls args c) as (cs & E & Hcs & Ht & _).
    split; [exact Ht|]. rewrite (newCalls_app _ _ _ E), existsb_app, (Hk _ Hcs). done. }
  split; [exact Hpend|]. split; [|split; [|split; [exact Hd | exact Hdi]]].
  - by rewrite (proj1 (Hd cl')).
  - by rewrite (proj1 (Hdi cl')).
Qed.

(** C10: a recording that starts with no render pass never nests render
    passes: the command buffer begins a render pass only when none is
    active and ends one only when one is active.  [beginRenderPass] ends an
    active render pass before it begins the new one; [endRenderPass]
    records [endRendering] only when a framebuffer is cached, then both
    cached framebuffers are null, and a second [endRenderPass] records
    nothing. *)
Theorem at_most_one_render_pass ops cl cl' :
  renderPassConsistent cl ->
  runGraphicsOps ops cl = Some cl' ->
  renderPassConsistent cl'
  /\ (forall fb c,
        newCalls c (beginRenderPass fb c)
        = (if renderPassActive c then [EndRendering] else [])
          ++ (if isNull fb then []
              else [BeginRendering (renderingInfoOf (framebufferAt fb))]))
  /\ (forall c,
        newCalls c (endRenderPass c)
        = (if renderPassActive c then [EndRendering] else [])
        /\ GraphicsState.framebuffer (m_CurrentGraphicsState (endRenderPass c)) = nullptr
        /\ MeshletState.framebuffer (m_CurrentMeshletState (endRenderPass c)) = nullptr
        /\ endRenderPass (endRenderPass c) = endRenderPass c
        /\ newCalls (endRenderPass c) (endRenderPass (endRenderPass c)) = []).
Proof.
  intros Hc Hrun. split; [|split].
  - revert cl Hc Hrun. induction ops as [|op ops IH]; intros cl Hc Hrun; simpl in Hrun.
    + by injection Hrun as <-.
    + destruct (runGraphicsOp op cl) as [cl1|] eqn:E; [|done].
      eapply IH; [|exact Hrun]. by eapply runGraphicsOp_consistent.
  - intros fb c. apply newCalls_app. apply beginRenderPass_calls.
  - intros c. destruct (endRenderPass_framebuffers c) as (Hg & Hm).
    assert (Hid : endRenderPass (endRenderPass c) = endRenderPass c).
    { unfold endRenderPass at 1. by rewrite endRenderPass_inactive. }
    split; [apply newCalls_app, endRenderPass_calls|].
    split; [exact Hg|]. split; [exact Hm|]. split; [exact Hid|].
    rewrite Hid. unfold newCalls. apply drop_all.
Qed.

(** *** Resources kept alive *)

Ltac elem_of_app :=
  rewrite ?elem_of_app, ?list_elem_of_singleton; naive_solver.

Lemma keptResources_appendCalls cs refs cl :
  keptResources (appendCalls cs refs cl) = keptResources cl ++ refs.
Proof. reflexivity. Qed.

Lemma endRenderPass_keptResources cl :
  keptResources (endRenderPass cl) = keptResources cl.
Proof. unfold endRenderPass. by destruct (renderPassActive cl). Qed.

Lemma commitBarriers_keptResources cl :
  keptResources (commitBarriers cl) = keptResources cl.
Proof.
  unfold commitBarriers. destruct (flush (m_StateTracker cl)) as [[|b bs] t']; done.
Qed.

Lemma beginRenderPass_keptResources fb cl :
  keptResources (beginRenderPass fb cl)
  = keptResources cl ++ (if isNull fb then [] else [fb]).
Proof.
  unfold beginRenderPass. destruct (isNull fb).
  - by rewrite endRenderPass_keptResources, app_nil_r.
  - unfold keptResources. simpl. f_equal. apply endRenderPass_keptResources.
Qed.

Lemma beginRenderPass_framebuffers fb cl :
  fb <> nullptr ->
  GraphicsState.framebuffer (m_CurrentGraphicsState (beginRenderPass fb cl)) = fb
  /\ MeshletState.framebuffer (m_CurrentMeshletState (beginRenderPass fb cl)) = fb.
Proof.
  intros Hfb. unfold beginRenderPass.
  destruct (N.eqb_spec fb 0) as [->|_]; [done|].
  unfold isNull. by destruct (N.eqb_spec fb 0).
Qed.

Lemma prepareRenderPass_keptResources state anyB cl :
  exists rp,
    keptResources (prepareRenderPass state anyB cl) = keptResources cl ++ rp
    /\ (GraphicsState.framebuffer state <> nullptr ->
        GraphicsState.framebuffer state ∈ rp
        \/ GraphicsState.framebuffer (m_CurrentGraphicsState cl)
           = GraphicsState.framebuffer state).
Proof.
  unfold prepareRenderPass.
  set (cl1 := if framebufferChanged cl state || anyB then endRenderPass cl else cl).
  assert (Hrefs : keptResources (commitBarriers cl1) = keptResources cl).
  { rewrite commitBarriers_keptResources. subst cl1.
    destruct (_ || _); [apply endRenderPass_keptResources|done]. }
  destruct (commitBarriers_cache cl1) as (Hgs & _ & _). rewrite Hgs.
  destruct (isNull (GraphicsState.framebuffer (m_CurrentGraphicsState cl1))) eqn:Hnull.
  - rewrite beginRenderPass_keptResources, Hrefs. eexists. split; [reflexivity|].
    intros Hfb. left. unfold isNull.
    destruct (N.eqb_spec (GraphicsState.framebuffer state) 0); [done|].
    apply list_elem_of_here.
  - exists []. rewrite Hrefs, app_nil_r. split; [done|]. intros _. right.
    subst cl1. destruct (framebufferChanged cl state || anyB) eqn:Hc.
    + destruct (endRenderPass_framebuffers cl) as [E _].
      rewrite E in Hnull. done.
    + apply orb_false_iff in Hc as [Hc _]. by apply ptr_neqb_spec.
Qed.

Lemma fillVertexBuffers_keptResources bs : forall arrays cl arrays' cl',
  fillVertexBuffers bs arrays cl = Some (arrays', cl') ->
  keptResources cl'
  = keptResources cl ++ map VertexBufferBinding.buffer (List.filter inRange bs).
Proof.
  induction bs as [|b bs IH]; intros arrays cl arrays' cl' H; simpl in H.
  - injection H as _ <-. by rewrite app_nil_r.
  - cbn [List.filter]. unfold inRange at 1.
    destruct (c_MaxVertexAttributes <=? VertexBufferBinding.slot b); simpl.
    + by apply IH in H.
    + destruct (isNull (VertexBufferBinding.buffer b)); [done|].
      apply IH in H. rewrite H. unfold keptResources. simpl.
      by rewrite <- app_assoc.
Qed.

Lemma bindVertexBuffers_keptResources bs cl cl' :
  bindVertexBuffers bs cl = Some cl' ->
  keptResources cl'
  = keptResources cl ++ map VertexBufferBinding.buffer (List.filter inRange bs).
Proof.
  unfold bindVertexBuffers.
  destruct (fillVertexBuffers bs emptyVertexBufferArrays cl) as [[arrays cl1]|] eqn:E;
    [|done].
  intros [= <-]. by apply fillVertexBuffers_keptResources in E.
Qed.

Lemma setGraphicsState_keptResources cl state cl' :
  setGraphicsState cl state = Some cl' ->
  exists r,
    keptResources cl' = keptResources cl ++ r
    /\ (pipelineChanged cl state = true -> GraphicsState.pipeline state ∈ r)
    /\ (GraphicsState.framebuffer state <> nullptr ->
        GraphicsState.framebuffer state ∈ r
        \/ GraphicsState.framebuffer (m_CurrentGraphicsState cl)
           = GraphicsState.framebuffer state)
    /\ (indexBufferChanged cl state = true ->
        IndexBufferBinding.buffer (GraphicsState.indexBuffer state) ∈ r)
    /\ (vertexBuffersChanged cl state = true ->
        forall b, b ∈ GraphicsState.vertexBuffers state -> inRange b = true ->
                  VertexBufferBinding.buffer b ∈ r)
    /\ (GraphicsState.indirectParams state <> nullptr ->
        GraphicsState.indirectParams state ∈ r).
Proof.
  rewrite setGraphicsState_eq.
  destruct (isNull (GraphicsState.pipeline state)); [done|].
  destruct (scissorsDefined cl state); [|done]. simpl negb. cbv iota. cbv zeta.
  set (pso := graphicsPipelineAt (GraphicsState.pipeline state)).
  set (up := pipelineChanged cl state).
  set (X := appendCalls _ _ (setPipelineLayout _ _ (afterRenderPass cl state))).
  destruct (applyVertexBuffers state X) as [cl2|] eqn:Evb; [|done].
  simpl. intros [= <-].
  (* the render pass block *)
  destruct (trackBarriers_cache state cl) as (Tgs & _ & _ & _).
  assert (Hup : pipelineChanged (trackBarriers state cl) state = up).
  { unfold up, pipelineChanged. by rewrite Tgs. }
  assert (Htrack : keptResources (trackBarriers state cl) = keptResources cl).
  { unfold trackBarriers. by destruct (m_EnableAutomaticBarriers cl). }
  destruct (prepareRenderPass_keptResources state
              (anyBarriers (trackBarriers state cl))
              (bindGraphicsPipeline pso (pipelineChanged (trackBarriers state cl) state)
                 state (trackBarriers state cl)))
    as (rp & Hrp & Hfb).
  fold pso in Hrp. change (prepareRenderPass _ _ _) with (afterRenderPass cl state) in Hrp.
  rewrite bindGraphicsPipeline_appendCalls, keptResources_appendCalls, Htrack, Hup in Hrp.
  rewrite bindGraphicsPipeline_appendCalls in Hfb. simpl in Hfb. rewrite Tgs in Hfb.
  (* the vertex buffers *)
  assert (HX : vertexBuffersChanged X state = vertexBuffersChanged cl state).
  { apply vertexBuffersChanged_frame. apply (afterRenderPass_cache cl state). }
  assert (Hvb : keptResources cl2
                = keptResources X
                  ++ (if vertexBuffersChanged cl state
                      then map VertexBufferBinding.buffer
                             (List.filter inRange (GraphicsState.vertexBuffers state))
                      else [])).
  { unfold applyVertexBuffers in Evb. rewrite HX in Evb.
    destruct (vertexBuffersChanged cl state).
    - by apply bindVertexBuffers_keptResources in Evb.
    - injection Evb as <-. by rewrite app_nil_r. }
  unfold keptResources at 1. simpl. fold (keptResources cl2).
  rewrite Hvb. subst X. rewrite keptResources_appendCalls.
  change (keptResources (setPipelineLayout _ _ (afterRenderPass cl state)))
    with (keptResources (afterRenderPass cl state)).
  rewrite Hrp, <- !app_assoc.
  eexists. split; [reflexivity|].
  split.
  { intros ->. elem_of_app. }
  split.
  { intros Hne. destruct (Hfb Hne) as [Hin|Heq]; [left|by right].
    rewrite !elem_of_app. auto. }
  split.
  { intros ->. elem_of_app. }
  split.
  { intros -> b Hb Hr.
    assert (VertexBufferBinding.buffer b
            ∈ map VertexBufferBinding.buffer
                (List.filter inRange (GraphicsState.vertexBuffers state))).
    { apply list_elem_of_In, in_map, filter_In. split; [by apply list_elem_of_In|done]. }
    elem_of_app. }
  intros Hne. unfold isNull.
  destruct (N.eqb_spec (GraphicsState.indirectParams state) 0); [done|].
  simpl. elem_of_app.
Qed.

Lemma keptAlive_update cl cl' :
  (forall p, p ∈ keptResources cl -> p ∈ keptResources cl') ->
  GraphicsState.withFramebuffer nullptr (m_CurrentGraphicsState cl')
  = GraphicsState.withFramebuffer nullptr (m_CurrentGraphicsState cl) ->
  (GraphicsState.framebuffer (m_CurrentGraphicsState cl') = nullptr
   \/ GraphicsState.framebuffer (m_CurrentGraphicsState cl') ∈ keptResources cl') ->
  (MeshletState.framebuffer (m_CurrentMeshletState cl') = nullptr
   \/ MeshletState.framebuffer (m_CurrentMeshletState cl') ∈ keptResources cl') ->
  keptAlive cl -> keptAlive cl'.
Proof.
  intros Hsub Hgs Hfb Hmfb (K1 & K2 & K3 & K4 & K5 & K6).
  destruct (withFramebuffer_fields _ _ Hgs) as (F1 & _ & _ & _ & _ & F6 & F7).
  apply (f_equal GraphicsState.indirectParams) in Hgs. simpl in Hgs.
  unfold keptAlive. cbv zeta. rewrite F1, F6, F7, Hgs.
  split; [destruct K1; auto|]. split; [done|]. split; [done|].
  split; [destruct K4; auto|]. split; [destruct K5; auto|].
  intros b Hb Hr. auto.
Qed.

Lemma endRenderPass_keptAlive cl : keptAlive cl -> keptAlive (endRenderPass cl).
Proof.
  apply keptAlive_update.
  - by rewrite endRenderPass_keptResources.
  - apply endRenderPass_cache.
  - left. apply endRenderPass_framebuffers.
  - left. apply endRenderPass_framebuffers.
Qed.

Lemma beginRenderPass_keptAlive fb cl :
  keptAlive cl -> keptAlive (beginRenderPass fb cl).
Proof.
  apply keptAlive_update.
  - rewrite beginRenderPass_keptResources. intros p. rewrite elem_of_app. auto.
  - apply beginRenderPass_cache.
  - rewrite beginRenderPass_keptResources.
    destruct (N.eqb_spec fb 0) as [->|Hfb].
    + left. unfold beginRenderPass. simpl. apply endRenderPass_framebuffers.
    + right. destruct (beginRenderPass_framebuffers fb cl Hfb) as [-> _].
      unfold isNull. destruct (N.eqb_spec fb 0); [done|]. elem_of_app.
  - rewrite beginRenderPass_keptResources.
    destruct (N.eqb_spec fb 0) as [->|Hfb].
    + left. unfold beginRenderPass. simpl. apply endRenderPass_framebuffers.
    + right. destruct (beginRenderPass_framebuffers fb cl Hfb) as [_ ->].
      unfold isNull. destruct (N.eqb_spec fb 0); [done|]. elem_of_app.
Qed.

Lemma updateGraphicsVolatileBuffers_keptResources cl :
  keptResources (updateGraphicsVolatileBuffers cl) = keptResources cl.
Proof.
  unfold updateGraphicsVolatileBuffers. by destruct (_ && _).
Qed.

Lemma draw_keptAlive args cl : keptAlive cl -> keptAlive (draw args cl).
Proof.
  destruct (draw_calls args cl) as (cs & _ & _ & _ & Hgs & Hms).
  intros (K1 & K2 & K3 & K4 & K5 & K6).
  assert (Hr : keptResources (draw args cl) = keptResources cl)
    by apply updateGraphicsVolatileBuffers_keptResources.
  unfold keptAlive. rewrite Hgs, Hms, Hr. done.
Qed.

Lemma drawIndexed_keptAlive args cl : keptAlive cl -> keptAlive (drawIndexed args cl).
Proof.
  destruct (drawIndexed_calls args cl) as (cs & _ & _ & _ & Hgs & Hms).
  intros (K1 & K2 & K3 & K4 & K5 & K6).
  assert (Hr : keptResources (drawIndexed args cl) = keptResources cl)
    by apply updateGraphicsVolatileBuffers_keptResources.
  unfold keptAlive. rewrite Hgs, Hms, Hr. done.
Qed.

Lemma commitBarriers_keptAlive cl : keptAlive cl -> keptAlive (commitBarriers cl).
Proof.
  destruct (commitBarriers_cache cl) as (Hgs & Hms & _).
  intros K. unfold keptAlive.
  rewrite Hgs, Hms, commitBarriers_keptResources. exact K.
Qed.

Lemma setGraphicsState_keptAlive cl state cl' :
  keptAlive cl ->
  setGraphicsState cl state = Some cl' ->
  keptAlive cl'
  /\ keptResources cl `prefix_of` keptResources cl'.
Proof.
  intros (K1 & K2 & K3 & K4 & K5 & K6) H.
  destruct (setGraphicsState_keptResources cl state cl' H)
    as (r & Hr & R1 & R2 & R3 & R4 & R5).
  destruct (setGraphicsState_cache cl state cl' H) as (Hgs & _ & Hms & _ & _).
  destruct (setGraphicsState_unfold cl state cl' H) as (Hpipe & _ & _).
  split; [|rewrite Hr; by eexists].
  unfold keptAlive. rewrite Hgs, Hms, Hr. cbv zeta.
  split.
  { right. destruct (pipelineChanged cl state) eqn:Hup.
    - rewrite elem_of_app. auto.
    - apply ptr_neqb_spec in Hup. rewrite <- Hup.
      destruct K1 as [K1|K1]; [|rewrite elem_of_app; auto].
      rewrite <- Hup, K1 in Hpipe. done. }
  split.
  { destruct (N.eq_dec (GraphicsState.framebuffer state) nullptr) as [|Hne]; [by left|].
    right. rewrite elem_of_app. destruct (R2 Hne) as [Hin|Heq]; [auto|].
    rewrite <- Heq in *. destruct K2; [done|auto]. }
  split; [by left|].
  split.
  { destruct (indexBufferChanged cl state) eqn:Hib.
    - right. rewrite elem_of_app. auto.
    - unfold indexBufferChanged in Hib. apply andb_false_iff in Hib as [Hib|Hib].
      + left. apply negb_false_iff in Hib. by apply N.eqb_eq in Hib.
      + apply IndexBufferBinding_neqb_spec in Hib. rewrite <- Hib.
        destruct K4; [by left|right]. rewrite elem_of_app. auto. }
  split.
  { destruct (N.eq_dec (GraphicsState.indirectParams state) nullptr) as [|Hne];
      [by left|].
    right. rewrite elem_of_app. auto. }
  intros b Hb Hrange. rewrite elem_of_app.
  destruct (vertexBuffersChanged cl state) eqn:Hvb; [right; by apply R4|].
  left. unfold vertexBuffersChanged in Hvb. apply andb_false_iff in Hvb as [Hvb|Hvb].
  - destruct (GraphicsState.vertexBuffers state); [|done].
    by apply not_elem_of_nil in Hb.
  - apply (arraysAreDifferent_spec _ VertexBufferBinding_neqb_spec) in Hvb.
    rewrite Hvb in Hb. by apply K6.
Qed.

Lemma runGraphicsOp_keptAlive op cl cl' :
  keptAlive cl ->
  runGraphicsOp op cl = Some cl' ->
  keptAlive cl'
  /\ keptResources cl `prefix_of` keptResources cl'.
Proof.
  intros K. destruct op; simpl.
  - intros [= <-]. split; [by apply beginRenderPass_keptAlive|].
    rewrite beginRenderPass_keptResources. by eexists.
  - intros [= <-]. split; [by apply endRenderPass_keptAlive|].
    by rewrite endRenderPass_keptResources.
  - by apply setGraphicsState_keptAlive.
  - intros [= <-]. split; [by apply draw_keptAlive|].
    unfold draw. by rewrite <- (updateGraphicsVolatileBuffers_keptResources cl) at 1.
  - intros [= <-]. split; [by apply drawIndexed_keptAlive|].
    unfold drawIndexed.
    by rewrite <- (updateGraphicsVolatileBuffers_keptResources cl) at 1.
  - unfold setTextureState, onTracker.
    destruct (requireState _ _ _ _ _); by intros [= <-].
  - intros [= <-]. split; [by apply commitBarriers_keptAlive|].
    by rewrite commitBarriers_keptResources.
Qed.

(** X11: throughout a recording, every object the graphics-state cache
    holds as bound (the pipeline, the framebuffer of the render pass, the
    index buffer, the vertex buffers in valid slots, the indirect-argument
    buffer) is in the command buffer's list of referenced resources, and
    that list only grows. *)
Theorem cached_objects_are_kept_alive ops : forall cl cl',
  keptAlive cl ->
  runGraphicsOps ops cl = Some cl' ->
  keptAlive cl'
  /\ keptResources cl `prefix_of` keptResources cl'.
Proof.
  induction ops as [|op ops IH]; intros cl cl' K; simpl.
  - by intros [= <-].
  - destruct (runGraphicsOp op cl) as [cl1|] eqn:E; [|done].
    destruct (runGraphicsOp_keptAlive op cl cl1 K E) as [K1 P1].
    intros H. destruct (IH cl1 cl' K1 H) as [K' P']. split; [done|by etrans].
Qed.

(** *** The vertex-buffer loop *)

Lemma inRange_spec b :
  inRange b = true <-> VertexBufferBinding.slot b < c_MaxVertexAttributes.
Proof.
  unfold inRange. rewrite negb_true_iff, N.leb_gt. done.
Qed.

Lemma fillVertexBuffers_is_Some bs : forall arrays cl,
  is_Some (fillVertexBuffers bs arrays cl)
  <-> forall b, b ∈ bs -> inRange b = true ->
                VertexBufferBinding.buffer b <> nullptr.
Proof.
  induction bs as [|b bs IH]; intros arrays cl; simpl.
  - split; [|by eexists]. intros _ b Hb. by apply not_elem_of_nil in Hb.
  - destruct (c_MaxVertexAttributes <=? VertexBufferBinding.slot b) eqn:Hslot.
    + rewrite IH. split.
      * intros H b' [->|Hb']%elem_of_cons Hr; [|by apply H].
        unfold inRange in Hr. by rewrite Hslot in Hr.
      * intros H b' Hb'. apply H. by apply elem_of_cons; right.
    + destruct (N.eqb_spec (VertexBufferBinding.buffer b) 0) as [Hnull|Hnull];
        unfold isNull; [rewrite (proj2 (N.eqb_eq _ _) Hnull)
                       |rewrite (proj2 (N.eqb_neq _ _) Hnull)].
      * split; [by intros [? [=]]|]. intros H. exfalso.
        apply (H b); [apply list_elem_of_here| |done].
        unfold inRange. by rewrite Hslot.
      * rewrite IH. split.
        -- intros H b' [->|Hb']%elem_of_cons Hr; [done|by apply H].
        -- intros H b' Hb'. apply H. by apply elem_of_cons; right.
Qed.

Lemma bindVertexBuffers_is_Some bs cl :
  is_Some (bindVertexBuffers bs cl)
  <-> forall b, b ∈ bs -> inRange b = true ->
                VertexBufferBinding.buffer b <> nullptr.
Proof.
  rewrite <- (fillVertexBuffers_is_Some bs emptyVertexBufferArrays cl).
  unfold bindVertexBuffers.
  destruct (fillVertexBuffers bs emptyVertexBufferArrays cl) as [[arrays cl1]|].
  - split; by eexists.
  - split; by intros [? [=]].
Qed.

Lemma lastBindingOf_cons s b bs :
  lastBindingOf s (b :: bs)
  = match lastBindingOf s bs with
    | Some b' => Some b'
    | None => if VertexBufferBinding.slot b =? s then Some b else None
    end.
Proof.
  unfold lastBindingOf. cbn [List.filter].
  destruct (VertexBufferBinding.slot b =? s).
  - apply last_cons.
  - by destruct (last _).
Qed.

Lemma fillVertexBuffers_arrays bs : forall arrays cl arrays' cl',
  fillVertexBuffers bs arrays cl = Some (arrays', cl') ->
  length (vertexBuffers arrays) = N.to_nat c_MaxVertexAttributes ->
  length (vertexBufferOffsets arrays) = N.to_nat c_MaxVertexAttributes ->
  length (vertexBuffers arrays') = N.to_nat c_MaxVertexAttributes
  /\ length (vertexBufferOffsets arrays') = N.to_nat c_MaxVertexAttributes
  /\ maxVbIndex arrays'
     = foldl N.max (maxVbIndex arrays)
         (map VertexBufferBinding.slot (List.filter inRange bs))
  /\ forall s, s < c_MaxVertexAttributes ->
       vertexBuffers arrays' !! N.to_nat s
       = match lastBindingOf s bs with
         | Some b => Some (Some (VertexBufferBinding.buffer b))
         | None => vertexBuffers arrays !! N.to_nat s
         end
       /\ vertexBufferOffsets arrays' !! N.to_nat s
          = match lastBindingOf s bs with
            | Some b => Some (Some (VertexBufferBinding.offset b))
            | None => vertexBufferOffsets arrays !! N.to_nat s
            end.
Proof.
  induction bs as [|b bs IH]; intros arrays cl arrays' cl' H L1 L2; simpl in H.
  - injection H as <- <-. repeat split; done.
  - cbn [List.filter]. unfold inRange at 1.
    destruct (N.leb_spec c_MaxVertexAttributes (VertexBufferBinding.slot b))
      as [Hslot|Hslot]; simpl negb; cbv iota.
    + destruct (IH _ _ _ _ H L1 L2) as (A1 & A2 & A3 & A4).
      split; [done|]. split; [done|]. split; [done|].
      intros s Hs. rewrite lastBindingOf_cons.
      destruct (N.eqb_spec (VertexBufferBinding.slot b) s); [lia|].
      destruct (A4 s Hs) as [-> ->]. by destruct (lastBindingOf s bs).
    + destruct (isNull (VertexBufferBinding.buffer b)); [done|].
      apply IH in H; [|simpl; by rewrite length_insert..].
      destruct H as (A1 & A2 & A3 & A4). simpl in A3, A4.
      split; [done|]. split; [done|]. split; [done|].
      intros s Hs. rewrite lastBindingOf_cons.
      destruct (A4 s Hs) as [-> ->].
      destruct (lastBindingOf s bs); [done|].
      destruct (N.eqb_spec (VertexBufferBinding.slot b) s) as [->|Hne].
      * rewrite !list_lookup_insert_eq; [done| |].
        -- rewrite L2. lia.
        -- rewrite L1. lia.
      * rewrite !list_lookup_insert_ne; [done| |];
          intros E; apply N2Nat.inj in E; done.
Qed.

Lemma foldl_max_bounds l : forall m,
  m <= foldl N.max m l
  /\ (forall x, x ∈ l -> x <= foldl N.max m l)
  /\ (foldl N.max m l = m \/ foldl N.max m l ∈ l).
Proof.
  induction l as [|y l IH]; intros m; simpl.
  - split; [lia|]. split; [|by left]. intros x Hx. by apply not_elem_of_nil in Hx.
  - destruct (IH (N.max m y)) as (B1 & B2 & B3).
    split; [lia|]. split.
    + intros x [->|Hx]%elem_of_cons; [lia|by apply B2].
    + destruct B3 as [B3|B3].
      * rewrite B3. destruct (N.max_spec m y) as [[_ ->]|[_ ->]];
          [right; apply list_elem_of_here|by left].
      * right. by apply elem_of_cons; right.
Qed.

Lemma bindVertexBuffers_slots bs cl cl' :
  bindVertexBuffers bs cl = Some cl' ->
  exists count buffers offsets,
    newCalls cl cl' = [BindVertexBuffers 0 count buffers offsets]
    /\ 1 <= count <= c_MaxVertexAttributes
    /\ (forall b, b ∈ bs ->
          VertexBufferBinding.slot b < c_MaxVertexAttributes ->
          VertexBufferBinding.slot b < count)
    /\ (count = 1
        \/ exists b, b ∈ bs /\ VertexBufferBinding.slot b + 1 = count)
    /\ length buffers = N.to_nat count
    /\ length offsets = N.to_nat count
    /\ forall s, s < count ->
         buffers !! N.to_nat s
         = Some (VertexBufferBinding.buffer <$> lastBindingOf s bs)
         /\ offsets !! N.to_nat s
            = Some (VertexBufferBinding.offset <$> lastBindingOf s bs).
Proof.
  unfold bindVertexBuffers.
  destruct (fillVertexBuffers bs emptyVertexBufferArrays cl) as [[arrays cl1]|] eqn:E;
    [|done].
  intros [= <-].
  destruct (fillVertexBuffers_appendCalls _ _ _ _ _ E) as (refs & -> & _).
  destruct (fillVertexBuffers_arrays _ _ _ _ _ E) as (L1 & L2 & Hmax & Hslots);
    [apply length_replicate..|].
  simpl in Hmax.
  destruct (foldl_max_bounds
              (map VertexBufferBinding.slot (List.filter inRange bs)) 0)
    as (_ & B2 & B3).
  rewrite <- Hmax in B2, B3.
  assert (Hin : forall x,
            x ∈ map VertexBufferBinding.slot (List.filter inRange bs)
            <-> exists b, b ∈ bs /\ inRange b = true /\ VertexBufferBinding.slot b = x).
  { intros x. rewrite list_elem_of_In, in_map_iff. split.
    - intros (b & <- & [Hb Hr]%filter_In). exists b.
      by rewrite list_elem_of_In.
    - intros (b & Hb & Hr & <-). exists b. split; [done|].
      apply filter_In. by rewrite <- list_elem_of_In. }
  assert (Hle : maxVbIndex arrays < c_MaxVertexAttributes).
  { destruct B3 as [->|(b & _ & Hr & <-)%Hin]; [done|]. by apply inRange_spec. }
  exists (maxVbIndex arrays + 1),
    (take (N.to_nat (maxVbIndex arrays + 1)) (vertexBuffers arrays)),
    (take (N.to_nat (maxVbIndex arrays + 1)) (vertexBufferOffsets arrays)).
  split.
  { apply newCalls_app. by rewrite calls_record, calls_appendCalls, app_nil_r. }
  split; [unfold c_MaxVertexAttributes in *; lia|].
  split.
  { intros b Hb Hr.
    assert (VertexBufferBinding.slot b <= maxVbIndex arrays); [|lia].
    apply B2, Hin. exists b. by rewrite inRange_spec. }
  split.
  { destruct B3 as [->|(b & Hb & _ & <-)%Hin]; [by left|right]. by exists b. }
  assert (Hcount : (N.to_nat (maxVbIndex arrays + 1)
                    <= N.to_nat c_MaxVertexAttributes)%nat).
  { unfold c_MaxVertexAttributes in *. lia. }
  split; [rewrite length_take; lia|]. split; [rewrite length_take; lia|].
  intros s Hs.
  assert (Hs' : s < c_MaxVertexAttributes) by (unfold c_MaxVertexAttributes in *; lia).
  destruct (Hslots s Hs') as [Hb Ho].
  assert (Hnat : (N.to_nat s < N.to_nat (maxVbIndex arrays + 1))%nat)
    by lia.
  rewrite !lookup_take_lt by done. rewrite Hb, Ho.
  destruct (lastBindingOf s bs); [done|].
  unfold emptyVertexBufferArrays. cbn [vertexBuffers vertexBufferOffsets].
  rewrite !lookup_replicate_2; [done| |]; lia.
Qed.

Lemma scissorOf_is_Some sc :
  is_Some (scissorOf sc) ->
  (- 2 ^ 31 < Rect.maxX sc - Rect.minX sc < 2 ^ 31)%Z
  /\ (- 2 ^ 31 < Rect.maxY sc - Rect.minY sc < 2 ^ 31)%Z.
Proof.
  intros [r H]. unfold scissorOf in H.
  apply bind_Some in H as (w & Hw & H). apply bind_Some in Hw as (dx & Hdx & Hax).
  apply bind_Some in H as (h & Hh & _). apply bind_Some in Hh as (dy & Hdy & Hay).
  unfold int_sub, int_abs, int_min, int_max in *.
  destruct (_ && _) eqn:Ex in Hdx; [|done].
  destruct (_ && _) eqn:Ey in Hdy; [|done].
  destruct (dx =? _)%Z eqn:Ex' in Hax; [done|].
  destruct (dy =? _)%Z eqn:Ey' in Hay; [done|].
  injection Hdx as <-. injection Hdy as <-.
  apply andb_true_iff in Ex as [?%Z.leb_le ?%Z.leb_le].
  apply andb_true_iff in Ey as [?%Z.leb_le ?%Z.leb_le].
  apply Z.eqb_neq in Ex', Ey'. lia.
Qed.

Lemma scissorsOf_is_Some scissorRects :
  is_Some (scissorsOf scissorRects) ->
  forall sc, sc ∈ scissorRects -> is_Some (scissorOf sc).
Proof.
  induction scissorRects as [|sc0 rest IH]; intros [r H] sc Hin.
  - by apply not_elem_of_nil in Hin.
  - simpl in H. destruct (scissorOf sc0) as [s0|] eqn:E0; [|done]. simpl in H.
    destruct (scissorsOf rest) as [ss|] eqn:Er; [|done].
    apply elem_of_cons in Hin as [->|Hin]; [by rewrite E0; eexists|].
    apply IH; [by eexists | done].
Qed.

(** X5: [setGraphicsState] returns only if the pipeline is not null, the
    extents of the scissor rectangles it sets are computed without [int]
    overflow and, if the vertex buffers are to be bound again, no binding
    in a valid slot has a null buffer. *)
Theorem setGraphicsState_returns_only_if cl state cl' :
  setGraphicsState cl state = Some cl' ->
  GraphicsState.pipeline state <> nullptr
  /\ (ViewportState.scissorRects (GraphicsState.viewport state) <> [] ->
      ViewportState.scissorRects (GraphicsState.viewport state)
      <> ViewportState.scissorRects
           (GraphicsState.viewport (m_CurrentGraphicsState cl)) ->
      forall sc, sc ∈ ViewportState.scissorRects (GraphicsState.viewport state) ->
                 (- 2 ^ 31 < Rect.maxX sc - Rect.minX sc < 2 ^ 31)%Z
                 /\ (- 2 ^ 31 < Rect.maxY sc - Rect.minY sc < 2 ^ 31)%Z)
  /\ (GraphicsState.vertexBuffers state <> [] ->
      GraphicsState.vertexBuffers state
      <> GraphicsState.vertexBuffers (m_CurrentGraphicsState cl) ->
      forall b, b ∈ GraphicsState.vertexBuffers state ->
                VertexBufferBinding.slot b < c_MaxVertexAttributes ->
                VertexBufferBinding.buffer b <> nullptr).
Proof.
  intros H.
  destruct (proj1 (setGraphicsState_is_Some cl state)) as (Hnull & Hsc & Hvb);
    [by eexists|].
  split; [by apply N.eqb_neq|]. split.
  - intros Hne Hdiff sc Hin. apply scissorOf_is_Some.
    assert (Hch : scissorsChanged cl state = true)
      by (by apply scissorsChanged_spec).
    unfold scissorsDefined in Hsc. rewrite Hch in Hsc.
    apply (scissorsOf_is_Some
             (ViewportState.scissorRects (GraphicsState.viewport state)));
      [|done].
    destruct (scissorsOf _); [by eexists | done].
  - intros Hne Hdiff b Hb Hs.
    assert (Hch : vertexBuffersChanged cl state = true)
      by (by apply vertexBuffersChanged_spec).
    apply (proj1 (bindVertexBuffers_is_Some _ _) (Hvb Hch)); [done|].
    by apply inRange_spec.
Qed.

(** X7: a second [setGraphicsState] with the state that is already current
    records no bind and no dynamic state again, provided no viewport and no
    blend constant is a NaN: it records at most the end of the render pass,
    the barriers and the begin of the render pass, and the shading rate.
    When no barrier is pending after tracking and variable-rate shading is
    off, it records nothing at all. *)
Theorem setGraphicsState_repeat_records_nothing cl state cl1 :
  setGraphicsState cl state = Some cl1 ->
  existsb viewportHasNaN (ViewportState.viewports (GraphicsState.viewport state))
  = false ->
  colorHasNaN (GraphicsState.blendConstantColor state) = false ->
  exists cl2,
    setGraphicsState cl1 state = Some cl2
    /\ existsb (fun c => negb (isRenderPassOrShadingRate c)) (newCalls cl1 cl2)
       = false
    /\ (pendingBarriers (m_StateTracker (trackBarriers state cl1)) = [] ->
        VariableRateShadingState.enabled (GraphicsState.shadingRateState state)
        = false ->
        newCalls cl1 cl2 = []).
Proof.
  intros H Hvp Hblend.
  destruct (setGraphicsState_again cl state cl1 H) as (cl2 & H2 & Hnew).
  destruct (setGraphicsState_cache cl state cl1 H) as (Hgs & _ & Hms & _ & _).
  exists cl2. split; [done|].
  assert (Hv : viewportCalls state cl1 = []).
  { unfold viewportCalls, viewportsChanged.
    rewrite Hgs, arraysAreDifferent_self.
    rewrite (existsb_pointwise _ viewportHasNaN) by apply Viewport_neqb_refl.
    by rewrite Hvp, andb_false_r. }
  assert (Hb : blendCalls (graphicsPipelineAt (GraphicsState.pipeline state))
                 false state cl1 = []).
  { unfold blendCalls, blendConstantsChanged.
    rewrite Hgs, Color_neqb_refl, Hblend. by rewrite andb_false_r. }
  rewrite Hnew, Hv, Hb. simpl. split.
  - rewrite existsb_app, existsb_renderPassCalls.
    unfold shadingRateCalls. by destruct (VariableRateShadingState.enabled _).
  - intros Hpending Hsr.
    rewrite renderPassCalls_at_rest by done.
    unfold shadingRateCalls. by rewrite Hsr.
Qed.

(** X8: the state cache compares floating-point values with [!=], so a
    NaN never matches the cached value: blend constants that contain a NaN
    are set again by every [setGraphicsState] of a pipeline that uses them,
    and viewports that contain a NaN are set again as well, even when the
    state is the one that is already current. *)
Theorem nan_defeats_the_state_cache cl state cl1 :
  setGraphicsState cl state = Some cl1 ->
  exists cl2,
    setGraphicsState cl1 state = Some cl2
    /\ (GraphicsPipeline.usesBlendConstants
          (graphicsPipelineAt (GraphicsState.pipeline state)) = true ->
        colorHasNaN (GraphicsState.blendConstantColor state) = true ->
        SetBlendConstants (GraphicsState.blendConstantColor state)
          ∈ newCalls cl1 cl2)
    /\ (existsb viewportHasNaN
          (ViewportState.viewports (GraphicsState.viewport state)) = true ->
        existsb isSetViewport (newCalls cl1 cl2) = true).
Proof.
  intros H.
  destruct (setGraphicsState_again cl state cl1 H) as (cl2 & H2 & Hnew).
  destruct (setGraphicsState_cache cl state cl1 H) as (Hgs & _ & Hms & _ & _).
  exists cl2. split; [done|]. rewrite Hnew. split.
  - intros Huses Hnan.
    unfold blendCalls, blendConstantsChanged.
    rewrite Hgs, Color_neqb_refl, Hnan, Huses. simpl.
    rewrite !elem_of_app, elem_of_cons. auto.
  - intros Hnan.
    assert (Hv : existsb isSetViewport (viewportCalls state cl1) = true).
    { unfold viewportCalls, viewportsChanged.
      rewrite Hgs, arraysAreDifferent_self.
      rewrite (existsb_pointwise _ viewportHasNaN) by apply Viewport_neqb_refl.
      rewrite Hnan, andb_true_r.
      destruct (ViewportState.viewports (GraphicsState.viewport state)); done. }
    rewrite !existsb_app, Hv. by rewrite orb_true_r.
Qed.

(** X9: the fragment shading rate is not cached: every [setGraphicsState]
    with variable-rate shading enabled sets it, as the last call it
    records, and no other call of it sets a shading rate. *)
Theorem shading_rate_is_set_on_every_call cl state cl' :
  setGraphicsState cl state = Some cl' ->
  let srs := GraphicsState.shadingRateState state in
  exists pre,
    newCalls cl cl'
    = pre ++ (if VariableRateShadingState.enabled srs
              then [SetFragmentShadingRateKHR
                      (convertFragmentShadingRate
                         (VariableRateShadingState.shadingRate srs))
                      (convertShadingRateCombiner
                         (VariableRateShadingState.pipelinePrimitiveCombiner srs))
                      (convertShadingRateCombiner
                         (VariableRateShadingState.imageCombiner srs))]
              else [])
    /\ existsb isSetFragmentShadingRate pre = false.
Proof.
  intros H srs. rewrite (setGraphicsState_newCalls _ _ _ H).
  unfold graphicsStateCalls. cbv zeta.
  set (pso := graphicsPipelineAt (GraphicsState.pipeline state)).
  set (up := pipelineChanged cl state).
  exists (pipelineCalls pso up
          ++ renderPassCalls state (anyBarriers (trackBarriers state cl))
               (trackBarriers state cl)
          ++ bindingCalls pso state cl ++ viewportCalls state cl
          ++ scissorCalls state cl ++ stencilCalls pso up state cl
          ++ blendCalls pso up state cl ++ indexBufferCalls state cl
          ++ vertexBufferCalls state cl).
  split; [by rewrite <- !app_assoc|].
  rewrite !existsb_app.
  rewrite (existsb_vertexBufferCalls isSetFragmentShadingRate) by (by intros []).
  assert (H1 : existsb isSetFragmentShadingRate (pipelineCalls pso up) = false)
    by existsb_calls.
  assert (H2 : forall s b c,
            existsb isSetFragmentShadingRate (renderPassCalls s b c) = false)
    by (intros; existsb_calls).
  assert (H3 : existsb isSetFragmentShadingRate (bindingCalls pso state cl) = false)
    by existsb_calls.
  assert (H4 : existsb isSetFragmentShadingRate (viewportCalls state cl) = false)
    by existsb_calls.
  assert (H5 : existsb isSetFragmentShadingRate (scissorCalls state cl) = false)
    by existsb_calls.
  assert (H6 : existsb isSetFragmentShadingRate (stencilCalls pso up state cl) = false)
    by existsb_calls.
  assert (H7 : existsb isSetFragmentShadingRate (blendCalls pso up state cl) = false)
    by existsb_calls.
  assert (H8 : existsb isSetFragmentShadingRate (indexBufferCalls state cl) = false)
    by existsb_calls.
  by rewrite H1, H2, H3, H4, H5, H6, H7, H8.
Qed.

(** *** When the render pass is restarted *)

Lemma renderPassCalls_beginRendering state anyB cl :
  existsb isBeginRendering (renderPassCalls state anyB cl)
  = negb (isNull (GraphicsState.framebuffer state))
    && (framebufferChanged cl state || anyB).
Proof.
  unfold renderPassCalls, framebufferChanged.
  destruct (ptr_neqb _ _) eqn:Hc; simpl.
  - rewrite !existsb_app.
    assert (H1 : existsb isBeginRendering (endRenderPassCalls cl) = false)
      by existsb_calls.
    assert (H2 : existsb isBeginRendering (barrierCalls (m_StateTracker cl)) = false)
      by existsb_calls.
    rewrite H1, H2. simpl. unfold beginRenderingCalls.
    by destruct (isNull (GraphicsState.framebuffer state)).
  - apply ptr_neqb_spec in Hc. rewrite Hc. destruct anyB.
    + rewrite !existsb_app.
      assert (H1 : existsb isBeginRendering (endRenderPassCalls cl) = false)
        by existsb_calls.
      assert (H2 : existsb isBeginRendering (barrierCalls (m_StateTracker cl)) = false)
        by existsb_calls.
      rewrite H1, H2. simpl. unfold beginRenderingCalls.
      by destruct (isNull (GraphicsState.framebuffer state)).
    + rewrite andb_false_r. unfold beginRenderingCalls.
      destruct (isNull (GraphicsState.framebuffer state)); existsb_calls.
Qed.

Lemma renderPassCalls_endRendering state anyB cl :
  existsb isEndRendering (renderPassCalls state anyB cl)
  = renderPassActive cl
    && (framebufferChanged cl state || anyB
        || isNull (GraphicsState.framebuffer (m_CurrentGraphicsState cl))).
Proof.
  unfold renderPassCalls.
  assert (H1 : existsb isEndRendering (endRenderPassCalls cl) = renderPassActive cl).
  { unfold endRenderPassCalls. by destruct (renderPassActive cl). }
  assert (H2 : existsb isEndRendering (barrierCalls (m_StateTracker cl)) = false)
    by existsb_calls.
  assert (H3 : forall fb, existsb isEndRendering (beginRenderingCalls fb) = false)
    by (intros; existsb_calls).
  destruct (framebufferChanged cl state || anyB); simpl.
  - rewrite !existsb_app, H1, H2, H3. by rewrite !orb_false_r, andb_true_r.
  - rewrite existsb_app, H2. simpl.
    destruct (isNull (GraphicsState.framebuffer (m_CurrentGraphicsState cl))).
    + rewrite existsb_app, H1, H3. by rewrite orb_false_r, andb_true_r.
    + by rewrite andb_false_r.
Qed.

Lemma renderPassCalls_pipelineBarrier state cl :
  existsb isPipelineBarrier (renderPassCalls state (anyBarriers cl) cl)
  = anyBarriers cl.
Proof.
  unfold renderPassCalls.
  assert (H1 : existsb isPipelineBarrier (endRenderPassCalls cl) = false)
    by existsb_calls.
  assert (H2 : existsb isPipelineBarrier (barrierCalls (m_StateTracker cl))
               = anyBarriers cl).
  { unfold barrierCalls, anyBarriers.
    by destruct (pendingBarriers (m_StateTracker cl)). }
  assert (H3 : forall fb, existsb isPipelineBarrier (beginRenderingCalls fb) = false)
    by (intros; existsb_calls).
  destruct (framebufferChanged cl state || anyBarriers cl) eqn:Hc.
  - rewrite !existsb_app, H1, H2, H3. by rewrite orb_false_r.
  - rewrite existsb_app, H2.
    destruct (isNull _); [rewrite existsb_app, H1, H3|]; simpl;
      by rewrite orb_false_r.
Qed.

Lemma existsb_otherBlocks (k : DriverCall -> bool) cl state :
  (forall c, k c = true -> isBeginRendering c || isEndRendering c
                           || isPipelineBarrier c = true) ->
  existsb k (graphicsStateCalls cl state)
  = existsb k (renderPassCalls state (anyBarriers (trackBarriers state cl))
                 (trackBarriers state cl)).
Proof.
  intros Hk. rewrite existsb_graphicsStateCalls.
  assert (Hother : forall l,
            (forall c, c ∈ l -> isBeginRendering c || isEndRendering c
                                || isPipelineBarrier c = false) ->
            existsb k l = false).
  { intros l Hl. induction l as [|c l IH]; [done|]. simpl.
    rewrite IH by (intros c' Hc'; apply Hl; by apply elem_of_cons; right).
    destruct (k c) eqn:Hkc; [|done].
    pose proof (Hk c Hkc) as Hk'.
    rewrite (Hl c) in Hk' by apply list_elem_of_here. done. }
  rewrite (existsb_vertexBufferCalls k).
  2:{ intros c Hc. destruct (k c) eqn:Hkc; [|done].
      specialize (Hk c Hkc). by destruct c. }
  rewrite (Hother (pipelineCalls _ _)), (Hother (bindingCalls _ _ _)),
    (Hother (viewportCalls _ _)), (Hother (scissorCalls _ _)),
    (Hother (stencilCalls _ _ _ _)), (Hother (blendCalls _ _ _ _)),
    (Hother (indexBufferCalls _ _)), (Hother (shadingRateCalls _)).
  - by rewrite !orb_false_r.
  - unfold shadingRateCalls. intros c. destruct (VariableRateShadingState.enabled _);
      [intros ->%list_elem_of_singleton; done|by intros ?%not_elem_of_nil].
  - unfold indexBufferCalls. intros c. destruct (indexBufferChanged _ _);
      [intros ->%list_elem_of_singleton; done|by intros ?%not_elem_of_nil].
  - unfold blendCalls. intros c. destruct (blendConstantsChanged _ _ _ _);
      [intros ->%list_elem_of_singleton; done|by intros ?%not_elem_of_nil].
  - unfold stencilCalls. intros c. destruct (stencilRefChanged _ _ _ _);
      [intros ->%list_elem_of_singleton; done|by intros ?%not_elem_of_nil].
  - unfold scissorCalls. intros c.
    destruct (scissorsChanged _ _); [|by intros ?%not_elem_of_nil].
    destruct (scissorsOf _); [|by intros ?%not_elem_of_nil].
    by intros ->%list_elem_of_singleton.
  - unfold viewportCalls. intros c. destruct (viewportsChanged _ _);
      [intros ->%list_elem_of_singleton; done|by intros ?%not_elem_of_nil].
  - unfold bindingCalls. intros c. destruct (bindingsChanged _ _);
      [intros ->%list_elem_of_singleton; done|by intros ?%not_elem_of_nil].
  - unfold pipelineCalls. intros c. destruct (pipelineChanged _ _);
      [intros ->%list_elem_of_singleton; done|by intros ?%not_elem_of_nil].
Qed.

(** X10: [setGraphicsState] restarts the render pass only when it has to.
    It begins a render pass exactly when the state has a framebuffer and
    either the framebuffer differs from the current one or barriers are
    pending after tracking; it ends one exactly when one is active and the
    framebuffer differs, barriers are pending, or only a meshlet render pass
    is active; it records a barrier call exactly when barriers are
    pending. *)
Theorem render_pass_restarts_only_when_needed cl state cl' :
  setGraphicsState cl state = Some cl' ->
  let pending := pendingBarriers (m_StateTracker (trackBarriers state cl)) in
  let current := GraphicsState.framebuffer (m_CurrentGraphicsState cl) in
  (existsb isBeginRendering (newCalls cl cl') = true
   <-> GraphicsState.framebuffer state <> nullptr
       /\ (current <> GraphicsState.framebuffer state \/ pending <> []))
  /\ (existsb isEndRendering (newCalls cl cl') = true
      <-> renderPassActive cl = true
          /\ (current <> GraphicsState.framebuffer state \/ pending <> []
              \/ current = nullptr))
  /\ (existsb isPipelineBarrier (newCalls cl cl') = true <-> pending <> []).
Proof.
  intros H pending current. rewrite (setGraphicsState_newCalls _ _ _ H).
  destruct (trackBarriers_cache state cl) as (Tgs & Tms & _ & _).
  assert (Hany : anyBarriers (trackBarriers state cl) = true <-> pending <> []).
  { unfold anyBarriers. fold pending. by destruct pending. }
  assert (Hchanged : framebufferChanged (trackBarriers state cl) state = true
                     <-> current <> GraphicsState.framebuffer state).
  { unfold framebufferChanged. rewrite Tgs. fold current.
    destruct (ptr_neqb current (GraphicsState.framebuffer state)) eqn:E.
    - split; [|done]. intros _ Heq. apply ptr_neqb_spec in Heq. congruence.
    - apply ptr_neqb_spec in E. split; [done|]. by intros []. }
  assert (Hactive : renderPassActive (trackBarriers state cl) = renderPassActive cl).
  { unfold renderPassActive. by rewrite Tgs, Tms. }
  assert (Hnull : forall p : Ptr, isNull p = true <-> p = nullptr)
    by (intros p; apply N.eqb_eq).
  split; [|split].
  - rewrite existsb_otherBlocks by (intros c Hc; by destruct c).
    rewrite renderPassCalls_beginRendering.
    rewrite andb_true_iff, orb_true_iff, negb_true_iff, Hchanged, Hany.
    rewrite <- not_true_iff_false, Hnull. done.
  - rewrite existsb_otherBlocks by (intros c Hc; by destruct c).
    rewrite renderPassCalls_endRendering.
    rewrite andb_true_iff, !orb_true_iff, Hchanged, Hany, Hactive, Tgs, Hnull.
    fold current. tauto.
  - rewrite existsb_otherBlocks by (intros c Hc; by destruct c).
    by rewrite renderPassCalls_pipelineBarrier.
Qed.

(** *** Volatile constant buffers *)

(** X12: when volatile buffers were written since the binding sets were
    last bound, the next draw binds the current binding sets again before
    it draws, and the draw after that does not. *)
Theorem volatile_bindings_are_rebound_once args args' cl :
  m_AnyVolatileBufferWrites cl = true ->
  GraphicsState.pipeline (m_CurrentGraphicsState cl) <> nullptr ->
  let pso := graphicsPipelineAt (GraphicsState.pipeline (m_CurrentGraphicsState cl)) in
  newCalls cl (draw args cl)
  = [BindDescriptorSets (GraphicsPipeline.pipelineLayout pso)
       (GraphicsState.bindings (m_CurrentGraphicsState cl))
       (GraphicsPipeline.descriptorSetIdxToBindingIdx pso);
     Draw (DrawArguments.vertexCount args) (DrawArguments.instanceCount args)
       (DrawArguments.startVertexLocation args)
       (DrawArguments.startInstanceLocation args)]
  /\ m_AnyVolatileBufferWrites (draw args cl) = false
  /\ newCalls (draw args cl) (drawIndexed args' (draw args cl))
     = [DrawIndexed (DrawArguments.vertexCount args')
          (DrawArguments.instanceCount args')
          (DrawArguments.startIndexLocation args')
          (DrawArguments.startVertexLocation args')
          (DrawArguments.startInstanceLocation args')].
Proof.
  intros Hvol Hpipe pso.
  assert (Hnull : isNull (GraphicsState.pipeline (m_CurrentGraphicsState cl)) = false)
    by (by apply N.eqb_neq).
  assert (Hdraw : draw args cl
                  = record (Draw (DrawArguments.vertexCount args)
                              (DrawArguments.instanceCount args)
                              (DrawArguments.startVertexLocation args)
                              (DrawArguments.startInstanceLocation args))
                      (setAnyVolatileBufferWrites false
                         (bindBindingSets (GraphicsPipeline.pipelineLayout pso)
                            (GraphicsState.bindings (m_CurrentGraphicsState cl))
                            (GraphicsPipeline.descriptorSetIdxToBindingIdx pso) cl))).
  { unfold draw, updateGraphicsVolatileBuffers. by rewrite Hvol, Hnull. }
  split; [|split].
  - apply newCalls_app. rewrite Hdraw. unfold calls. simpl.
    by rewrite <- app_assoc.
  - by rewrite Hdraw.
  - apply newCalls_app. unfold drawIndexed, updateGraphicsVolatileBuffers.
    by rewrite Hdraw.
Qed.

(** X6: when [setGraphicsState] binds the vertex buffers, the bind covers
    the slots from zero to the highest valid slot named by a binding (slot
    zero alone when there is none); bindings in slots beyond the sixteenth
    are skipped; each covered slot holds the buffer and offset of the last
    binding that names it, and a covered slot no binding names is left
    unwritten. *)
Theorem vertex_buffers_are_bound_by_slot cl state cl' :
  setGraphicsState cl state = Some cl' ->
  GraphicsState.vertexBuffers state <> [] ->
  GraphicsState.vertexBuffers state
  <> GraphicsState.vertexBuffers (m_CurrentGraphicsState cl) ->
  let bs := GraphicsState.vertexBuffers state in
  exists count buffers offsets,
    BindVertexBuffers 0 count buffers offsets ∈ newCalls cl cl'
    /\ 1 <= count <= c_MaxVertexAttributes
    /\ (forall b, b ∈ bs ->
          VertexBufferBinding.slot b < c_MaxVertexAttributes ->
          VertexBufferBinding.slot b < count)
    /\ (count = 1
        \/ exists b, b ∈ bs /\ VertexBufferBinding.slot b + 1 = count)
    /\ length buffers = N.to_nat count
    /\ length offsets = N.to_nat count
    /\ forall s, s < count ->
         buffers !! N.to_nat s
         = Some (VertexBufferBinding.buffer <$> lastBindingOf s bs)
         /\ offsets !! N.to_nat s
            = Some (VertexBufferBinding.offset <$> lastBindingOf s bs).
Proof.
  intros H Hne Hdiff bs.
  assert (Hchanged : vertexBuffersChanged cl state = true)
    by (by apply vertexBuffersChanged_spec).
  assert (Hsome : is_Some (bindVertexBuffers bs cl)).
  { apply (proj1 (setGraphicsState_is_Some cl state)); [by eexists|done]. }
  destruct Hsome as [cl0 Hbind].
  destruct (bindVertexBuffers_slots bs cl cl0 Hbind)
    as (count & buffers & offsets & Hcalls & Hrest).
  exists count, buffers, offsets. split; [|exact Hrest].
  rewrite (setGraphicsState_newCalls _ _ _ H).
  unfold graphicsStateCalls. cbv zeta.
  assert (Hvb : vertexBufferCalls state cl = [BindVertexBuffers 0 count buffers offsets]).
  { unfold vertexBufferCalls. rewrite Hchanged. fold bs. by rewrite Hbind. }
  rewrite Hvb, !elem_of_app, list_elem_of_singleton. auto 12.
Qed.

(** *** Dynamic states *)

Lemma pipelineDynamicStates_spec usesBlend dynamicStencil shadingRate :
  exists v,
    pipelineDynamicStates usesBlend dynamicStencil shadingRate = Some v
    /\ NoDup v
    /\ (length v <= 5)%nat
    /\ eViewport ∈ v
    /\ eScissor ∈ v
    /\ (eBlendConstants ∈ v <-> usesBlend = true)
    /\ (eStencilReference ∈ v <-> dynamicStencil = true)
    /\ (eFragmentShadingRateKHR ∈ v <-> shadingRate = true).
Proof.
  destruct usesBlend, dynamicStencil, shadingRate; eexists;
    (split; [reflexivity|]); repeat split; try compute_done;
    intros H; exfalso; revert H; compute_done.
Qed.

Lemma graphicsStateCalls_setStencilReference cl state :
  existsb isSetStencilReference (graphicsStateCalls cl state) = true ->
  GraphicsPipeline.dynamicStencilRef
    (graphicsPipelineAt (GraphicsState.pipeline state)) = true.
Proof.
  rewrite existsb_graphicsStateCalls.
  rewrite (existsb_vertexBufferCalls isSetStencilReference) by (by intros []).
  assert (H1 : forall p u, existsb isSetStencilReference (pipelineCalls p u) = false)
    by (intros; existsb_calls).
  assert (H2 : forall s b c,
            existsb isSetStencilReference (renderPassCalls s b c) = false)
    by (intros; existsb_calls).
  assert (H3 : forall p, existsb isSetStencilReference (bindingCalls p state cl) = false)
    by (intros; existsb_calls).
  assert (H4 : existsb isSetStencilReference (viewportCalls state cl) = false)
    by existsb_calls.
  assert (H5 : existsb isSetStencilReference (scissorCalls state cl) = false)
    by existsb_calls.
  assert (H7 : forall p u,
            existsb isSetStencilReference (blendCalls p u state cl) = false)
    by (intros; existsb_calls).
  assert (H8 : existsb isSetStencilReference (indexBufferCalls state cl) = false)
    by existsb_calls.
  assert (H9 : existsb isSetStencilReference (shadingRateCalls state) = false)
    by existsb_calls.
  rewrite H1, H2, H3, H4, H5, H7, H8, H9. simpl. rewrite !orb_false_r.
  unfold stencilCalls, stencilRefChanged.
  by destruct (GraphicsPipeline.dynamicStencilRef _).
Qed.

Lemma graphicsStateCalls_setBlendConstants cl state :
  existsb isSetBlendConstants (graphicsStateCalls cl state) = true ->
  GraphicsPipeline.usesBlendConstants
    (graphicsPipelineAt (GraphicsState.pipeline state)) = true.
Proof.
  rewrite existsb_graphicsStateCalls.
  rewrite (existsb_vertexBufferCalls isSetBlendConstants) by (by intros []).
  assert (H1 : forall p u, existsb isSetBlendConstants (pipelineCalls p u) = false)
    by (intros; existsb_calls).
  assert (H2 : forall s b c,
            existsb isSetBlendConstants (renderPassCalls s b c) = false)
    by (intros; existsb_calls).
  assert (H3 : forall p, existsb isSetBlendConstants (bindingCalls p state cl) = false)
    by (intros; existsb_calls).
  assert (H4 : existsb isSetBlendConstants (viewportCalls state cl) = false)
    by existsb_calls.
  assert (H5 : existsb isSetBlendConstants (scissorCalls state cl) = false)
    by existsb_calls.
  assert (H6 : forall p u,
            existsb isSetBlendConstants (stencilCalls p u state cl) = false)
    by (intros; existsb_calls).
  assert (H8 : existsb isSetBlendConstants (indexBufferCalls state cl) = false)
    by existsb_calls.
  assert (H9 : existsb isSetBlendConstants (shadingRateCalls state) = false)
    by existsb_calls.
  rewrite H1, H2, H3, H4, H5, H6, H8, H9. simpl. rewrite !orb_false_r.
  unfold blendCalls, blendConstantsChanged.
  by destruct (GraphicsPipeline.usesBlendConstants _).
Qed.

(** X16: the list of dynamic states that [createGraphicsPipeline] builds
    never exceeds its capacity of five and names no state twice; viewport
    and scissor are always dynamic; and [setGraphicsState] sets the stencil
    reference or the blend constants only for a pipeline that was created
    with the corresponding dynamic state. *)
Theorem dynamic_state_calls_are_declared cl state cl' shadingRateEnabled :
  setGraphicsState cl state = Some cl' ->
  let pso := graphicsPipelineAt (GraphicsState.pipeline state) in
  exists dynamicStates,
    pipelineDynamicStates (GraphicsPipeline.usesBlendConstants pso)
      (GraphicsPipeline.dynamicStencilRef pso) shadingRateEnabled
    = Some dynamicStates
    /\ NoDup dynamicStates
    /\ (length dynamicStates <= 5)%nat
    /\ eViewport ∈ dynamicStates
    /\ eScissor ∈ dynamicStates
    /\ (existsb isSetStencilReference (newCalls cl cl') = true ->
        eStencilReference ∈ dynamicStates)
    /\ (existsb isSetBlendConstants (newCalls cl cl') = true ->
        eBlendConstants ∈ dynamicStates)
    /\ (eFragmentShadingRateKHR ∈ dynamicStates <-> shadingRateEnabled = true).
Proof.
  intros H pso.
  destruct (pipelineDynamicStates_spec (GraphicsPipeline.usesBlendConstants pso)
              (GraphicsPipeline.dynamicStencilRef pso) shadingRateEnabled)
    as (v & E & Hnodup & Hlen & Hvp & Hsc & Hblend & Hstencil & Hsr).
  exists v. rewrite (setGraphicsState_newCalls _ _ _ H).
  split; [done|]. split; [done|]. split; [done|]. split; [done|]. split; [done|].
  split; [|split; [|done]].
  - intros Hc. apply Hstencil. by apply graphicsStateCalls_setStencilReference in Hc.
  - intros Hc. apply Hblend. by apply graphicsStateCalls_setBlendConstants in Hc.
Qed.

End VulkanGraphics.

(** ** The tracker: results *)

Lemma filter_key_none (k : Ptr * nat) (l : list Barrier) :
  (forall q, q ∈ l -> barrierKey q <> k) ->
  List.filter (fun b => bool_decide (barrierKey b = k)) l = [].
Proof.
  induction l as [|q l IH]; intros H; [done|]. simpl.
  rewrite bool_decide_eq_false_2 by (apply H; left).
  apply IH. intros q' Hq'. apply H. by right.
Qed.

Lemma addBarrier_append (b : Barrier) (l : list Barrier) :
  (forall q, q ∈ l -> barrierKey q <> barrierKey b) ->
  addBarrier b l = l ++ [b].
Proof.
  induction l as [|q l IH]; intros H; [done|]. simpl.
  rewrite bool_decide_eq_false_2 by (apply H; left). simpl.
  f_equal. apply IH. intros q' Hq'. apply H. by right.
Qed.

Lemma addBarrier_merge (b p : Barrier) (l1 l2 : list Barrier) :
  (forall q, q ∈ l1 -> barrierKey q <> barrierKey b) ->
  barrierKey p = barrierKey b ->
  stateAfter p = stateBefore b ->
  addBarrier b (l1 ++ p :: l2)
  = l1 ++ {| resource := resource p; subresource := subresource p;
             stateBefore := stateBefore p; stateAfter := stateAfter b |} :: l2.
Proof.
  intros H Hk Hs. induction l1 as [|q l1 IH]; simpl.
  - rewrite bool_decide_eq_true_2 by done. by rewrite Hs, N.eqb_refl.
  - rewrite bool_decide_eq_false_2 by (apply H; left). simpl.
    f_equal. apply IH. intros q' Hq'. apply H. by right.
Qed.

Lemma addBarrier_filter_other (b : Barrier) (k : Ptr * nat) (l : list Barrier) :
  k <> barrierKey b ->
  List.filter (fun q => bool_decide (barrierKey q = k)) (addBarrier b l)
  = List.filter (fun q => bool_decide (barrierKey q = k)) l.
Proof.
  intros Hk. induction l as [|q l IH]; simpl.
  - by rewrite bool_decide_eq_false_2.
  - destruct (bool_decide (barrierKey q = barrierKey b) && _) eqn:E; simpl.
    + apply andb_true_iff in E as [E _]. apply bool_decide_eq_true in E.
      unfold barrierKey at 1. simpl. fold (barrierKey q).
      rewrite !bool_decide_eq_false_2; congruence.
    + by rewrite IH.
Qed.

Lemma touch_fields t r :
  subresourceStates (touch t r) = subresourceStates t
  /\ pendingBarriers (touch t r) = pendingBarriers t
  /\ permanentTransitions (touch t r) = permanentTransitions t
  /\ diagnostics (touch t r) = diagnostics t.
Proof. unfold touch. by destruct (isTracked t r). Qed.

Lemma touch_tracked t r : isTracked (touch t r) r = true.
Proof.
  unfold touch. destruct (isTracked t r) eqn:E; [done|].
  unfold isTracked. simpl. apply bool_decide_eq_true.
  rewrite map_app. apply elem_of_app. right. simpl. apply list_elem_of_here.
Qed.

Lemma touch_idempotent t r : isTracked t r = true -> touch t r = t.
Proof. unfold touch. by intros ->. Qed.

Lemma requireSubresource_fields r X t i :
  trackedResources (requireSubresource r X t i) = trackedResources t
  /\ permanentTransitions (requireSubresource r X t i) = permanentTransitions t.
Proof. unfold requireSubresource. by destruct (_ =? _). Qed.

Lemma requireSubresource_same r X t i :
  currentState t r i = X -> requireSubresource r X t i = t.
Proof. unfold requireSubresource. intros ->. by rewrite N.eqb_refl. Qed.

Lemma requireSubresource_state r X t i j :
  currentState (requireSubresource r X t i) r j
  = if decide (j = i) then X else currentState t r j.
Proof.
  unfold requireSubresource.
  destruct (currentState t r i =? X) eqn:E.
  - apply N.eqb_eq in E. destruct (decide (j = i)); by subst.
  - unfold currentState. simpl. destruct (decide (j = i)) as [->|Hne].
    + by rewrite lookup_insert_eq.
    + rewrite lookup_insert_ne; [done|]. congruence.
Qed.

Lemma wellFormed_key_state t r i p :
  wellFormed t -> p ∈ pendingBarriers t -> barrierKey p = (handle r, i) ->
  stateAfter p = currentState t r i.
Proof.
  intros [_ Hf] Hp Hk. rewrite Forall_forall in Hf. specialize (Hf p Hp).
  unfold currentState. by rewrite <- Hk, Hf.
Qed.

(** One subresource whose state differs: afterwards exactly one barrier is
    pending for it, and the barriers of every other subresource are as
    before. *)
Lemma requireSubresource_step r X t i :
  wellFormed t ->
  currentState t r i <> X ->
  wellFormed (requireSubresource r X t i)
  /\ length (pendingFor (requireSubresource r X t i) r i) = 1%nat
  /\ forall k, k <> (handle r, i) ->
       List.filter (fun q => bool_decide (barrierKey q = k))
         (pendingBarriers (requireSubresource r X t i))
       = List.filter (fun q => bool_decide (barrierKey q = k)) (pendingBarriers t).
Proof.
  intros Hwf Hne. pose proof Hwf as [Hnd Hfa].
  unfold requireSubresource, pendingFor.
  destruct (currentState t r i =? X) eqn:E; [by apply N.eqb_eq in E|]. simpl.
  set (b := {| resource := handle r; subresource := i;
               stateBefore := currentState t r i; stateAfter := X |}).
  assert (Hkb : barrierKey b = (handle r, i)) by reflexivity.
  split; [|split].
  3:{ intros k Hk. apply addBarrier_filter_other. by rewrite Hkb. }
  - (* well-formedness *)
    unfold wellFormed. cbn [pendingBarriers subresourceStates].
    destruct (decide ((handle r, i) ∈ map barrierKey (pendingBarriers t))) as [Hin|Hout].
    + apply list_elem_of_fmap in Hin as (p & Hkp & Hp).
      apply list_elem_of_split in Hp as (l1 & l2 & Hl).
      rewrite Hl in Hnd. rewrite map_app in Hnd. simpl in Hnd.
      apply NoDup_app in Hnd as (Hn1 & Hn12 & Hn2).
      apply NoDup_cons in Hn2 as (Hn2a & Hn2b).
      assert (H1 : forall q, q ∈ l1 -> barrierKey q <> barrierKey b).
      { intros q Hq Heq. apply (Hn12 (barrierKey q)).
        - apply list_elem_of_fmap. by exists q.
        - rewrite Heq, Hkb, Hkp. left. }
      assert (H2 : forall q, q ∈ l2 -> barrierKey q <> barrierKey b).
      { intros q Hq Heq. apply Hn2a. rewrite <- Hkp, <- Hkb, <- Heq.
        apply list_elem_of_fmap. by exists q. }
      assert (Hs : stateAfter p = stateBefore b).
      { simpl. apply wellFormed_key_state; [done| |done].
        rewrite Hl. apply elem_of_app. right. left. }
      rewrite Hl, (addBarrier_merge b p l1 l2 H1 (eq_sym Hkp) Hs).
      split.
      * rewrite map_app. simpl. unfold barrierKey at 2. simpl.
        fold (barrierKey p). apply NoDup_app. split; [done|]. split; [done|].
        by apply NoDup_cons.
      * rewrite Hl in Hfa. apply Forall_app in Hfa as (F1 & F2).
        apply Forall_cons in F2 as (Fp & F2).
        apply Forall_app. split; [|apply Forall_cons; split].
        -- rewrite Forall_forall in *. intros q Hq.
           rewrite lookup_insert_ne; [by apply F1|].
           intros Heq. apply (H1 q Hq). by rewrite Hkb.
        -- simpl. unfold barrierKey. simpl. fold (barrierKey p).
           rewrite <- Hkp. by rewrite lookup_insert_eq.
        -- rewrite Forall_forall in *. intros q Hq.
           rewrite lookup_insert_ne; [by apply F2|].
           intros Heq. apply (H2 q Hq). by rewrite Hkb.
    + assert (H1 : forall q, q ∈ pendingBarriers t -> barrierKey q <> barrierKey b).
      { intros q Hq Heq. apply Hout. rewrite <- Hkb, <- Heq.
        apply list_elem_of_fmap. by exists q. }
      rewrite (addBarrier_append b _ H1). split.
      * rewrite map_app. simpl. apply NoDup_app. split; [done|]. split.
        -- intros k Hk1 Hk2. apply list_elem_of_singleton in Hk2. subst k.
           by rewrite Hkb in Hk1.
        -- apply NoDup_singleton.
      * apply Forall_app. split.
        -- rewrite Forall_forall in *. intros q Hq.
           rewrite lookup_insert_ne; [by apply Hfa|].
           intros Heq. apply (H1 q Hq). by rewrite Hkb.
        -- apply Forall_singleton. simpl. by rewrite lookup_insert_eq.
  - (* exactly one barrier *)
    destruct (decide ((handle r, i) ∈ map barrierKey (pendingBarriers t))) as [Hin|Hout].
    + apply list_elem_of_fmap in Hin as (p & Hkp & Hp).
      apply list_elem_of_split in Hp as (l1 & l2 & Hl).
      rewrite Hl in Hnd. rewrite map_app in Hnd. simpl in Hnd.
      apply NoDup_app in Hnd as (Hn1 & Hn12 & Hn2).
      apply NoDup_cons in Hn2 as (Hn2a & Hn2b).
      assert (H1 : forall q, q ∈ l1 -> barrierKey q <> barrierKey b).
      { intros q Hq Heq. apply (Hn12 (barrierKey q)).
        - apply list_elem_of_fmap. by exists q.
        - rewrite Heq, Hkb, Hkp. left. }
      assert (H2 : forall q, q ∈ l2 -> barrierKey q <> barrierKey b).
      { intros q Hq Heq. apply Hn2a. rewrite <- Hkp, <- Hkb, <- Heq.
        apply list_elem_of_fmap. by exists q. }
      assert (Hs : stateAfter p = stateBefore b).
      { simpl. apply wellFormed_key_state; [done| |done].
        rewrite Hl. apply elem_of_app. right. left. }
      rewrite Hl, (addBarrier_merge b p l1 l2 H1 (eq_sym Hkp) Hs).
      rewrite List.filter_app. simpl.
      rewrite (filter_key_none _ l1) by (by rewrite <- Hkb).
      rewrite (filter_key_none _ l2) by (by rewrite <- Hkb).
      unfold barrierKey at 1. simpl. fold (barrierKey p).
      by rewrite bool_decide_eq_true_2.
    + assert (H1 : forall q, q ∈ pendingBarriers t -> barrierKey q <> barrierKey b).
      { intros q Hq Heq. apply Hout. rewrite <- Hkb, <- Heq.
        apply list_elem_of_fmap. by exists q. }
      rewrite (addBarrier_append b _ H1), List.filter_app.
      rewrite (filter_key_none _ (pendingBarriers t)) by (by rewrite <- Hkb).
      simpl. by rewrite bool_decide_eq_true_2.
Qed.

Lemma requireSubresources_fold r X subs : forall t,
  wellFormed t ->
  let t' := foldl (requireSubresource r X) t subs in
  wellFormed t'
  /\ (forall j, currentState t' r j
                = if decide (j ∈ subs) then X else currentState t r j)
  /\ (forall i, i ∈ subs -> currentState t r i <> X ->
                length (pendingFor t' r i) = 1%nat)
  /\ (forall k,
        (forall i, i ∈ subs -> currentState t r i <> X -> k <> (handle r, i)) ->
        List.filter (fun q => bool_decide (barrierKey q = k)) (pendingBarriers t')
        = List.filter (fun q => bool_decide (barrierKey q = k)) (pendingBarriers t))
  /\ trackedResources t' = trackedResources t
  /\ permanentTransitions t' = permanentTransitions t.
Proof.
  induction subs as [|i subs IH]; intros t Hwf; cbn [foldl].
  { split; [done|]. split; [|split; [|done]].
    - intros j. rewrite decide_False; [done|]. apply not_elem_of_nil.
    - intros i Hi. by apply not_elem_of_nil in Hi. }
  set (t1 := requireSubresource r X t i).
  assert (Hst : forall j, currentState t1 r j
                          = if decide (j = i) then X else currentState t r j)
    by apply requireSubresource_state.
  destruct (requireSubresource_fields r X t i) as (Ft & Fp). fold t1 in Ft, Fp.
  destruct (decide (currentState t r i = X)) as [Heq|Hne].
  - assert (E1 : t1 = t) by (by apply requireSubresource_same).
    rewrite E1. destruct (IH t Hwf) as (W & S & C & F & T & P).
    split; [exact W|]. split; [|split; [|split; [|done]]].
    + intros j. rewrite S. destruct (decide (j ∈ i :: subs)) as [Hin|Hout].
      * destruct (decide (j ∈ subs)); [done|].
        apply elem_of_cons in Hin as [->|?]; done.
      * destruct (decide (j ∈ subs)) as [Hin|]; [|done].
        exfalso. apply Hout. by right.
    + intros i' Hin Hne. apply C; [|done].
      apply elem_of_cons in Hin as [->|?]; done.
    + intros k Hk. apply F. intros i' Hin. apply Hk. by right.
  - destruct (requireSubresource_step r X t i Hwf Hne) as (W1 & C1 & F1).
    fold t1 in W1, C1, F1.
    destruct (IH t1 W1) as (W & S & C & F & T & P).
    split; [exact W|]. split; [|split; [|split; [|split; congruence]]].
    + intros j. rewrite S, Hst. destruct (decide (j ∈ i :: subs)) as [Hin|Hout].
      * destruct (decide (j ∈ subs)); [done|].
        apply elem_of_cons in Hin as [->|?]; [|done]. by rewrite decide_True.
      * destruct (decide (j ∈ subs)) as [Hin|]; [exfalso; apply Hout; by right|].
        rewrite decide_False; [done|]. intros ->. apply Hout. left.
    + intros i' Hin Hne'. destruct (decide (i' = i)) as [->|Hd].
      * unfold pendingFor. rewrite F; [exact C1|].
        intros i'' _ Hs Hk. injection Hk as <-. apply Hs.
        by rewrite Hst, decide_True.
      * apply C.
        -- apply elem_of_cons in Hin as [?|?]; done.
        -- by rewrite Hst, decide_False.
    + intros k Hk. rewrite F.
      * apply F1. apply Hk; [left | done].
      * intros i'' Hin Hs. destruct (decide (i'' = i)) as [->|Hd].
        -- by rewrite Hst, decide_True in Hs.
        -- apply Hk; [by right|]. by rewrite Hst, decide_False in Hs.
Qed.

Lemma foldl_requireSubresource_same r X subs : forall t,
  (forall i, i ∈ subs -> currentState t r i = X) ->
  foldl (requireSubresource r X) t subs = t.
Proof.
  induction subs as [|i subs IH]; intros t H; [done|]. simpl.
  rewrite requireSubresource_same by (apply H; left).
  apply IH. intros j Hj. apply H. by right.
Qed.

Lemma requireSubresources_permanent r subs X t :
  permanentTransitions (requireSubresources r subs X t) = permanentTransitions t.
Proof.
  unfold requireSubresources.
  destruct (touch_fields t r) as (_ & _ & <- & _).
  generalize (touch t r). clear t. induction subs as [|i subs IH]; intros t; [done|].
  simpl. rewrite IH. apply requireSubresource_fields.
Qed.

Lemma wellFormed_touch t r : wellFormed t -> wellFormed (touch t r).
Proof.
  unfold wellFormed. destruct (touch_fields t r) as (-> & -> & _). done.
Qed.

Lemma currentState_touch t r r' i :
  currentState (touch t r') r i = currentState t r i.
Proof. unfold currentState. by destruct (touch_fields t r') as (-> & _). Qed.

(** *** The pending-list invariants hold throughout a session *)

Lemma wellFormed_emptyTracker : wellFormed emptyTracker.
Proof. split; simpl; [apply NoDup_nil_2 | apply Forall_nil_2]. Qed.

Lemma wellFormed_requireSubresources r subs X t :
  wellFormed t -> wellFormed (requireSubresources r subs X t).
Proof.
  intros Hwf. unfold requireSubresources.
  by destruct (requireSubresources_fold r X subs (touch t r)
                 (wellFormed_touch _ _ Hwf)) as (W & _).
Qed.

Lemma wellFormed_requireState reg t r subs X t' :
  wellFormed t -> requireState reg t r subs X = Ok t' -> wellFormed t'.
Proof.
  intros Hwf. unfold requireState. destruct (permanentState reg t r) as [p|].
  - destruct (X =? p); [by intros [= <-] | done].
  - intros [= <-]. by apply wellFormed_requireSubresources.
Qed.

Lemma wellFormed_flush t : wellFormed (flush t).2.
Proof. split; simpl; [apply NoDup_nil_2 | apply Forall_nil_2]. Qed.

Lemma wellFormed_reopen t : wellFormed (reopen t).
Proof. split; simpl; [apply NoDup_nil_2 | apply Forall_nil_2]. Qed.

Lemma wellFormed_pinPermanent reg t r X t' :
  wellFormed t -> pinPermanent reg t r X = Ok t' -> wellFormed t'.
Proof.
  intros Hwf. unfold pinPermanent. destruct (permanentState reg t r) as [p|].
  - destruct (X =? p); [by intros [= <-] | done].
  - intros [= <-].
    by pose proof (wellFormed_requireSubresources r (allSubresources r) X t Hwf).
Qed.

Lemma wellFormed_keepInitialStates reg t :
  wellFormed t -> wellFormed (keepInitialStates reg t).
Proof.
  unfold keepInitialStates. generalize (trackedResources t) as rs.
  intros rs. revert t. induction rs as [|r rs IH]; intros t Hwf; [done|].
  cbn [foldl]. apply IH. destruct (keepInitialState (desc r)); [|done].
  destruct (requireState reg t r _ _) as [t'|e] eqn:E; [|done].
  by eapply wellFormed_requireState.
Qed.

Lemma wellFormed_beginTracking t r subs known :
  pendingBarriers t = [] -> wellFormed (beginTracking t r subs known).
Proof.
  intros Hp. unfold wellFormed, beginTracking. simpl.
  destruct (touch_fields t r) as (_ & -> & _). rewrite Hp.
  split; [apply NoDup_nil_2 | apply Forall_nil_2].
Qed.

(** C8: for a resource that is not permanent, the second of two identical
    [requireState] calls changes nothing.  After the calls exactly one
    barrier is pending for every subresource of the set whose state
    differed, and a subresource that was already in the state has the
    pending barriers it had before, none if it had none. *)
Theorem requireState_idempotent reg t r subs X :
  wellFormed t ->
  permanentState reg t r = None ->
  exists t1,
    requireState reg t r subs X = Ok t1
    /\ requireState reg t1 r subs X = Ok t1
    /\ (forall i, i ∈ subs -> currentState t r i <> X ->
                  length (pendingFor t1 r i) = 1%nat)
    /\ (forall i, i ∈ subs -> currentState t r i = X ->
                  pendingFor t1 r i = pendingFor t r i)
    /\ ((forall i, i ∈ subs -> currentState t r i = X) ->
        pendingBarriers t1 = pendingBarriers t)
    /\ (forall i, i ∈ subs -> queryState reg t1 r i = X).
Proof.
  intros Hwf Hperm. unfold requireState. rewrite Hperm.
  exists (requireSubresources r subs X t). split; [done|].
  unfold requireSubresources.
  destruct (requireSubresources_fold r X subs (touch t r) (wellFormed_touch _ _ Hwf))
    as (W & S & C & F & T & P).
  set (t1 := foldl (requireSubresource r X) (touch t r) subs) in *.
  assert (Hp1 : permanentState reg t1 r = None).
  { unfold permanentState in *. rewrite P.
    destruct (touch_fields t r) as (_ & _ & -> & _). exact Hperm. }
  assert (Htr : isTracked t1 r = true).
  { unfold isTracked. rewrite T. apply touch_tracked. }
  destruct (touch_fields t r) as (_ & Epend & _ & _).
  split; [|split; [|split; [|split]]].
  - rewrite Hp1. f_equal. rewrite (touch_idempotent _ _ Htr).
    apply foldl_requireSubresource_same.
    intros i Hi. rewrite S. by rewrite decide_True.
  - intros i Hi Hne. apply C; [done|]. by rewrite currentState_touch.
  - intros i Hi Heq. unfold pendingFor. rewrite F, Epend; [done|].
    intros i' _ Hs Hk. injection Hk as <-. by rewrite currentState_touch in Hs.
  - intros Hall. unfold t1.
    rewrite foldl_requireSubresource_same; [done|].
    intros i Hi. rewrite currentState_touch. by apply Hall.
  - intros i Hi. unfold queryState. rewrite Hp1, S. by rewrite decide_True.
Qed.

(** *** Permanent states *)

Lemma requireState_permanent reg t r subs X t' :
  requireState reg t r subs X = Ok t' ->
  permanentTransitions t' = permanentTransitions t.
Proof.
  unfold requireState. destruct (permanentState reg t r) as [p|].
  - destruct (X =? p); [by intros [= <-] | done].
  - intros [= <-]. apply requireSubresources_permanent.
Qed.

Lemma keepInitialStates_permanent reg t :
  permanentTransitions (keepInitialStates reg t) = permanentTransitions t.
Proof.
  unfold keepInitialStates. generalize (trackedResources t) as rs.
  intros rs. revert t. induction rs as [|r rs IH]; intros t; [done|].
  cbn [foldl]. rewrite IH. destruct (keepInitialState (desc r)); [|done].
  destruct (requireState reg t r _ _) as [t'|e] eqn:E; [|done].
  by eapply requireState_permanent.
Qed.

Lemma pinPermanent_pinned reg t r X t1 :
  pinPermanent reg t r X = Ok t1 -> permanentState reg t1 r = Some X.
Proof.
  unfold pinPermanent. destruct (permanentState reg t r) as [p|] eqn:E.
  - destruct (X =? p) eqn:Ex; [|done]. apply N.eqb_eq in Ex. subst p.
    by intros [= <-].
  - intros [= <-]. unfold permanentState in *. simpl.
    destruct (reg !! handle r); [done|]. by rewrite lookup_insert_eq.
Qed.

Lemma runTrackerOp_pinned reg t r X op :
  permanentState reg t r = Some X ->
  permanentState reg (runTrackerOp reg t op) r = Some X.
Proof.
  intros Hp. unfold permanentState in *.
  destruct (reg !! handle r) as [p|] eqn:Er; [done|].
  destruct op as [r' subs d | r' subs k | r' s | |]; simpl.
  - destruct (requireState reg t r' subs d) as [t'|e] eqn:E; [|done].
    by rewrite (requireState_permanent _ _ _ _ _ _ E).
  - by destruct (touch_fields t r') as (_ & _ & -> & _).
  - unfold pinPermanent. destruct (permanentState reg t r') as [p|] eqn:E'.
    + by destruct (s =? p).
    + simpl. rewrite requireSubresources_permanent.
      rewrite lookup_insert_ne; [done|]. intros Heq.
      unfold permanentState in E'. rewrite Heq, Er, Hp in E'. done.
  - done.
  - by rewrite keepInitialStates_permanent.
Qed.

Lemma requireState_pinned reg t r X :
  permanentState reg t r = Some X ->
  (forall subs Y, Y <> X -> requireState reg t r subs Y = Err PermanentStateViolation)
  /\ (forall subs, requireState reg t r subs X = Ok t).
Proof.
  intros Hp. unfold requireState. rewrite Hp. split.
  - intros subs Y Hne. destruct (Y =? X) eqn:E; [|done]. by apply N.eqb_eq in E.
  - intros subs. by rewrite N.eqb_refl.
Qed.

Lemma commitPermanent_pinned reg t r X t' :
  permanentState reg t r = Some X ->
  permanentState (commitPermanent reg t) t' r = Some X.
Proof.
  unfold permanentState, commitPermanent. intros Hp.
  rewrite lookup_union. destruct (reg !! handle r) as [p|]; simpl.
  - destruct (permanentTransitions t !! handle r); simpl; done.
  - rewrite Hp. done.
Qed.

(** C5, as amended: once [pinPermanent(r, X)] has succeeded, whatever
    tracker operations the pinning session performs next before it is
    re-opened, [requireState] on [r] with another state signals
    [PermanentStateViolation] and with [X] it succeeds and leaves the
    tracker, hence the pending list, unchanged; once the command list has
    been executed the same holds in every session. *)
Theorem permanent_state_is_enforced reg t r X t1 ops :
  pinPermanent reg t r X = Ok t1 ->
  let t2 := foldl (runTrackerOp reg) t1 ops in
  (forall subs Y, Y <> X ->
     requireState reg t2 r subs Y = Err PermanentStateViolation)
  /\ (forall subs, requireState reg t2 r subs X = Ok t2)
  /\ (forall t' subs Y, Y <> X ->
        requireState (commitPermanent reg t2) t' r subs Y
        = Err PermanentStateViolation)
  /\ (forall t' subs, requireState (commitPermanent reg t2) t' r subs X = Ok t').
Proof.
  intros Hpin t2.
  assert (Hp : permanentState reg t2 r = Some X).
  { unfold t2. apply pinPermanent_pinned in Hpin. clear t2. revert t1 Hpin.
    induction ops as [|op ops IH]; intros t1 Hpin; [done|].
    cbn [foldl]. apply IH. by apply runTrackerOp_pinned. }
  destruct (requireState_pinned _ _ _ _ Hp) as (H1 & H2).
  split; [exact H1|]. split; [exact H2|]. split.
  - intros t'. by apply requireState_pinned, commitPermanent_pinned.
  - intros t'. by apply requireState_pinned, commitPermanent_pinned.
Qed.

Lemma runDeviceOp_keeps reg op h X :
  destroys h op = false ->
  reg !! h = Some X ->
  runDeviceOp reg op !! h = Some X.
Proof.
  intros Hd Hr. destruct op as [s|r']; simpl in *.
  - unfold executeCommandList. destruct (phase s); try done.
    unfold commitPermanent. rewrite lookup_union, Hr.
    by destruct (permanentTransitions _ !! h).
  - unfold destroyResource. apply N.eqb_neq in Hd.
    by rewrite lookup_delete_ne.
Qed.

(** C6, as amended: a pin is recorded in the session that performs it and
    enters the registry when that command list is executed.  Until then the
    registry has no entry and other sessions are not bound by it; a session
    that is discarded or re-opened without execution abandons the pin.
    After execution every session treats the state as fixed, and the entry
    stays until the resource is destroyed. *)
Theorem permanent_state_applies_at_execution reg t r X t1 :
  permanentState reg t r = None ->
  pinPermanent reg t r X = Ok t1 ->
  reg !! handle r = None
  /\ (forall t' subs Y,
        permanentTransitions t' !! handle r = None ->
        exists t'', requireState reg t' r subs Y = Ok t'')
  /\ executeCommandList reg (sessionWith Open t1) = reg
  /\ permanentState reg (reopen t1) r = None
  /\ let reg' := executeCommandList reg (sessionWith Closed t1) in
     reg' !! handle r = Some X
     /\ (forall t' subs Y, Y <> X ->
           requireState reg' t' r subs Y = Err PermanentStateViolation)
     /\ (forall t' subs, requireState reg' t' r subs X = Ok t')
     /\ (forall ops, existsb (destroys (handle r)) ops = false ->
           foldl runDeviceOp reg' ops !! handle r = Some X)
     /\ destroyResource reg' r !! handle r = None.
Proof.
  intros Hnone Hpin.
  assert (Hreg : reg !! handle r = None).
  { unfold permanentState in Hnone. by destruct (reg !! handle r). }
  pose proof (pinPermanent_pinned _ _ _ _ _ Hpin) as Hp.
  split; [exact Hreg|]. split; [|split; [done|split]].
  - intros t' subs Y Ht'. unfold requireState, permanentState.
    rewrite Hreg, Ht'. by eexists.
  - unfold permanentState. simpl. by rewrite Hreg, lookup_empty.
  - cbn zeta. unfold executeCommandList, sessionWith. simpl.
    assert (Hr' : commitPermanent reg t1 !! handle r = Some X).
    { pose proof (commitPermanent_pinned reg t1 r X emptyTracker Hp) as H.
      unfold permanentState in H.
      destruct (commitPermanent reg t1 !! handle r); [done|].
      simpl in H. by rewrite lookup_empty in H. }
    split; [exact Hr'|]. split; [|split; [|split]].
    + intros t'. apply requireState_pinned. unfold permanentState. by rewrite Hr'.
    + intros t'. apply requireState_pinned. unfold permanentState. by rewrite Hr'.
    + intros ops. generalize (commitPermanent reg t1) Hr'. clear.
      induction ops as [|op ops IH]; intros reg' Hr' Hd; [done|].
      simpl in Hd. apply orb_false_elim in Hd as [Hd1 Hd2].
      cbn [foldl]. apply IH; [|done]. by apply runDeviceOp_keeps.
    + unfold destroyResource. apply lookup_delete_eq.
Qed.

(** *** The keepInitialState scenario *)

(** C7: a buffer created with [initialState = CopyDest] and
    [keepInitialState = true].  After [open] and
    [requireState(B, CopySource)] exactly one barrier CopyDest -> CopySource
    is pending; [close] flushes it, requires the buffer back to its initial
    state and emits the barrier CopySource -> CopyDest, and the tracked
    state after the close is CopyDest. *)
Theorem keepInitialState_restores_at_close (hB : Ptr) (reg : Registry) :
  reg !! hB = None ->
  let B := {| handle := hB;
              desc := enableAutomaticStateTracking ResourceStates.CopyDest
                        BufferDesc |} in
  exists s1 s2 s3,
    open newSession = Ok s1
    /\ whileOpen (setBufferState reg B ResourceStates.CopySource) s1 = Ok s2
    /\ pendingBarriers (m_StateTracker (commandList s2))
       = [{| resource := hB; subresource := 0;
             stateBefore := ResourceStates.CopyDest;
             stateAfter := ResourceStates.CopySource |}]
    /\ close reg s2 = Ok s3
    /\ phase s3 = Closed
    /\ calls (commandList s3)
       = [PipelineBarrier
            [{| resource := hB; subresource := 0;
                stateBefore := ResourceStates.CopyDest;
                stateAfter := ResourceStates.CopySource |}];
          PipelineBarrier
            [{| resource := hB; subresource := 0;
                stateBefore := ResourceStates.CopySource;
                stateAfter := ResourceStates.CopyDest |}]]
    /\ pendingBarriers (m_StateTracker (commandList s3)) = []
    /\ getBufferState reg B (commandList s3) = ResourceStates.CopyDest.
Proof.
  intros Hreg B.
  assert (Hperm : forall t, permanentTransitions t = ∅ -> permanentState reg t B = None).
  { intros t Ht. unfold permanentState. simpl. by rewrite Hreg, Ht, lookup_empty. }
  set (b1 := {| resource := hB; subresource := 0;
                stateBefore := ResourceStates.CopyDest;
                stateAfter := ResourceStates.CopySource |}).
  set (b2 := {| resource := hB; subresource := 0;
                stateBefore := ResourceStates.CopySource;
                stateAfter := ResourceStates.CopyDest |}).
  set (T1 := {| subresourceStates := <[(hB, 0%nat) := ResourceStates.CopySource]> ∅;
                trackedResources := [B];
                pendingBarriers := [b1];
                permanentTransitions := ∅;
                diagnostics := [] |}).
  assert (E1 : requireSubresources B [0%nat] ResourceStates.CopySource
                 (reopen emptyTracker) = T1).
  { unfold requireSubresources, touch, isTracked. simpl.
    unfold requireSubresource, currentState. simpl.
    rewrite lookup_empty. reflexivity. }
  assert (E2 : keepInitialStates reg (flush T1).2
               = {| subresourceStates :=
                      <[(hB, 0%nat) := ResourceStates.CopyDest]>
                        (<[(hB, 0%nat) := ResourceStates.CopySource]> ∅);
                    trackedResources := [B];
                    pendingBarriers := [b2];
                    permanentTransitions := ∅;
                    diagnostics := [] |}).
  { unfold keepInitialStates. simpl. unfold requireState.
    rewrite Hperm by done. unfold requireSubresources, touch, isTracked. simpl.
    rewrite bool_decide_eq_true_2 by (apply list_elem_of_here).
    cbn [foldl]. unfold requireSubresource, currentState. simpl.
    rewrite lookup_insert_eq. reflexivity. }
  eexists _, _, _.
  split; [reflexivity|].
  split.
  { unfold whileOpen, setBufferState, onTracker, requireState. simpl.
    rewrite Hperm by done. rewrite E1. reflexivity. }
  split; [reflexivity|].
  split.
  { unfold close. cbn [phase commandList]. reflexivity. }
  split; [reflexivity|].
  cbn [commandList].
  assert (E3 : forall cl0,
             m_StateTracker (commitBarriers (setStateTracker T1 cl0)) = (flush T1).2)
    by (intros; apply commitBarriers_tracker).
  rewrite E3, E2.
  split; [reflexivity|]. split; [reflexivity|].
  unfold getBufferState, queryState. rewrite Hperm by reflexivity.
  unfold currentState. simpl. by rewrite lookup_insert_eq.
Qed.

(** ** Shader stages of a pipeline: results *)

Lemma push_back_elems {T : Type} (x : T) v :
  vector.elems (vector.push_back x v) = vector.elems v ++ [x].
Proof. unfold vector.push_back. by destruct (_ <? _)%nat. Qed.

Lemma push_back_size {T : Type} (x : T) v :
  vector.size (vector.push_back x v) = S (vector.size v).
Proof.
  unfold vector.size. rewrite push_back_elems, length_app. simpl. lia.
Qed.

Lemma push_back_fits {T : Type} (x : T) v :
  (vector.size v < vector.capacity v)%nat ->
  vector.data (vector.push_back x v) = vector.data v
  /\ vector.capacity (vector.push_back x v) = vector.capacity v.
Proof.
  intros H. unfold vector.push_back.
  destruct (Nat.ltb_spec (vector.size v) (vector.capacity v)); [done|lia].
Qed.

Lemma pushSpecializationConstants_elems cs : forall off e d,
  exists es,
    vector.elems (pushSpecializationConstants cs off e d).1 = vector.elems e ++ es
    /\ length es = length cs
    /\ vector.elems (pushSpecializationConstants cs off e d).2
       = vector.elems d ++ map ShaderSpecialization.value cs.
Proof.
  induction cs as [|c cs IH]; intros off e d; simpl.
  - exists []. by rewrite !app_nil_r.
  - edestruct IH as (es & -> & Hlen & ->).
    rewrite !push_back_elems, <- !app_assoc. simpl.
    eexists. split; [reflexivity|]. split; [|reflexivity]. simpl. by rewrite Hlen.
Qed.

Lemma pushSpecializationConstants_fits cs : forall off e d,
  (vector.size e + length cs <= vector.capacity e)%nat ->
  (vector.size d + length cs <= vector.capacity d)%nat ->
  vector.data (pushSpecializationConstants cs off e d).1 = vector.data e
  /\ vector.capacity (pushSpecializationConstants cs off e d).1 = vector.capacity e
  /\ vector.data (pushSpecializationConstants cs off e d).2 = vector.data d
  /\ vector.capacity (pushSpecializationConstants cs off e d).2 = vector.capacity d.
Proof.
  induction cs as [|c cs IH]; intros off e d He Hd; simpl in *; [done|].
  set (entry := Build_SpecializationMapEntry _ _ _).
  destruct (push_back_fits entry e) as [E1 E2]; [lia|].
  destruct (push_back_fits (ShaderSpecialization.value c) d) as [D1 D2]; [lia|].
  destruct (IH ((off + 4) mod 2 ^ 64) (vector.push_back entry e)
              (vector.push_back (ShaderSpecialization.value c) d))
    as (H1 & H2 & H3 & H4).
  - rewrite push_back_size, E2. lia.
  - rewrite push_back_size, D2. lia.
  - rewrite H1, H2, H3, H4. done.
Qed.

Lemma pushSpecializationConstants_entries cs : forall off e d k c,
  off + 4 * N.of_nat (length cs) <= 2 ^ 32 ->
  cs !! k = Some c ->
  vector.elems (pushSpecializationConstants cs off e d).1 !! (vector.size e + k)%nat
  = Some {| sme_constantID := ShaderSpecialization.constantID c;
            sme_offset := off + 4 * N.of_nat k;
            sme_size := 4 |}.
Proof.
  induction cs as [|c0 cs IH]; intros off e d k c Hoff Hk; [done|].
  simpl pushSpecializationConstants.
  assert (Hpow : 2 ^ 32 < 2 ^ 64) by (vm_compute; reflexivity).
  simpl length in Hoff.
  destruct k as [|k]; simpl in Hk.
  - injection Hk as ->.
    edestruct (pushSpecializationConstants_elems cs) as (es & -> & _ & _).
    rewrite push_back_elems, <- app_assoc. simpl.
    rewrite list_lookup_middle by (unfold vector.size; lia).
    do 2 f_equal. rewrite N.mod_small by lia. lia.
  - rewrite (N.mod_small (off + 4)) by lia.
    specialize (IH (off + 4)
                  (vector.push_back
                     {| sme_constantID := ShaderSpecialization.constantID c0;
                        sme_offset := off mod 2 ^ 32; sme_size := 4 |} e)
                  (vector.push_back (ShaderSpecialization.value c0) d) k c).
    rewrite push_back_size in IH.
    replace (vector.size e + S k)%nat with (S (vector.size e) + k)%nat by lia.
    rewrite IH; [|lia|done]. do 2 f_equal. lia.
Qed.

Lemma pointsInto_mono {T : Type} p n (v w : vector.t T) :
  vector.data w = vector.data v ->
  vector.elems v `prefix_of` vector.elems w ->
  pointsInto p n v -> pointsInto p n w.
Proof.
  intros Hd Hp [H1 H2]. split; [congruence|].
  apply prefix_length in Hp. unfold vector.size in *. lia.
Qed.

Lemma stagesExtend_refl s : stagesExtend s s.
Proof. by repeat split. Qed.

Lemma stagesExtend_trans s1 s2 s3 :
  stagesExtend s1 s2 -> stagesExtend s2 s3 -> stagesExtend s1 s3.
Proof.
  intros (A1 & A2 & A3 & A4 & A5 & A6) (B1 & B2 & B3 & B4 & B5 & B6).
  repeat split; try congruence; by etrans.
Qed.

Lemma validInfo_mono s r info :
  stagesExtend s r -> validInfo s info -> validInfo r info.
Proof.
  intros (A1 & A2 & A3 & A4 & A5 & A6) [H1 H2].
  split; eapply pointsInto_mono; eauto.
Qed.

Lemma validStage_mono s r st :
  stagesExtend s r -> validStage s st -> validStage r st.
Proof.
  intros (A1 & A2 & A3 & A4 & A5 & A6). unfold validStage.
  destruct (pSpecializationInfo st); [|done].
  by apply pointsInto_mono.
Qed.

Lemma stageDescribes_mono s r shader st :
  stagesExtend s r -> stageDescribes s shader st -> stageDescribes r shader st.
Proof.
  intros (A1 & A2 & A3 & A4 & A5 & A6) (H1 & H2 & H3 & H4).
  split; [done|]. split; [done|]. split; [done|].
  destruct (Shader.specializationConstants shader) as [|c cs]; [done|].
  destruct H4 as (p & info & Hp & Hinfo & Hcount & Hsize & Hk).
  exists p, info. split; [done|].
  split; [by eapply prefix_lookup_Some|].
  split; [done|]. split; [done|].
  intros k c' Hc. destruct (Hk k c' Hc) as (e & He & Hid & Hsz & Hv).
  exists e. split; [by eapply prefix_lookup_Some|].
  split; [done|]. split; [done|]. by eapply prefix_lookup_Some.
Qed.

Lemma countSpecializationConstants_fields shader c :
  numShaders (countSpecializationConstants shader c)
  = (numShaders c + length (presentShaders [shader]))%nat
  /\ numSpecializationConstants (countSpecializationConstants shader c)
     = (numSpecializationConstants c
        + match shader with
          | Some sh => length (Shader.specializationConstants sh)
          | None => 0
          end)%nat
  /\ numShadersWithSpecializations (countSpecializationConstants shader c)
     = (numShadersWithSpecializations c
        + match shader with
          | Some sh =>
              match Shader.specializationConstants sh with [] => 0 | _ => 1 end
          | None => 0
          end)%nat.
Proof.
  destruct shader as [sh|]; simpl; [|lia].
  destruct (Shader.specializationConstants sh); simpl; lia.
Qed.

Lemma addShaderStages_spec l : forall s c,
  c = foldr countSpecializationConstants noSpecializationCounts l.*1 ->
  (vector.size (shaderStages s) + numShaders c
   <= vector.capacity (shaderStages s))%nat ->
  (vector.size (specInfos (specVectors s)) + numShadersWithSpecializations c
   <= vector.capacity (specInfos (specVectors s)))%nat ->
  (vector.size (specMapEntries (specVectors s)) + numSpecializationConstants c
   <= vector.capacity (specMapEntries (specVectors s)))%nat ->
  (vector.size (specData (specVectors s)) + numSpecializationConstants c
   <= vector.capacity (specData (specVectors s)))%nat ->
  ((0 < numShadersWithSpecializations c)%nat ->
   vector.data (specInfos (specVectors s)) <> 0
   /\ vector.data (specMapEntries (specVectors s)) <> 0
   /\ vector.data (specData (specVectors s)) <> 0) ->
  exists r sts xi xe xd,
    addShaderStages l s = Some r
    /\ (vector.data (shaderStages r) = vector.data (shaderStages s)
        /\ vector.capacity (shaderStages r) = vector.capacity (shaderStages s)
        /\ vector.capacity (specInfos (specVectors r))
           = vector.capacity (specInfos (specVectors s))
        /\ vector.capacity (specMapEntries (specVectors r))
           = vector.capacity (specMapEntries (specVectors s))
        /\ vector.capacity (specData (specVectors r))
           = vector.capacity (specData (specVectors s)))
    /\ (vector.data (specInfos (specVectors r))
        = vector.data (specInfos (specVectors s))
        /\ vector.data (specMapEntries (specVectors r))
           = vector.data (specMapEntries (specVectors s))
        /\ vector.data (specData (specVectors r))
           = vector.data (specData (specVectors s)))
    /\ (vector.elems (shaderStages r) = vector.elems (shaderStages s) ++ sts
        /\ length sts = numShaders c)
    /\ (vector.elems (specInfos (specVectors r))
        = vector.elems (specInfos (specVectors s)) ++ xi
        /\ length xi = numShadersWithSpecializations c)
    /\ (vector.elems (specMapEntries (specVectors r))
        = vector.elems (specMapEntries (specVectors s)) ++ xe
        /\ length xe = numSpecializationConstants c)
    /\ (vector.elems (specData (specVectors r))
        = vector.elems (specData (specVectors s)) ++ xd
        /\ length xd = numSpecializationConstants c)
    /\ Forall (validInfo r) xi
    /\ Forall (validStage r) sts
    /\ (Forall (fun sh => constantBytes sh <= 2 ^ 32) (presentShaders l.*1) ->
        Forall2 (stageDescribes r) (presentShaders l.*1) sts).
Proof.
  induction l as [|[shader type] l IH]; intros s c Hc Hst Hsi Hse Hsd Hdata.
  - subst c. exists s, [], [], [], []. simpl. rewrite !app_nil_r.
    repeat split; try done; constructor.
  - rewrite fmap_cons in Hc. simpl foldr in Hc.
    remember (foldr countSpecializationConstants noSpecializationCounts l.*1)
      as c' eqn:Hc'.
    destruct (countSpecializationConstants_fields shader c') as (F1 & F2 & F3).
    rewrite <- Hc in F1, F2, F3.
    destruct shader as [sh|].
    2:{ simpl in Hc. subst c.
        simpl addShaderStages.
        destruct (IH s c' eq_refl Hst Hsi Hse Hsd Hdata) as (r & sts & xi & xe & xd & H).
        exists r, sts, xi, xe, xd. exact H. }
    simpl in F1.
    simpl addShaderStages. unfold addShaderStage, makeShaderStageCreateInfo.
    destruct (Shader.specializationConstants sh) as [|c0 cs] eqn:Hcs.
    + (* no specialization constants *)
      simpl in F2.
      set (st := Build_PipelineShaderStageCreateInfo _ _ _ _).
      set (s1 := Build_ShaderStages _ _ _).
      destruct (push_back_fits st (shaderStages s)) as [P1 P2]; [lia|].
      destruct (IH s1 c' eq_refl) as (r & sts & xi & xe & xd & Hr & Hcap & Hdat & Hsts
                            & Hxi & Hxe & Hxd & Hvi & Hvs & Hdesc).
      * simpl. rewrite push_back_size, P2. lia.
      * simpl. lia.
      * simpl. lia.
      * simpl. lia.
      * simpl. intros Hpos. apply Hdata. lia.
      * simpl in Hr, Hcap, Hdat, Hsts, Hxi, Hxe, Hxd.
        exists r, (st :: sts), xi, xe, xd.
        split; [exact Hr|].
        split; [rewrite P1, P2 in Hcap; exact Hcap|].
        split; [exact Hdat|].
        split; [rewrite push_back_elems, <- app_assoc in Hsts; simpl in *;
                destruct Hsts as [-> ->]; split; [done|lia]|].
        split; [destruct Hxi as [-> ->]; split; [done|lia]|].
        split; [destruct Hxe as [-> ->]; split; [done|lia]|].
        split; [destruct Hxd as [-> ->]; split; [done|lia]|].
        split; [exact Hvi|].
        split; [constructor; [by unfold validStage|exact Hvs]|].
        intros Hsmall. unfold presentShaders in *. simpl in *.
        apply Forall_cons in Hsmall as [_ Hsmall].
        constructor; [|by apply Hdesc].
        unfold stageDescribes. rewrite Hcs. done.
    + (* specialization constants *)
      simpl in F2.
      destruct Hdata as (D1 & D2 & D3); [lia|].
      rewrite (proj2 (N.eqb_neq _ _) D1), (proj2 (N.eqb_neq _ _) D2),
        (proj2 (N.eqb_neq _ _) D3). simpl orb. cbv iota.
      set (info := Build_SpecializationInfo _ _ _ _).
      set (st := Build_PipelineShaderStageCreateInfo _ _ _ _).
      set (pushed := pushSpecializationConstants (c0 :: cs) 0
                       (specMapEntries (specVectors s)) (specData (specVectors s))).
      set (s1 := Build_ShaderStages _ _ _).
      destruct (push_back_fits st (shaderStages s)) as [P1 P2]; [lia|].
      destruct (push_back_fits info (specInfos (specVectors s))) as [I1 I2]; [lia|].
      destruct (pushSpecializationConstants_fits (c0 :: cs) 0
                  (specMapEntries (specVectors s)) (specData (specVectors s)))
        as (E1 & E2 & E3 & E4); [simpl length; lia|simpl length; lia|].
      fold pushed in E1, E2, E3, E4.
      destruct (pushSpecializationConstants_elems (c0 :: cs) 0
                  (specMapEntries (specVectors s)) (specData (specVectors s)))
        as (es & Ees & Hes & Eds).
      fold pushed in Ees, Eds. simpl length in Hes.
      assert (Sz1 : vector.size pushed.1
                    = (vector.size (specMapEntries (specVectors s)) + S (length cs))%nat).
      { unfold vector.size. rewrite Ees, length_app. lia. }
      assert (Sz2 : vector.size pushed.2
                    = (vector.size (specData (specVectors s)) + S (length cs))%nat).
      { unfold vector.size. rewrite Eds, length_app, length_map. simpl. lia. }
      destruct (IH s1 c' eq_refl) as (r & sts & xi & xe & xd & Hr & Hcap & Hdat & Hsts
                            & Hxi & Hxe & Hxd & Hvi & Hvs & Hdesc).
      * simpl. rewrite push_back_size, P2. lia.
      * simpl. rewrite push_back_size, I2. lia.
      * simpl. rewrite Sz1, E2. lia.
      * simpl. rewrite Sz2, E4. lia.
      * simpl. intros _. rewrite I1, E1, E3. done.
      * simpl in Hr, Hcap, Hdat, Hsts, Hxi, Hxe, Hxd.
        rewrite P1, P2, I2, E2, E4 in Hcap. rewrite I1, E1, E3 in Hdat.
        rewrite push_back_elems, <- app_assoc in Hsts.
        rewrite push_back_elems, <- app_assoc in Hxi.
        rewrite Ees, <- app_assoc in Hxe. rewrite Eds, <- app_assoc in Hxd.
        destruct Hsts as [Hsts1 Hsts2]. destruct Hxi as [Hxi1 Hxi2].
        destruct Hxe as [Hxe1 Hxe2]. destruct Hxd as [Hxd1 Hxd2].
        assert (Hext : stagesExtend s1 r).
        { unfold stagesExtend. simpl.
          destruct Hdat as (-> & -> & ->). rewrite I1, E1, E3.
          rewrite Hxi1, Hxe1, Hxd1, push_back_elems, Ees, Eds.
          repeat split; try done.
          - rewrite app_assoc. by eexists.
          - rewrite app_assoc. by eexists.
          - rewrite app_assoc. by eexists. }
        exists r, (st :: sts), ([info] ++ xi), (es ++ xe),
          (map ShaderSpecialization.value (c0 :: cs) ++ xd).
        split; [exact Hr|]. split; [exact Hcap|]. split; [exact Hdat|].
        split; [split; [exact Hsts1|simpl; lia]|].
        split; [split; [exact Hxi1|simpl; lia]|].
        split; [split; [exact Hxe1|rewrite length_app; lia]|].
        split; [split; [exact Hxd1|rewrite length_app, length_map; simpl; lia]|].
        assert (Hvinfo : validInfo s1 info).
        { unfold validInfo, pointsInto. simpl.
          rewrite E1, E3, Sz1, Sz2.
          assert (Hpow : 2 ^ 32 < 2 ^ 64) by (vm_compute; reflexivity).
          pose proof (N.Div0.mod_le (N.of_nat (S (length cs))) (2 ^ 32)).
          pose proof (N.Div0.mod_le (N.of_nat (S (length cs)) * 4) (2 ^ 64)).
          pose proof (N.Div0.div_le_mono _ _ 4 H0) as Hdiv.
          rewrite N.div_mul in Hdiv by lia.
          repeat split; lia. }
        assert (Hvstage : validStage s1 st).
        { unfold validStage, pointsInto. simpl.
          rewrite I1, push_back_size. split; [done|lia]. }
        split; [constructor; [by eapply validInfo_mono|exact Hvi]|].
        split; [constructor; [by eapply validStage_mono|exact Hvs]|].
        intros Hsmall. unfold presentShaders in *. simpl in *.
        apply Forall_cons in Hsmall as [Hsmall1 Hsmall].
        constructor; [|by apply Hdesc].
        eapply stageDescribes_mono; [exact Hext|].
        unfold stageDescribes. rewrite Hcs.
        split; [done|]. split; [done|]. split; [done|].
        unfold constantBytes in Hsmall1. rewrite Hcs in Hsmall1.
        simpl length in Hsmall1.
        assert (Hpow : 2 ^ 32 < 2 ^ 64) by (vm_compute; reflexivity).
        exists {| allocation := vector.data (specInfos (specVectors s));
                  index := vector.size (specInfos (specVectors s)) |}, info.
        split; [done|]. simpl specVectors. simpl specInfos.
        split.
        { rewrite push_back_elems. simpl index.
          by apply list_lookup_middle. }
        split.
        { simpl. apply N.mod_small. lia. }
        split.
        { simpl. rewrite N.mod_small by lia. lia. }
        intros k c1 Hk.
        eexists. split.
        { simpl. apply (pushSpecializationConstants_entries (c0 :: cs) 0); [|exact Hk].
          simpl length. lia. }
        split; [done|]. split; [done|].
        simpl. fold pushed. rewrite Eds.
        replace ((0 + 4 * N.of_nat k) `div` 4) with (N.of_nat k)
          by (rewrite N.add_0_l, N.mul_comm, N.div_mul; lia).
        rewrite Nat2N.id.
        rewrite lookup_app_r by (unfold vector.size; lia).
        replace (vector.size (specData (specVectors s)) + k
                 - length (vector.elems (specData (specVectors s))))%nat
          with k by (unfold vector.size; lia).
        change (ShaderSpecialization.value c0 :: map ShaderSpecialization.value cs)
          with (ShaderSpecialization.value <$> (c0 :: cs)).
        by rewrite list_lookup_fmap, Hk.
Qed.

Lemma setUpShaderStages_eq mask VS HS DS GS PS :
  setUpShaderStages mask VS HS DS GS PS
  = addShaderStages
      [(VS, ShaderType.Vertex); (HS, ShaderType.Hull); (DS, ShaderType.Domain);
       (GS, ShaderType.Geometry); (PS, ShaderType.Pixel)]
      (reservedStages (countStages VS HS DS GS PS) mask).
Proof.
  unfold setUpShaderStages. simpl.
  do 4 (destruct (addShaderStage _ _ _); simpl; [|done]).
  by destruct (addShaderStage _ _ _).
Qed.

Lemma countStages_fields VS HS DS GS PS :
  let c := countStages VS HS DS GS PS in
  let c' := foldr countSpecializationConstants noSpecializationCounts
              [VS; HS; DS; GS; PS] in
  numShaders c = numShaders c'
  /\ numShadersWithSpecializations c = numShadersWithSpecializations c'
  /\ numSpecializationConstants c = numSpecializationConstants c'.
Proof.
  unfold countStages. simpl foldr.
  rewrite !(proj1 (countSpecializationConstants_fields _ _)).
  rewrite !(proj1 (proj2 (countSpecializationConstants_fields _ _))).
  rewrite !(proj2 (proj2 (countSpecializationConstants_fields _ _))).
  simpl. lia.
Qed.

Lemma reserve_empty {T : Type} n :
  vector.elems (vector.reserve n (@vector.empty T)) = []
  /\ vector.capacity (vector.reserve n (@vector.empty T)) = n
  /\ ((0 < n)%nat -> vector.data (vector.reserve n (@vector.empty T)) <> 0).
Proof.
  unfold vector.reserve, vector.empty. simpl.
  destruct (Nat.ltb_spec 0 n); simpl; repeat split; try done; lia.
Qed.

Lemma withSpecializations_constants l :
  let c := foldr countSpecializationConstants noSpecializationCounts l in
  (0 < numShadersWithSpecializations c)%nat ->
  (0 < numSpecializationConstants c)%nat.
Proof.
  induction l as [|sh l IH]; simpl; [lia|].
  destruct (countSpecializationConstants_fields sh
              (foldr countSpecializationConstants noSpecializationCounts l))
    as (F1 & F2 & F3).
  rewrite F2, F3. simpl in IH.
  destruct sh as [sh|]; [|rewrite !Nat.add_0_r; exact IH].
  destruct (Shader.specializationConstants sh); simpl; [|lia].
  rewrite !Nat.add_0_r. exact IH.
Qed.

Lemma setUpShaderStages_spec mask VS HS DS GS PS :
  let c := countStages VS HS DS GS PS in
  let s := reservedStages c mask in
  exists r,
    setUpShaderStages mask VS HS DS GS PS = Some r
    /\ (vector.data (shaderStages r) = vector.data (shaderStages s)
        /\ vector.data (specInfos (specVectors r))
           = vector.data (specInfos (specVectors s))
        /\ vector.data (specMapEntries (specVectors r))
           = vector.data (specMapEntries (specVectors s))
        /\ vector.data (specData (specVectors r))
           = vector.data (specData (specVectors s)))
    /\ (vector.size (shaderStages r) = numShaders c
        /\ vector.size (specInfos (specVectors r))
           = numShadersWithSpecializations c
        /\ vector.size (specMapEntries (specVectors r))
           = numSpecializationConstants c
        /\ vector.size (specData (specVectors r))
           = numSpecializationConstants c)
    /\ Forall (validStage r) (vector.elems (shaderStages r))
    /\ Forall (validInfo r) (vector.elems (specInfos (specVectors r)))
    /\ (Forall (fun sh => constantBytes sh <= 2 ^ 32)
          (presentShaders [VS; HS; DS; GS; PS]) ->
        Forall2 (stageDescribes r) (presentShaders [VS; HS; DS; GS; PS])
          (vector.elems (shaderStages r))).
Proof.
  intros c s. rewrite setUpShaderStages_eq. fold c. fold s.
  destruct (countStages_fields VS HS DS GS PS) as (C1 & C2 & C3). fold c in C1, C2, C3.
  set (l := [(VS, ShaderType.Vertex); (HS, ShaderType.Hull); (DS, ShaderType.Domain);
             (GS, ShaderType.Geometry); (PS, ShaderType.Pixel)]).
  assert (Hl : l.*1 = [VS; HS; DS; GS; PS]) by reflexivity.
  pose proof (withSpecializations_constants [VS; HS; DS; GS; PS]) as Hpos.
  remember (foldr countSpecializationConstants noSpecializationCounts
              [VS; HS; DS; GS; PS]) as c' eqn:Hc'.
  simpl in Hpos.
  destruct (@reserve_empty PipelineShaderStageCreateInfo (numShaders c))
    as (R1 & R2 & R3).
  destruct (@reserve_empty SpecializationInfo (numShadersWithSpecializations c))
    as (I1 & I2 & I3).
  destruct (@reserve_empty SpecializationMapEntry (numSpecializationConstants c))
    as (E1 & E2 & E3).
  destruct (@reserve_empty N (numSpecializationConstants c)) as (D1 & D2 & D3).
  destruct (addShaderStages_spec l s c') as
    (r & sts & xi & xe & xd & Hr & Hcap & Hdat & Hsts & Hxi & Hxe & Hxd
     & Hvi & Hvs & Hdesc).
  - by rewrite Hl.
  - unfold vector.size. subst s. simpl. rewrite R1, R2. simpl. lia.
  - unfold vector.size. subst s. simpl. rewrite I1, I2. simpl. lia.
  - unfold vector.size. subst s. simpl. rewrite E1, E2. simpl. lia.
  - unfold vector.size. subst s. simpl. rewrite D1, D2. simpl. lia.
  - intros H. subst s. simpl. split; [apply I3; lia|].
    split; [apply E3|apply D3]; rewrite C3; apply Hpos; lia.
  - exists r. split; [exact Hr|].
    destruct Hcap as (K1 & _). destruct Hdat as (K2 & K3 & K4).
    split; [done|].
    destruct Hsts as [Hs1 Hs2]. destruct Hxi as [Hi1 Hi2].
    destruct Hxe as [He1 He2]. destruct Hxd as [Hd1 Hd2].
    subst s. simpl in Hs1, Hi1, He1, Hd1.
    rewrite R1 in Hs1. rewrite I1 in Hi1. rewrite E1 in He1. rewrite D1 in Hd1.
    simpl in Hs1, Hi1, He1, Hd1.
    split.
    { unfold vector.size. rewrite Hs1, Hi1, He1, Hd1. repeat split; lia. }
    rewrite Hs1, Hi1. split; [exact Hvs|]. split; [exact Hvi|].
    rewrite Hl in Hdesc. exact Hdesc.
Qed.

(** X2: the vectors reserved by [createGraphicsPipeline] are never
    reallocated while the shader stages are set up: every [assert] of
    [makeShaderStageCreateInfo] holds, each vector ends in the allocation it
    got from [reserve] with exactly the reserved number of elements, and
    every pointer stored in a stage or a specialization info refers to
    elements of the final vectors. *)
Theorem shader_stage_pointers_stay_valid mask VS HS DS GS PS :
  let c := countStages VS HS DS GS PS in
  let s := reservedStages c mask in
  exists r,
    setUpShaderStages mask VS HS DS GS PS = Some r
    /\ (vector.data (shaderStages r) = vector.data (shaderStages s)
        /\ vector.data (specInfos (specVectors r))
           = vector.data (specInfos (specVectors s))
        /\ vector.data (specMapEntries (specVectors r))
           = vector.data (specMapEntries (specVectors s))
        /\ vector.data (specData (specVectors r))
           = vector.data (specData (specVectors s)))
    /\ (vector.size (shaderStages r) = numShaders c
        /\ vector.size (specInfos (specVectors r))
           = numShadersWithSpecializations c
        /\ vector.size (specMapEntries (specVectors r))
           = numSpecializationConstants c
        /\ vector.size (specData (specVectors r))
           = numSpecializationConstants c)
    /\ Forall (validStage r) (vector.elems (shaderStages r))
    /\ Forall (validInfo r) (vector.elems (specInfos (specVectors r))).
Proof.
  intros c s.
  destruct (setUpShaderStages_spec mask VS HS DS GS PS)
    as (r & H1 & H2 & H3 & H4 & H5 & _).
  exists r. done.
Qed.

(** X3: the stages built by [createGraphicsPipeline] come in the order
    vertex, hull, domain, geometry, pixel, one per shader that is present,
    and each stage leads back to its shader's specialization constants. *)
Theorem shader_stages_describe_their_shaders mask VS HS DS GS PS :
  Forall (fun sh => constantBytes sh <= 2 ^ 32)
    (presentShaders [VS; HS; DS; GS; PS]) ->
  exists r,
    setUpShaderStages mask VS HS DS GS PS = Some r
    /\ Forall2 (stageDescribes r) (presentShaders [VS; HS; DS; GS; PS])
         (vector.elems (shaderStages r)).
Proof.
  intros Hsmall.
  destruct (setUpShaderStages_spec mask VS HS DS GS PS)
    as (r & H1 & _ & _ & _ & _ & H6).
  exists r. split; [exact H1|]. by apply H6.
Qed.

(** ** Equality and hashing: results *)

Lemma BindingSetItem_eqb_fields a b :
  BindingSetItem.eqb a b = true
  <-> BindingSetItem.resourceHandle a = BindingSetItem.resourceHandle b
      /\ BindingSetItem.slot a = BindingSetItem.slot b
      /\ BindingSetItem.type a = BindingSetItem.type b
      /\ BindingSetItem.dimension a = BindingSetItem.dimension b
      /\ BindingSetItem.format a = BindingSetItem.format b
      /\ BindingSetItem.rawData a = BindingSetItem.rawData b.
Proof.
  unfold BindingSetItem.eqb.
  rewrite !andb_true_iff, !N.eqb_eq, bool_decide_eq_true.
  destruct (BindingSetItem.rawData a), (BindingSetItem.rawData b). simpl.
  split; [intros ((((((-> & ->) & ->) & ->) & ->) & ->) & ->)|]; [done|].
  intros (-> & -> & -> & -> & -> & [= -> ->]). done.
Qed.

Lemma BindingSetItem_hash_eqb H a b :
  BindingSetItem.eqb a b = true -> BindingSetItem.hash H a = BindingSetItem.hash H b.
Proof.
  intros (E1 & E2 & E3 & E4 & E5 & E6)%BindingSetItem_eqb_fields.
  unfold BindingSetItem.hash. by rewrite E1, E2, E3, E4, E5, E6.
Qed.

(** X13: binding set items that compare equal hash equal, whatever
    [std::hash] does on the member types, and the comparison does not look
    at [arrayElement]: an item stays equal to [b] when its array element is
    changed. *)
Theorem BindingSetItem_hash_respects_equality H a b :
  BindingSetItem.eqb a b = true ->
  BindingSetItem.hash H a = BindingSetItem.hash H b
  /\ forall value,
       BindingSetItem.eqb (BindingSetItem.setArrayElement value a) b = true
       /\ BindingSetItem.hash H (BindingSetItem.setArrayElement value a)
          = BindingSetItem.hash H b.
Proof.
  intros E. split; [by apply BindingSetItem_hash_eqb|].
  intros value.
  assert (E' : BindingSetItem.eqb (BindingSetItem.setArrayElement value a) b = true)
    by exact E.
  split; [exact E'|by apply BindingSetItem_hash_eqb].
Qed.

Lemma bindingsEqual_hash H a : forall b seed,
  length a = length b ->
  BindingSetDesc.bindingsEqual a b = true ->
  foldl (hash_combine (BindingSetItem.hash H)) seed a
  = foldl (hash_combine (BindingSetItem.hash H)) seed b.
Proof.
  induction a as [|x a IH]; intros [|y b] seed Hlen Heq; try done.
  simpl in *. unfold BindingSetItem.neqb in Heq.
  destruct (BindingSetItem.eqb x y) eqn:E; [|done]. simpl in Heq.
  unfold hash_combine at 2 4.
  rewrite (BindingSetItem_hash_eqb H x y E).
  apply IH; [lia|done].
Qed.

(** X14: binding set descriptions that compare equal hash equal, and the
    comparison looks at the bindings alone, not at [trackLiveness]. *)
Theorem BindingSetDesc_hash_respects_equality H a b :
  BindingSetDesc.eqb a b = true ->
  BindingSetDesc.hash H a = BindingSetDesc.hash H b
  /\ length (BindingSetDesc.bindings a) = length (BindingSetDesc.bindings b)
  /\ (forall i x y,
        BindingSetDesc.bindings a !! i = Some x ->
        BindingSetDesc.bindings b !! i = Some y ->
        BindingSetItem.eqb x y = true)
  /\ forall value,
       BindingSetDesc.eqb (BindingSetDesc.setTrackLiveness value a) b = true.
Proof.
  unfold BindingSetDesc.eqb. intros E.
  destruct (Nat.eqb_spec (length (BindingSetDesc.bindings a))
              (length (BindingSetDesc.bindings b))) as [Hlen|]; [|done].
  simpl in E.
  split; [by apply bindingsEqual_hash|]. split; [done|].
  split; [|intros value; simpl; rewrite Hlen, Nat.eqb_refl; exact E].
  clear Hlen. revert E. generalize (BindingSetDesc.bindings b).
  induction (BindingSetDesc.bindings a) as [|x0 l IH]; intros [|y0 l'] E i x y Hx Hy;
    try done.
  simpl in E. unfold BindingSetItem.neqb in E.
  destruct (BindingSetItem.eqb x0 y0) eqn:E0; [|done].
  destruct i as [|i]; simpl in *; [congruence|]. by eapply IH.
Qed.

Lemma formatsEqualFrom_spec a : forall b,
  length a = length b ->
  (FramebufferInfo.formatsEqualFrom a b = true <-> a = b).
Proof.
  induction a as [|x a IH]; intros [|y b] Hlen; try done.
  simpl in *. destruct (N.eqb_spec x y) as [->|Hne]; simpl.
  - rewrite IH by lia. split; [by intros ->|by intros [= ->]].
  - split; [done|]. by intros [= -> ->].
Qed.

(** X15: two framebuffer infos compare equal exactly when all their fields
    match: the color formats in number and one by one, the depth format,
    the sample count and the sample quality. *)
Theorem FramebufferInfo_equality_is_field_wise a b :
  FramebufferInfo.eqb a b = true <-> a = b.
Proof.
  unfold FramebufferInfo.eqb, FramebufferInfo.formatsEqual.
  rewrite !andb_true_iff, !N.eqb_eq.
  destruct a as [ca da sa qa], b as [cb db sb qb]. simpl.
  destruct (Nat.eqb_spec (length ca) (length cb)) as [Hlen|Hlen]; simpl.
  - rewrite formatsEqualFrom_spec by done.
    split; [by intros (((-> & ->) & ->) & ->)|by intros [= -> -> -> ->]].
  - split; [by intros ((([=] & _) & _) & _)|].
    intros [= -> -> -> ->]. done.
Qed.

(** ** Framebuffer views: results *)

(** X1: [getDimensionForFramebuffer] never returns a cube or 3D dimension,
    never returns an array dimension when a single layer is asked for,
    changes nothing else, and applying it again changes nothing. *)
Theorem getDimensionForFramebuffer_is_renderable dimension isArray :
  let r := getDimensionForFramebuffer dimension isArray in
  let single := getDimensionForFramebuffer dimension false in
  (r <> TextureDimension.TextureCube
   /\ r <> TextureDimension.TextureCubeArray
   /\ r <> TextureDimension.Texture3D)
  /\ (single <> TextureDimension.Texture1DArray
      /\ single <> TextureDimension.Texture2DArray
      /\ single <> TextureDimension.Texture2DMSArray)
  /\ getDimensionForFramebuffer r isArray = r
  /\ (r = dimension
      \/ dimension ∈ [TextureDimension.TextureCube;
                      TextureDimension.TextureCubeArray;
                      TextureDimension.Texture3D]
      \/ (isArray = false
          /\ dimension ∈ [TextureDimension.Texture1DArray;
                          TextureDimension.Texture2DArray;
                          TextureDimension.Texture2DMSArray])).
Proof.
  destruct dimension, isArray; simpl;
    (split; [by repeat split|]); (split; [by repeat split|]);
    (split; [reflexivity|]);
    first [ by left
          | right; left; set_solver
          | right; right; split; [reflexivity|set_solver] ].
Qed.

(** ** The shader mask *)

Lemma lor_lt_pow2 a b n : a < 2 ^ n -> b < 2 ^ n -> N.lor a b < 2 ^ n.
Proof.
  intros Ha Hb.
  destruct (N.eq_dec (N.lor a b) 0) as [->|Hne].
  { apply N.neq_0_lt_0. by apply N.pow_nonzero. }
  apply N.log2_lt_pow2; [lia|].
  rewrite N.log2_lor. apply N.max_lub_lt.
  - destruct (N.eq_dec a 0) as [->|Ha0].
    + simpl. destruct (N.eq_dec n 0) as [->|]; [|lia].
      simpl in *. assert (b = 0) by lia. subst. done.
    + apply N.log2_lt_pow2; lia.
  - destruct (N.eq_dec b 0) as [->|Hb0].
    + simpl. destruct (N.eq_dec n 0) as [->|]; [|lia].
      simpl in *. assert (a = 0) by lia. subst. done.
    + apply N.log2_lt_pow2; lia.
Qed.

Lemma addShaderStage_shaderMask shader type s r :
  addShaderStage shader type s = Some r ->
  shaderMask r
  = match shader with
    | Some _ => ShaderType.or (shaderMask s) type
    | None => shaderMask s
    end.
Proof.
  unfold addShaderStage. destruct shader as [sh|]; [|by intros [= <-]].
  destruct (makeShaderStageCreateInfo sh (specVectors s)) as [[info v]|]; [|done].
  by intros [= <-].
Qed.

(** X4: after the shader stages are set up, the shader mask of the pipeline
    holds the bits it had before and the bit of every stage whose shader is
    present, and no other. *)
Theorem shader_mask_marks_the_present_stages mask VS HS DS GS PS r :
  mask < 2 ^ 16 ->
  setUpShaderStages mask VS HS DS GS PS = Some r ->
  let bit (shader : option Shader.t) (type : N) :=
    match shader with Some _ => type | None => 0 end in
  shaderMask r
  = N.lor mask
      (N.lor (bit VS ShaderType.Vertex)
         (N.lor (bit HS ShaderType.Hull)
            (N.lor (bit DS ShaderType.Domain)
               (N.lor (bit GS ShaderType.Geometry) (bit PS ShaderType.Pixel))))).
Proof.
  intros Hmask. unfold setUpShaderStages.
  destruct (addShaderStage VS _ _) as [s1|] eqn:E1; [|done]. simpl.
  destruct (addShaderStage HS _ _) as [s2|] eqn:E2; [|done]. simpl.
  destruct (addShaderStage DS _ _) as [s3|] eqn:E3; [|done]. simpl.
  destruct (addShaderStage GS _ _) as [s4|] eqn:E4; [|done]. simpl.
  intros E5.
  apply addShaderStage_shaderMask in E1, E2, E3, E4, E5. simpl in E1.
  assert (Hor : forall a b, a < 2 ^ 16 -> b < 2 ^ 16 ->
                  ShaderType.or a b = N.lor a b /\ N.lor a b < 2 ^ 16).
  { intros a b Ha Hb. pose proof (lor_lt_pow2 a b 16 Ha Hb).
    split; [|done]. unfold ShaderType.or. by apply N.mod_small. }
  assert (B1 : shaderMask s1 < 2 ^ 16
               /\ shaderMask s1
                  = N.lor mask (match VS with Some _ => ShaderType.Vertex | None => 0 end)).
  { rewrite E1. destruct VS; [|by rewrite N.lor_0_r].
    destruct (Hor mask ShaderType.Vertex) as [-> ?]; [done|by vm_compute|done]. }
  destruct B1 as [L1 B1].
  assert (B2 : shaderMask s2 < 2 ^ 16
               /\ shaderMask s2
                  = N.lor (shaderMask s1)
                      (match HS with Some _ => ShaderType.Hull | None => 0 end)).
  { rewrite E2. destruct HS; [|by rewrite N.lor_0_r].
    destruct (Hor (shaderMask s1) ShaderType.Hull) as [-> ?]; [done|by vm_compute|done]. }
  destruct B2 as [L2 B2].
  assert (B3 : shaderMask s3 < 2 ^ 16
               /\ shaderMask s3
                  = N.lor (shaderMask s2)
                      (match DS with Some _ => ShaderType.Domain | None => 0 end)).
  { rewrite E3. destruct DS; [|by rewrite N.lor_0_r].
    destruct (Hor (shaderMask s2) ShaderType.Domain) as [-> ?]; [done|by vm_compute|done]. }
  destruct B3 as [L3 B3].
  assert (B4 : shaderMask s4 < 2 ^ 16
               /\ shaderMask s4
                  = N.lor (shaderMask s3)
                      (match GS with Some _ => ShaderType.Geometry | None => 0 end)).
  { rewrite E4. destruct GS; [|by rewrite N.lor_0_r].
    destruct (Hor (shaderMask s3) ShaderType.Geometry) as [-> ?]; [done|by vm_compute|done]. }
  destruct B4 as [L4 B4].
  assert (B5 : shaderMask r
               = N.lor (shaderMask s4)
                   (match PS with Some _ => ShaderType.Pixel | None => 0 end)).
  { rewrite E5. destruct PS; [|by rewrite N.lor_0_r].
    by destruct (Hor (shaderMask s4) ShaderType.Pixel) as [-> ?]; [done|by vm_compute|]. }
  cbv zeta. rewrite B5, B4, B3, B2, B1. by rewrite !N.lor_assoc.
Qed.

(** ** The results on concrete recordings *)

(** C1 fails as stated: the cache holds [Demo.stateA]; setting the same
    bundle with another pipeline binds the pipeline and re-issues the
    dynamic state, but re-binds neither the binding sets nor the vertex
    buffers nor the index buffer. *)
Lemma pipeline_change_keeps_equal_bindings :
  let run := setGraphicsState Demo.graphicsPipelineAt Demo.framebufferAt
               Demo.trackResourcesAndBarriers Demo.convertShadingRateCombiner
               Demo.convertFragmentShadingRate in
  let cl := default initialCommandList (run initialCommandList Demo.stateA) in
  let cl' := default initialCommandList (run cl Demo.stateB) in
  run initialCommandList Demo.stateA = Some cl
  /\ run cl Demo.stateB = Some cl'
  /\ GraphicsState.pipeline (m_CurrentGraphicsState cl)
     <> GraphicsState.pipeline Demo.stateB
  /\ newCalls cl cl'
     = [BindPipeline 102; SetStencilReference 0; SetBlendConstants Color.init]
  /\ existsb isBindDescriptorSets (newCalls cl cl') = false
  /\ existsb isBindVertexBuffers (newCalls cl cl') = false
  /\ existsb isBindIndexBuffer (newCalls cl cl') = false.
Proof.
  cbv zeta. split; [vm_compute; reflexivity|]. split; [vm_compute; reflexivity|].
  split; [vm_compute; discriminate|].
  split; [vm_compute; reflexivity|]. split; [vm_compute; reflexivity|].
  split; vm_compute; reflexivity.
Qed.

Lemma pipeline_change_reissues_witness :
  let run := setGraphicsState Demo.graphicsPipelineAt Demo.framebufferAt
               Demo.trackResourcesAndBarriers Demo.convertShadingRateCombiner
               Demo.convertFragmentShadingRate in
  let cl := default initialCommandList (run initialCommandList Demo.stateA) in
  let cl' := default initialCommandList (run cl Demo.stateB) in
  run cl Demo.stateB = Some cl'
  /\ GraphicsState.pipeline (m_CurrentGraphicsState cl)
     <> GraphicsState.pipeline Demo.stateB
  /\ BindPipeline 102 ∈ newCalls cl cl'
  /\ SetStencilReference 0 ∈ newCalls cl cl'.
Proof.
  intros run cl cl'.
  assert (H1 : run cl Demo.stateB = Some cl') by (vm_compute; reflexivity).
  assert (H2 : GraphicsState.pipeline (m_CurrentGraphicsState cl)
               <> GraphicsState.pipeline Demo.stateB) by (vm_compute; discriminate).
  pose proof (pipeline_change_reissues _ _ _ _ _ _ _ _ H1 H2) as (P1 & P2 & _).
  split; [exact H1|]. split; [exact H2|]. split; [exact P1|].
  apply P2. reflexivity.
Defined.

Lemma setGraphicsState_resets_other_states_witness :
  let run := setGraphicsState Demo.graphicsPipelineAt Demo.framebufferAt
               Demo.trackResourcesAndBarriers Demo.convertShadingRateCombiner
               Demo.convertFragmentShadingRate in
  let cl := DemoStates.afterOtherPipelines in
  let cl' := default initialCommandList (run cl Demo.stateA) in
  run cl Demo.stateA = Some cl'
  /\ (m_CurrentComputeState cl <> ComputeState.init
      /\ m_CurrentMeshletState cl <> MeshletState.init
      /\ m_CurrentRayTracingState cl <> rt_State.init
      /\ m_AnyVolatileBufferWrites cl = true)
  /\ (m_CurrentGraphicsState cl' = Demo.stateA
      /\ m_CurrentComputeState cl' = ComputeState.init
      /\ m_CurrentMeshletState cl' = MeshletState.init
      /\ m_CurrentRayTracingState cl' = rt_State.init
      /\ m_AnyVolatileBufferWrites cl' = false)
  /\ ptr_neqb (MeshletState.pipeline (m_CurrentMeshletState cl))
       (GraphicsState.pipeline Demo.stateA) = false
  /\ ptr_neqb (MeshletState.pipeline (m_CurrentMeshletState cl'))
       (GraphicsState.pipeline Demo.stateA) = true
  /\ arraysAreDifferent ptr_neqb
       (ComputeState.bindings (m_CurrentComputeState cl))
       (GraphicsState.bindings Demo.stateA) = false
  /\ arraysAreDifferent ptr_neqb
       (ComputeState.bindings (m_CurrentComputeState cl'))
       (GraphicsState.bindings Demo.stateA) = true
  /\ renderPassActive cl' = true.
Proof.
  intros run cl cl'.
  assert (H1 : run cl Demo.stateA = Some cl') by (vm_compute; reflexivity).
  destruct (setGraphicsState_resets_other_states _ _ _ _ _ _ _ _ H1)
    as (P1 & P2 & P3 & P4).
  split; [exact H1|].
  split; [repeat split; (discriminate || reflexivity)|].
  split; [exact P1|].
  split; [reflexivity|].
  split; [apply (P2 (GraphicsState.pipeline Demo.stateA)); discriminate|].
  split; [reflexivity|].
  split; [apply (P3 (GraphicsState.bindings Demo.stateA)); discriminate|].
  exact P4.
Defined.

Lemma setGraphicsState_twice_witness :
  let run := setGraphicsState Demo.graphicsPipelineAt Demo.framebufferAt
               Demo.trackResourcesAndBarriers Demo.convertShadingRateCombiner
               Demo.convertFragmentShadingRate in
  let state := DemoStates.stateViewport in
  let cl1 := default initialCommandList (run initialCommandList state) in
  run initialCommandList state = Some cl1
  /\ existsb isSetScissor (newCalls initialCommandList cl1) = true
  /\ exists cl2,
       run cl1 state = Some cl2
       /\ existsb isBindPipeline (newCalls cl1 cl2) = false
       /\ existsb isRebind (newCalls cl1 cl2) = false
       /\ existsb isSetScissor (newCalls cl1 cl2) = false
       /\ existsb isSetStencilReference (newCalls cl1 cl2) = false
       /\ existsb isSetViewport (newCalls cl1 cl2) = false
       /\ existsb isSetBlendConstants (newCalls cl1 cl2) = false
       /\ existsb isSetFragmentShadingRate (newCalls cl1 cl2) = false.
Proof.
  intros run state cl1.
  assert (H1 : run initialCommandList state = Some cl1)
    by (vm_compute; reflexivity).
  split; [exact H1|]. split; [reflexivity|].
  destruct (setGraphicsState_twice _ _ _ _ _ _ _ _ H1)
    as (cl2 & E & P1 & P2 & _ & (P3 & P4 & P5 & P6 & P7) & _).
  exists cl2. split; [exact E|]. split; [exact P1|]. split; [exact P2|].
  split; [exact P3|]. split; [exact P4|]. split; [exact P5|].
  split; [exact P6 | exact P7].
Defined.

(** C2 fails as stated: a bundle with variable-rate shading enabled is set
    twice in a row.  The second call finds the cache equal to the bundle
    and still records the shading-rate call, which is not compared with
    the cached state. *)
Lemma identical_bundle_sets_shading_rate_again :
  let run := setGraphicsState Demo.graphicsPipelineAt Demo.framebufferAt
               Demo.trackResourcesAndBarriers Demo.convertShadingRateCombiner
               Demo.convertFragmentShadingRate in
  let state := DemoStates.stateShadingRate in
  let cl1 := default initialCommandList (run initialCommandList state) in
  let cl2 := default initialCommandList (run cl1 state) in
  run initialCommandList state = Some cl1
  /\ run cl1 state = Some cl2
  /\ m_CurrentGraphicsState cl1 = state
  /\ newCalls cl1 cl2 = [SetFragmentShadingRateKHR (2, 2) 0 1].
Proof.
  cbv zeta. split; [vm_compute; reflexivity|]. split; [vm_compute; reflexivity|].
  split; vm_compute; reflexivity.
Qed.

Lemma setGraphicsState_commits_barriers_first_witness :
  let run := setGraphicsState Demo.graphicsPipelineAt Demo.framebufferAt
               Demo.trackResourcesAndBarriers Demo.convertShadingRateCombiner
               Demo.convertFragmentShadingRate in
  let cl' := default initialCommandList (run initialCommandList Demo.stateA) in
  let pending :=
    pendingBarriers
      (m_StateTracker
         (trackBarriers Demo.trackResourcesAndBarriers Demo.stateA
            initialCommandList)) in
  run initialCommandList Demo.stateA = Some cl'
  /\ pending <> []
  /\ pendingBarriers (m_StateTracker cl') = []
  /\ exists pre post,
       newCalls initialCommandList cl' = pre ++ PipelineBarrier pending :: post
       /\ existsb isBeginRendering pre = false.
Proof.
  intros run cl' pending.
  assert (H1 : run initialCommandList Demo.stateA = Some cl')
    by (vm_compute; reflexivity).
  assert (H2 : pending <> []) by (vm_compute; discriminate).
  destruct (setGraphicsState_commits_barriers_first _ _ _ _ _ _ _ _ H1 H2)
    as (pre & post & E & Hb & _ & _ & _ & _ & Hp & _).
  split; [exact H1|]. split; [exact H2|]. split; [exact Hp|].
  exists pre, post. split; [exact E | exact Hb].
Defined.

(** C4 fails as stated: a barrier on the bound vertex buffer is requested
    after [setGraphicsState]; the draw that follows is recorded without any
    flush and the barrier is still pending afterwards. *)
Lemma draw_does_not_flush :
  let run := setGraphicsState Demo.graphicsPipelineAt Demo.framebufferAt
               Demo.trackResourcesAndBarriers Demo.convertShadingRateCombiner
               Demo.convertFragmentShadingRate in
  let cl1 := default initialCommandList (run initialCommandList Demo.stateA) in
  let cl2 := match setBufferState ∅ Demo.vertexBuffer ResourceStates.CopyDest cl1 with
             | Ok c => c
             | Err _ => cl1
             end in
  let args := DrawArguments.init in
  let cl3 := draw Demo.graphicsPipelineAt args cl2 in
  let cl4 := drawIndexed Demo.graphicsPipelineAt args cl2 in
  run initialCommandList Demo.stateA = Some cl1
  /\ pendingBarriers (m_StateTracker cl2)
     = [{| resource := 20; subresource := 0;
           stateBefore := ResourceStates.VertexBuffer;
           stateAfter := ResourceStates.CopyDest |}]
  /\ newCalls cl2 cl3 = [Draw 0 1 0 0]
  /\ pendingBarriers (m_StateTracker cl3) = pendingBarriers (m_StateTracker cl2)
  /\ newCalls cl2 cl4 = [DrawIndexed 0 1 0 0 0]
  /\ pendingBarriers (m_StateTracker cl4) = pendingBarriers (m_StateTracker cl2).
Proof.
  cbv zeta. split; [vm_compute; reflexivity|]. split; [vm_compute; reflexivity|].
  split; [vm_compute; reflexivity|]. split; [vm_compute; reflexivity|].
  split; vm_compute; reflexivity.
Qed.

Lemma draw_leaves_barriers_to_setGraphicsState_witness :
  let run := setGraphicsState Demo.graphicsPipelineAt Demo.framebufferAt
               Demo.trackResourcesAndBarriers Demo.convertShadingRateCombiner
               Demo.convertFragmentShadingRate in
  let cl' := default initialCommandList (run initialCommandList Demo.stateA) in
  run initialCommandList Demo.stateA = Some cl'
  /\ pendingBarriers (m_StateTracker cl') = []
  /\ pendingBarriers
       (m_StateTracker (draw Demo.graphicsPipelineAt DrawArguments.init cl')) = [].
Proof.
  intros run cl'.
  assert (H1 : run initialCommandList Demo.stateA = Some cl')
    by (vm_compute; reflexivity).
  destruct (draw_leaves_barriers_to_setGraphicsState _ _ _ _ _ _ _ _
              DrawArguments.init H1) as (P1 & P2 & _).
  split; [exact H1|]. split; [exact P1 | exact P2].
Defined.

Lemma at_most_one_render_pass_witness :
  let ops := [OpSetGraphicsState Demo.stateA; OpDraw DrawArguments.init;
              OpBeginRenderPass 6; OpEndRenderPass; OpEndRenderPass] in
  let run := runGraphicsOps Demo.graphicsPipelineAt Demo.framebufferAt
               Demo.trackResourcesAndBarriers Demo.convertShadingRateCombiner
               Demo.convertFragmentShadingRate in
  let cl' := default initialCommandList (run ops initialCommandList) in
  renderPassConsistent initialCommandList
  /\ run ops initialCommandList = Some cl'
  /\ renderPassConsistent cl'.
Proof.
  intros ops run cl'.
  assert (H1 : renderPassConsistent initialCommandList) by reflexivity.
  assert (H2 : run ops initialCommandList = Some cl') by (vm_compute; reflexivity).
  split; [exact H1|]. split; [exact H2|].
  exact (proj1 (at_most_one_render_pass _ _ _ _ _ _ _ _ H1 H2)).
Defined.

Lemma requireState_idempotent_witness :
  wellFormed emptyTracker
  /\ permanentState ∅ emptyTracker Demo.vertexBuffer = None
  /\ exists t1,
       requireState ∅ emptyTracker Demo.vertexBuffer [0%nat]
         ResourceStates.VertexBuffer = Ok t1
       /\ requireState ∅ t1 Demo.vertexBuffer [0%nat]
            ResourceStates.VertexBuffer = Ok t1
       /\ length (pendingFor t1 Demo.vertexBuffer 0) = 1%nat.
Proof.
  assert (H1 : wellFormed emptyTracker).
  { split; simpl; [apply NoDup_nil_2 | apply Forall_nil_2]. }
  assert (H2 : permanentState ∅ emptyTracker Demo.vertexBuffer = None)
    by reflexivity.
  split; [exact H1|]. split; [exact H2|].
  destruct (requireState_idempotent ∅ emptyTracker Demo.vertexBuffer [0%nat]
              ResourceStates.VertexBuffer H1 H2) as (t1 & E1 & E2 & C & _).
  exists t1. split; [exact E1|]. split; [exact E2|].
  apply C; [apply list_elem_of_here | vm_compute; discriminate].
Defined.

Lemma permanent_state_is_enforced_witness :
  let t1 := match pinPermanent ∅ emptyTracker Demo.vertexBuffer
                    ResourceStates.VertexBuffer with
            | Ok t => t
            | Err _ => emptyTracker
            end in
  let ops := [TRequireState Demo.vertexBuffer [0%nat] ResourceStates.CopyDest;
              TFlush] in
  let t2 := foldl (runTrackerOp ∅) t1 ops in
  pinPermanent ∅ emptyTracker Demo.vertexBuffer ResourceStates.VertexBuffer = Ok t1
  /\ requireState ∅ t2 Demo.vertexBuffer [0%nat] ResourceStates.CopyDest
     = Err PermanentStateViolation
  /\ requireState ∅ t2 Demo.vertexBuffer [0%nat] ResourceStates.VertexBuffer
     = Ok t2.
Proof.
  intros t1 ops t2.
  assert (H1 : pinPermanent ∅ emptyTracker Demo.vertexBuffer
                 ResourceStates.VertexBuffer = Ok t1) by (vm_compute; reflexivity).
  destruct (permanent_state_is_enforced ∅ emptyTracker Demo.vertexBuffer
              ResourceStates.VertexBuffer t1 ops H1) as (P1 & P2 & _).
  split; [exact H1|]. split; [|apply P2].
  apply P1. vm_compute. discriminate.
Defined.

Lemma setGraphicsState_returns_only_if_witness :
  let run := setGraphicsState Demo.graphicsPipelineAt Demo.framebufferAt
               Demo.trackResourcesAndBarriers Demo.convertShadingRateCombiner
               Demo.convertFragmentShadingRate in
  let state := DemoStates.stateViewport in
  let cl' := default initialCommandList (run initialCommandList state) in
  run initialCommandList state = Some cl'
  /\ GraphicsState.pipeline state <> nullptr
  /\ (forall sc, sc ∈ ViewportState.scissorRects (GraphicsState.viewport state) ->
                 (- 2 ^ 31 < Rect.maxX sc - Rect.minX sc < 2 ^ 31)%Z
                 /\ (- 2 ^ 31 < Rect.maxY sc - Rect.minY sc < 2 ^ 31)%Z)
  /\ SetScissor 0 1 [{| vk_offset := (640%Z, 0%Z); vk_extent := (640, 480) |}]
     ∈ newCalls initialCommandList cl'.
Proof.
  intros run state cl'.
  assert (H1 : run initialCommandList state = Some cl')
    by (vm_compute; reflexivity).
  destruct (setGraphicsState_returns_only_if _ _ _ _ _ _ _ _ H1) as (P1 & P2 & _).
  split; [exact H1|]. split; [exact P1|]. split.
  - apply P2; discriminate.
  - apply list_elem_of_In. vm_compute. tauto.
Defined.

(** C5 fails as stated: a session pins the buffer and is re-opened without
    having been executed; the later [requireState] with another state then
    succeeds and adds a barrier.  The same request succeeds in another
    session while the pinning command list has not been executed. *)
Lemma permanent_state_lapses_without_execution :
  let t1 := match pinPermanent ∅ emptyTracker Demo.vertexBuffer
                    ResourceStates.VertexBuffer with
            | Ok t => t
            | Err _ => emptyTracker
            end in
  let later := requireState ∅ (reopen t1) Demo.vertexBuffer [0%nat]
                 ResourceStates.CopyDest in
  let elsewhere := requireState ∅ emptyTracker Demo.vertexBuffer [0%nat]
                     ResourceStates.CopyDest in
  pinPermanent ∅ emptyTracker Demo.vertexBuffer ResourceStates.VertexBuffer = Ok t1
  /\ requireState ∅ t1 Demo.vertexBuffer [0%nat] ResourceStates.CopyDest
     = Err PermanentStateViolation
  /\ later <> Err PermanentStateViolation
  /\ pendingBarriers (match later with Ok t => t | Err _ => emptyTracker end)
     = [{| resource := 20; subresource := 0;
           stateBefore := ResourceStates.VertexBuffer;
           stateAfter := ResourceStates.CopyDest |}]
  /\ elsewhere <> Err PermanentStateViolation.
Proof.
  cbv zeta. split; [vm_compute; reflexivity|]. split; [vm_compute; reflexivity|].
  split; [vm_compute; discriminate|]. split; [vm_compute; reflexivity|].
  vm_compute. discriminate.
Qed.

(** C6 fails as stated: a session pins the buffer and is discarded without
    being executed.  The registry has no entry for the buffer, and another
    session may still transition it to a different state. *)
Lemma pin_is_abandoned_without_execution :
  let t1 := match pinPermanent ∅ emptyTracker Demo.vertexBuffer
                    ResourceStates.VertexBuffer with
            | Ok t => t
            | Err _ => emptyTracker
            end in
  pinPermanent ∅ emptyTracker Demo.vertexBuffer ResourceStates.VertexBuffer = Ok t1
  /\ executeCommandList ∅ (sessionWith Open t1) !! handle Demo.vertexBuffer = None
  /\ permanentState ∅ emptyTracker Demo.vertexBuffer = None
  /\ pendingBarriers
       (match requireState ∅ emptyTracker Demo.vertexBuffer [0%nat]
                ResourceStates.CopyDest with
        | Ok t => t
        | Err _ => emptyTracker
        end)
     = [{| resource := 20; subresource := 0;
           stateBefore := ResourceStates.Common;
           stateAfter := ResourceStates.CopyDest |}]
  /\ requireState ∅ emptyTracker Demo.vertexBuffer [0%nat] ResourceStates.CopyDest
     <> Err PermanentStateViolation.
Proof.
  cbv zeta. split; [vm_compute; reflexivity|]. split; [reflexivity|].
  split; [reflexivity|]. split; [vm_compute; reflexivity|].
  vm_compute. discriminate.
Qed.

Lemma permanent_state_applies_at_execution_witness :
  let t1 := match pinPermanent ∅ emptyTracker Demo.vertexBuffer
                    ResourceStates.VertexBuffer with
            | Ok t => t
            | Err _ => emptyTracker
            end in
  permanentState ∅ emptyTracker Demo.vertexBuffer = None
  /\ pinPermanent ∅ emptyTracker Demo.vertexBuffer ResourceStates.VertexBuffer
     = Ok t1
  /\ executeCommandList ∅ (sessionWith Open t1) = ∅
  /\ executeCommandList ∅ (sessionWith Closed t1) !! handle Demo.vertexBuffer
     = Some ResourceStates.VertexBuffer.
Proof.
  intros t1.
  assert (H1 : permanentState ∅ emptyTracker Demo.vertexBuffer = None)
    by reflexivity.
  assert (H2 : pinPermanent ∅ emptyTracker Demo.vertexBuffer
                 ResourceStates.VertexBuffer = Ok t1) by (vm_compute; reflexivity).
  destruct (permanent_state_applies_at_execution ∅ emptyTracker Demo.vertexBuffer
              ResourceStates.VertexBuffer t1 H1 H2) as (_ & _ & P3 & _ & P5 & _).
  split; [exact H1|]. split; [exact H2|]. split; [exact P3 | exact P5].
Defined.

Lemma keepInitialState_restores_at_close_witness :
  (∅ : Registry) !! (1 : Ptr) = None
  /\ exists s1 s2 s3,
       open newSession = Ok s1
       /\ whileOpen
            (setBufferState ∅
               {| handle := 1;
                  desc := enableAutomaticStateTracking ResourceStates.CopyDest
                            BufferDesc |}
               ResourceStates.CopySource) s1 = Ok s2
       /\ close ∅ s2 = Ok s3
       /\ getBufferState ∅
            {| handle := 1;
               desc := enableAutomaticStateTracking ResourceStates.CopyDest
                         BufferDesc |}
            (commandList s3) = ResourceStates.CopyDest.
Proof.
  assert (H1 : (∅ : Registry) !! (1 : Ptr) = None) by reflexivity.
  split; [exact H1|].
  destruct (keepInitialState_restores_at_close 1 ∅ H1)
    as (s1 & s2 & s3 & E1 & E2 & _ & E3 & _ & _ & _ & E4).
  exists s1, s2, s3. split; [exact E1|]. split; [exact E2|].
  split; [exact E3 | exact E4].
Defined.

Lemma shader_stages_describe_their_shaders_witness :
  let VS := Some DemoShaders.VS in
  let GS := Some DemoShaders.GS in
  let PS := Some DemoShaders.PS in
  Forall (fun sh => constantBytes sh <= 2 ^ 32)
    (presentShaders [VS; None; None; GS; PS])
  /\ exists r,
       setUpShaderStages ShaderType.None VS None None GS PS = Some r
       /\ Forall2 (stageDescribes r) (presentShaders [VS; None; None; GS; PS])
            (vector.elems (shaderStages r)).
Proof.
  intros VS GS PS.
  assert (H : Forall (fun sh => constantBytes sh <= 2 ^ 32)
                (presentShaders [VS; None; None; GS; PS])).
  { repeat constructor; vm_compute; discriminate. }
  split; [exact H|].
  exact (shader_stages_describe_their_shaders _ _ _ _ _ _ H).
Defined.

Lemma BindingSetItem_hash_respects_equality_witness :
  let a := DemoBindings.item in
  let b := BindingSetItem.setArrayElement 3 DemoBindings.item in
  BindingSetItem.eqb a b = true
  /\ BindingSetItem.hash DemoBindings.stdHash a
     = BindingSetItem.hash DemoBindings.stdHash b
  /\ forall value,
       BindingSetItem.eqb (BindingSetItem.setArrayElement value a) b = true
       /\ BindingSetItem.hash DemoBindings.stdHash
            (BindingSetItem.setArrayElement value a)
          = BindingSetItem.hash DemoBindings.stdHash b.
Proof.
  intros a b.
  assert (E : BindingSetItem.eqb a b = true) by (vm_compute; reflexivity).
  split; [exact E|].
  exact (BindingSetItem_hash_respects_equality DemoBindings.stdHash a b E).
Defined.

Lemma BindingSetDesc_hash_respects_equality_witness :
  let a := DemoBindings.desc in
  let b := BindingSetDesc.setTrackLiveness false
             {| BindingSetDesc.bindings :=
                  [BindingSetItem.setArrayElement 5 DemoBindings.item;
                   DemoBindings.item];
                BindingSetDesc.trackLiveness := true |} in
  BindingSetDesc.eqb a b = true
  /\ BindingSetDesc.hash DemoBindings.stdHash a
     = BindingSetDesc.hash DemoBindings.stdHash b
  /\ length (BindingSetDesc.bindings a) = length (BindingSetDesc.bindings b)
  /\ (forall i x y,
        BindingSetDesc.bindings a !! i = Some x ->
        BindingSetDesc.bindings b !! i = Some y ->
        BindingSetItem.eqb x y = true)
  /\ forall value,
       BindingSetDesc.eqb (BindingSetDesc.setTrackLiveness value a) b = true.
Proof.
  intros a b.
  assert (E : BindingSetDesc.eqb a b = true) by (vm_compute; reflexivity).
  split; [exact E|].
  exact (BindingSetDesc_hash_respects_equality DemoBindings.stdHash a b E).
Defined.

Lemma shader_mask_marks_the_present_stages_witness :
  let run := setUpShaderStages ShaderType.None (Some DemoShaders.VS) None None
               (Some DemoShaders.GS) (Some DemoShaders.PS) in
  let r := default (reservedStages noSpecializationCounts 0) run in
  ShaderType.None < 2 ^ 16
  /\ run = Some r
  /\ shaderMask r
     = N.lor ShaderType.None
         (N.lor ShaderType.Vertex
            (N.lor 0 (N.lor 0 (N.lor ShaderType.Geometry ShaderType.Pixel)))).
Proof.
  intros run r.
  assert (H1 : ShaderType.None < 2 ^ 16) by (vm_compute; reflexivity).
  assert (H2 : run = Some r) by (vm_compute; reflexivity).
  split; [exact H1|]. split; [exact H2|].
  exact (shader_mask_marks_the_present_stages _ _ _ _ _ _ _ H1 H2).
Defined.

Lemma cached_objects_are_kept_alive_witness :
  let run := runGraphicsOps Demo.graphicsPipelineAt Demo.framebufferAt
               Demo.trackResourcesAndBarriers Demo.convertShadingRateCombiner
               Demo.convertFragmentShadingRate
               [OpSetGraphicsState DemoStates.stateScattered;
                OpDraw DrawArguments.init;
                OpBeginRenderPass 6;
                OpSetGraphicsState Demo.stateB;
                OpEndRenderPass] in
  let cl' := default initialCommandList (run initialCommandList) in
  keptAlive initialCommandList
  /\ run initialCommandList = Some cl'
  /\ keptAlive cl'
  /\ keptResources initialCommandList `prefix_of` keptResources cl'.
Proof.
  intros run cl'.
  assert (H1 : keptAlive initialCommandList).
  { unfold keptAlive. simpl.
    split; [by left|]. split; [by left|]. split; [by left|].
    split; [by left|]. split; [by left|].
    intros b Hb. by apply not_elem_of_nil in Hb. }
  assert (H2 : run initialCommandList = Some cl') by (vm_compute; reflexivity).
  split; [exact H1|]. split; [exact H2|].
  exact (cached_objects_are_kept_alive _ _ _ _ _ _ _ _ H1 H2).
Defined.

Lemma vertex_buffers_are_bound_by_slot_witness :
  let run := setGraphicsState Demo.graphicsPipelineAt Demo.framebufferAt
               Demo.trackResourcesAndBarriers Demo.convertShadingRateCombiner
               Demo.convertFragmentShadingRate in
  let state := DemoStates.stateScattered in
  let cl' := default initialCommandList (run initialCommandList state) in
  run initialCommandList state = Some cl'
  /\ GraphicsState.vertexBuffers state <> []
  /\ GraphicsState.vertexBuffers state
     <> GraphicsState.vertexBuffers (m_CurrentGraphicsState initialCommandList)
  /\ exists count buffers offsets,
       BindVertexBuffers 0 count buffers offsets ∈ newCalls initialCommandList cl'
       /\ 1 <= count <= c_MaxVertexAttributes
       /\ length buffers = N.to_nat count.
Proof.
  intros run state cl'.
  assert (H1 : run initialCommandList state = Some cl') by (vm_compute; reflexivity).
  assert (H2 : GraphicsState.vertexBuffers state <> []) by (vm_compute; discriminate).
  assert (H3 : GraphicsState.vertexBuffers state
               <> GraphicsState.vertexBuffers
                    (m_CurrentGraphicsState initialCommandList))
    by (vm_compute; discriminate).
  split; [exact H1|]. split; [exact H2|]. split; [exact H3|].
  destruct (vertex_buffers_are_bound_by_slot _ _ _ _ _ _ _ _ H1 H2 H3)
    as (count & buffers & offsets & P1 & P2 & _ & _ & P5 & _).
  exists count, buffers, offsets. split; [exact P1|]. split; [exact P2|exact P5].
Defined.

Lemma setGraphicsState_repeat_records_nothing_witness :
  let run := setGraphicsState Demo.graphicsPipelineAt Demo.framebufferAt
               Demo.trackResourcesAndBarriers Demo.convertShadingRateCombiner
               Demo.convertFragmentShadingRate in
  let state := DemoStates.stateScattered in
  let cl1 := default initialCommandList (run initialCommandList state) in
  run initialCommandList state = Some cl1
  /\ existsb viewportHasNaN
       (ViewportState.viewports (GraphicsState.viewport state)) = false
  /\ colorHasNaN (GraphicsState.blendConstantColor state) = false
  /\ exists cl2, run cl1 state = Some cl2 /\ newCalls cl1 cl2 = [].
Proof.
  intros run state cl1.
  assert (H1 : run initialCommandList state = Some cl1) by (vm_compute; reflexivity).
  assert (H2 : existsb viewportHasNaN
                 (ViewportState.viewports (GraphicsState.viewport state)) = false)
    by (vm_compute; reflexivity).
  assert (H3 : colorHasNaN (GraphicsState.blendConstantColor state) = false)
    by (vm_compute; reflexivity).
  split; [exact H1|]. split; [exact H2|]. split; [exact H3|].
  destruct (setGraphicsState_repeat_records_nothing _ _ _ _ _ _ _ _ H1 H2 H3)
    as (cl2 & E & _ & P).
  exists cl2. split; [exact E|].
  apply P; vm_compute; reflexivity.
Defined.

Lemma nan_defeats_the_state_cache_witness :
  let run := setGraphicsState Demo.graphicsPipelineAt Demo.framebufferAt
               Demo.trackResourcesAndBarriers Demo.convertShadingRateCombiner
               Demo.convertFragmentShadingRate in
  let state := DemoStates.stateNaN in
  let cl1 := default initialCommandList (run initialCommandList state) in
  run initialCommandList state = Some cl1
  /\ exists cl2,
       run cl1 state = Some cl2
       /\ SetBlendConstants (GraphicsState.blendConstantColor state)
            ∈ newCalls cl1 cl2
       /\ existsb isSetViewport (newCalls cl1 cl2) = true.
Proof.
  intros run state cl1.
  assert (H1 : run initialCommandList state = Some cl1) by (vm_compute; reflexivity).
  split; [exact H1|].
  destruct (nan_defeats_the_state_cache _ _ _ _ _ _ _ _ H1) as (cl2 & E & P1 & P2).
  exists cl2. split; [exact E|]. split.
  - apply P1; vm_compute; reflexivity.
  - apply P2; vm_compute; reflexivity.
Defined.

Lemma shading_rate_is_set_on_every_call_witness :
  let run := setGraphicsState Demo.graphicsPipelineAt Demo.framebufferAt
               Demo.trackResourcesAndBarriers Demo.convertShadingRateCombiner
               Demo.convertFragmentShadingRate in
  let state := DemoStates.stateShadingRate in
  let cl1 := default initialCommandList (run initialCommandList state) in
  let cl2 := default initialCommandList (run cl1 state) in
  run cl1 state = Some cl2
  /\ exists pre,
       newCalls cl1 cl2 = pre ++ [SetFragmentShadingRateKHR (2, 2) 0 1]
       /\ existsb isSetFragmentShadingRate pre = false.
Proof.
  intros run state cl1 cl2.
  assert (H1 : run cl1 state = Some cl2) by (vm_compute; reflexivity).
  split; [exact H1|].
  exact (shading_rate_is_set_on_every_call _ _ _ _ _ _ _ _ H1).
Defined.

Lemma render_pass_restarts_only_when_needed_witness :
  let run := setGraphicsState Demo.graphicsPipelineAt Demo.framebufferAt
               Demo.trackResourcesAndBarriers Demo.convertShadingRateCombiner
               Demo.convertFragmentShadingRate in
  let cl1 := default initialCommandList (run initialCommandList Demo.stateA) in
  let cl2 := default initialCommandList (run cl1 Demo.stateB) in
  let pending :=
    pendingBarriers
      (m_StateTracker
         (trackBarriers Demo.trackResourcesAndBarriers Demo.stateB cl1)) in
  let current := GraphicsState.framebuffer (m_CurrentGraphicsState cl1) in
  run cl1 Demo.stateB = Some cl2
  /\ (existsb isBeginRendering (newCalls cl1 cl2) = true
      <-> GraphicsState.framebuffer Demo.stateB <> nullptr
          /\ (current <> GraphicsState.framebuffer Demo.stateB \/ pending <> []))
  /\ (existsb isEndRendering (newCalls cl1 cl2) = true
      <-> renderPassActive cl1 = true
          /\ (current <> GraphicsState.framebuffer Demo.stateB \/ pending <> []
              \/ current = nullptr))
  /\ (existsb isPipelineBarrier (newCalls cl1 cl2) = true <-> pending <> []).
Proof.
  intros run cl1 cl2 pending current.
  assert (H1 : run cl1 Demo.stateB = Some cl2) by (vm_compute; reflexivity).
  split; [exact H1|].
  exact (render_pass_restarts_only_when_needed _ _ _ _ _ _ _ _ H1).
Defined.

Lemma volatile_bindings_are_rebound_once_witness :
  let run := setGraphicsState Demo.graphicsPipelineAt Demo.framebufferAt
               Demo.trackResourcesAndBarriers Demo.convertShadingRateCombiner
               Demo.convertFragmentShadingRate in
  let cl :=
    setAnyVolatileBufferWrites true
      (default initialCommandList (run initialCommandList Demo.stateA)) in
  let cl1 := draw Demo.graphicsPipelineAt DrawArguments.init cl in
  m_AnyVolatileBufferWrites cl = true
  /\ GraphicsState.pipeline (m_CurrentGraphicsState cl) <> nullptr
  /\ existsb isBindDescriptorSets (newCalls cl cl1) = true
  /\ m_AnyVolatileBufferWrites cl1 = false
  /\ newCalls cl1 (drawIndexed Demo.graphicsPipelineAt DrawArguments.init cl1)
     = [DrawIndexed 0 1 0 0 0].
Proof.
  intros run cl cl1.
  assert (H1 : m_AnyVolatileBufferWrites cl = true) by (vm_compute; reflexivity).
  assert (H2 : GraphicsState.pipeline (m_CurrentGraphicsState cl) <> nullptr)
    by (vm_compute; discriminate).
  split; [exact H1|]. split; [exact H2|].
  destruct (volatile_bindings_are_rebound_once Demo.graphicsPipelineAt
              DrawArguments.init DrawArguments.init cl H1 H2) as (P1 & P2 & P3).
  split; [|split; [exact P2|exact P3]].
  unfold cl1. rewrite P1. reflexivity.
Defined.

Lemma dynamic_state_calls_are_declared_witness :
  let run := setGraphicsState Demo.graphicsPipelineAt Demo.framebufferAt
               Demo.trackResourcesAndBarriers Demo.convertShadingRateCombiner
               Demo.convertFragmentShadingRate in
  let cl' := default initialCommandList (run initialCommandList Demo.stateA) in
  run initialCommandList Demo.stateA = Some cl'
  /\ existsb isSetStencilReference (newCalls initialCommandList cl') = true
  /\ exists dynamicStates,
       pipelineDynamicStates true true true = Some dynamicStates
       /\ NoDup dynamicStates
       /\ eStencilReference ∈ dynamicStates.
Proof.
  intros run cl'.
  assert (H1 : run initialCommandList Demo.stateA = Some cl')
    by (vm_compute; reflexivity).
  assert (H2 : existsb isSetStencilReference (newCalls initialCommandList cl') = true)
    by (vm_compute; reflexivity).
  split; [exact H1|]. split; [exact H2|].
  destruct (dynamic_state_calls_are_declared _ _ _ _ _ _ _ _ true H1)
    as (v & E & P1 & _ & _ & _ & P5 & _).
  exists v. split; [exact E|]. split; [exact P1|exact (P5 H2)].
Defined.
